(** * ai-limits: a shallow embedding of [codexbar.py] and [limitsbar.py]

    The two scripts read OAuth credential files, refresh the Codex token
    when it is stale, query the usage endpoints and print one JSON payload
    for a status bar.  This file embeds both scripts and proves properties
    of their helpers and of their [main] functions.

    Conventions of the embedding
    - Python values that come out of [json.load] are the inductive [value];
      [None] and JSON [null] are the same constructor.
    - Python floats are IEEE binary64 numbers, [spec_float] with precision
      53 and maximal exponent 1024; ordering tests use the exact values.
    - Instants are microseconds since the Unix epoch; a [timedelta] is a
      number of microseconds and [total_seconds()] is its quotient by 10^6
      rounded to the nearest binary64 number, as the true division of two
      integers is.
    - Exceptions are explicit results; effects thread a [world]. *)

From Stdlib Require Import ZArith QArith Lqa String Ascii List Lia SpecFloat DecimalString.
From stdpp Require Import base option gmap strings.

Import ListNotations.
Local Open Scope Z_scope.
Local Open Scope string_scope.

(** ** Exceptions and results *)

(** Only three families of exceptions are told apart by the [except]
    clauses of the scripts. *)
Inductive exn :=
  | FileNotFoundError (msg : string)
  | HTTPError (code : Z) (reason : string)
  | Exception (cls msg : string).

Inductive result (A : Type) :=
  | Ok (a : A)
  | Raise (e : exn).
Arguments Ok {A} a.
Arguments Raise {A} e.

Definition rbind {A B} (r : result A) (k : A -> result B) : result B :=
  match r with Ok a => k a | Raise e => Raise e end.

Definition string_of_Z (z : Z) : string := NilZero.string_of_int (Z.to_int z).

(** [str(e)] *)
Definition exn_str (e : exn) : string :=
  match e with
  | FileNotFoundError msg => msg
  | HTTPError code reason => "HTTP Error " ++ string_of_Z code ++ ": " ++ reason
  | Exception _ msg => msg
  end.

Definition TypeError := Exception "TypeError".
Definition ValueError := Exception "ValueError".
Definition OverflowError := Exception "OverflowError".
Definition AttributeError := Exception "AttributeError".
Definition RuntimeError := Exception "RuntimeError".

(** ** Python values *)

#[local] Set Warnings "-register-all".

Inductive value :=
  | VNone
  | VBool (b : bool)
  | VInt (z : Z)
  | VFloat (f : spec_float)
  | VStr (s : string)
  | VList (l : list value)
  | VDict (d : list (string * value)).

Definition type_name (v : value) : string :=
  match v with
  | VNone => "NoneType"
  | VBool _ => "bool"
  | VInt _ => "int"
  | VFloat _ => "float"
  | VStr _ => "str"
  | VList _ => "list"
  | VDict _ => "dict"
  end.

Definition is_zero_float (f : spec_float) : bool :=
  match f with S754_zero _ => true | _ => false end.

(** [bool(v)] *)
Definition truthy (v : value) : bool :=
  match v with
  | VNone => false
  | VBool b => b
  | VInt z => negb (Z.eqb z 0)
  | VFloat f => negb (is_zero_float f)
  | VStr s => negb (String.eqb s "")
  | VList l => match l with [] => false | _ => true end
  | VDict d => match d with [] => false | _ => true end
  end.

(** [a or b] *)
Definition py_or (a b : value) : value := if truthy a then a else b.

Definition is_none (v : value) : bool :=
  match v with VNone => true | _ => false end.

(** *** Dictionaries: insertion-ordered, keys are strings *)

Fixpoint dict_lookup (d : list (string * value)) (k : string) : option value :=
  match d with
  | [] => None
  | (k', v) :: d' => if String.eqb k' k then Some v else dict_lookup d' k
  end.

Fixpoint dict_set (d : list (string * value)) (k : string) (v : value)
  : list (string * value) :=
  match d with
  | [] => [(k, v)]
  | (k', v') :: d' =>
      if String.eqb k' k then (k', v) :: d' else (k', v') :: dict_set d' k v
  end.

(** [o.get(k, default)] *)
Definition py_get_default (o : value) (k : string) (dflt : value) : result value :=
  match o with
  | VDict d => Ok (default dflt (dict_lookup d k))
  | _ => Raise (AttributeError
                  ("'" ++ type_name o ++ "' object has no attribute 'get'"))
  end.

(** [o.get(k)] *)
Definition py_get (o : value) (k : string) : result value :=
  py_get_default o k VNone.

(** [o[k] = v] *)
Definition py_setitem (o : value) (k : string) (v : value) : result value :=
  match o with
  | VDict d => Ok (VDict (dict_set d k v))
  | _ => Raise (TypeError
                  ("'" ++ type_name o ++ "' object does not support item assignment"))
  end.

(** ** Binary64 numbers *)

Module F64.
Definition prec : Z := 53.
Definition emax : Z := 1024.

Definition mul : spec_float -> spec_float -> spec_float := SFmul prec emax.
Definition div : spec_float -> spec_float -> spec_float := SFdiv prec emax.

(** Nearest binary64 number of an integer (ties to even). *)
Definition of_Z (z : Z) : spec_float := binary_normalize prec emax z 0 false.

Definition one : spec_float := S754_finite false 4503599627370496 (-52).
Definition hundred : spec_float := S754_finite false 7036874417766400 (-46).

(** Exact value of a zero or finite number, [0] for the others. *)
Definition to_Q (f : spec_float) : Q :=
  match f with
  | S754_finite s m e =>
      let sm := if s then Z.neg m else Z.pos m in
      if Z.leb 0 e then inject_Z (sm * 2 ^ e)
      else Qmake sm (Z.to_pos (2 ^ (- e)))
  | _ => 0%Q
  end.

Definition is_finite (f : spec_float) : bool :=
  match f with
  | S754_zero _ | S754_finite _ _ _ => true
  | _ => false
  end.
End F64.

(** Numbers extended with the two infinities and NaN: the numeric tower on
    which Python orders [bool], [int] and [float] operands exactly. *)
Inductive xnum :=
  | Fin (q : Q)
  | PInf
  | NInf
  | NaN.

Definition xnum_of_float (f : spec_float) : xnum :=
  match f with
  | S754_nan => NaN
  | S754_infinity false => PInf
  | S754_infinity true => NInf
  | _ => Fin (F64.to_Q f)
  end.

Definition xnum_of_value (v : value) : option xnum :=
  match v with
  | VBool b => Some (Fin (inject_Z (if b then 1 else 0)))
  | VInt z => Some (Fin (inject_Z z))
  | VFloat f => Some (xnum_of_float f)
  | _ => None
  end.

(** [None] when an operand is NaN: every ordering test is then false. *)
Definition xnum_compare (a b : xnum) : option comparison :=
  match a, b with
  | NaN, _ | _, NaN => None
  | PInf, PInf | NInf, NInf => Some Eq
  | PInf, _ | _, NInf => Some Gt
  | NInf, _ | _, PInf => Some Lt
  | Fin p, Fin q => Some (Qcompare p q)
  end.

Definition cmp_gt (c : option comparison) : bool :=
  match c with Some Gt => true | _ => false end.
Definition cmp_ge (c : option comparison) : bool :=
  match c with Some Gt | Some Eq => true | _ => false end.
Definition cmp_le (c : option comparison) : bool :=
  match c with Some Lt | Some Eq => true | _ => false end.

Definition not_supported (op : string) (a b : value) : exn :=
  TypeError ("'" ++ op ++ "' not supported between instances of '"
             ++ type_name a ++ "' and '" ++ type_name b ++ "'").

(** [a > b].  Numbers are ordered exactly and strings by code point; a list
    or a dict never reaches an ordering test in the scripts, [int()] has
    rejected it before. *)
Definition py_gt (a b : value) : result bool :=
  match xnum_of_value a, xnum_of_value b with
  | Some x, Some y => Ok (cmp_gt (xnum_compare x y))
  | _, _ =>
      match a, b with
      | VStr s, VStr t =>
          Ok (match String.compare s t with Gt => true | _ => false end)
      | _, _ => Raise (not_supported ">" a b)
      end
  end.

(** [a >= k] for an integer literal [k] *)
Definition py_ge_int (a : value) (k : Z) : result bool :=
  match xnum_of_value a with
  | Some x => Ok (cmp_ge (xnum_compare x (Fin (inject_Z k))))
  | None => Raise (not_supported ">=" a (VInt k))
  end.

(** Truncation toward zero of a rational. *)
Definition Qtrunc (q : Q) : Z := Z.quot (Qnum q) (Z.pos (Qden q)).

(** Rounding to the nearest integer, ties to the even one: [round(x)]. *)
Definition Qround_half_even (q : Q) : Z :=
  let n := Qnum q in
  let d := Z.pos (Qden q) in
  let fl := n / d in
  let r := n mod d in
  match Z.compare (2 * r) d with
  | Lt => fl
  | Gt => fl + 1
  | Eq => if Z.even fl then fl else fl + 1
  end.

(** [int(f)] on a float *)
Definition float_trunc (f : spec_float) : result Z :=
  match xnum_of_float f with
  | Fin q => Ok (Qtrunc q)
  | NaN => Raise (ValueError "cannot convert float NaN to integer")
  | _ => Raise (OverflowError "cannot convert float infinity to integer")
  end.

(** [round(f)] on a float *)
Definition float_round (f : spec_float) : result Z :=
  match xnum_of_float f with
  | Fin q => Ok (Qround_half_even q)
  | NaN => Raise (ValueError "cannot convert float NaN to integer")
  | _ => Raise (OverflowError "cannot convert float infinity to integer")
  end.

(** [float(z)] on an integer *)
Definition float_of_int (z : Z) : result spec_float :=
  match F64.of_Z z with
  | S754_infinity _ => Raise (OverflowError "int too large to convert to float")
  | f => Ok f
  end.

(** [a / b] on two integers: the quotient rounded once to the nearest
    binary64 number.  The quotient is computed with at least 56 significant
    bits and a sticky bit for the remainder, then rounded. *)
Definition int_true_div (a b : Z) : result spec_float :=
  if Z.eqb b 0 then Raise (Exception "ZeroDivisionError" "division by zero")
  else
    let neg := xorb (Z.ltb a 0) (Z.ltb b 0) in
    let a' := Z.abs a in
    let b' := Z.abs b in
    let k := Z.max 0 (56 + Z.log2 b' - Z.log2 a') in
    let q := (a' * 2 ^ k) / b' in
    let sticky := if Z.eqb ((a' * 2 ^ k) mod b') 0 then 0 else 1 in
    let m := 2 * q + sticky in
    match binary_normalize F64.prec F64.emax (if neg then - m else m) (- k - 1) false with
    | S754_infinity _ =>
        Raise (OverflowError "integer division result too large for a float")
    | f => Ok f
    end.

(** ** Correct rounding of a quotient of two integers

    The same rounding as [int_true_div], written with [Qround_half_even]
    on the quotient scaled to 53 significant bits, so that its distance to
    the exact quotient can be bounded. *)

(** [floor (log2 (n / d))] for positive [n] and [d] *)
Definition log2_ratio (n d : Z) : Z :=
  let k := Z.log2 n - Z.log2 d in
  if (if Z.leb 0 k then Z.leb (d * 2 ^ k) n else Z.leb d (n * 2 ^ (- k)))
  then k else k - 1.

(** [n / d / 2^e] rounded to the nearest integer, ties to even *)
Definition scaled_round (n d e : Z) : Z :=
  if Z.leb e 0 then Qround_half_even (Qmake (n * 2 ^ (- e)) (Z.to_pos d))
  else Qround_half_even (Qmake n (Z.to_pos (d * 2 ^ e))).

(** The binary64 number of sign [s], integer significand [m <= 2^53] and
    exponent [e]. *)
Definition pack (s : bool) (m e : Z) : spec_float :=
  let '(m, e) := if Z.eqb m (2 ^ 53) then (2 ^ 52, e + 1) else (m, e) in
  if Z.ltb (F64.emax - F64.prec) e then S754_infinity s
  else match m with
       | Zpos p => S754_finite s p e
       | _ => S754_zero s
       end.

(** [n / d] for [0 < n] and [0 < d], rounded to the nearest binary64
    number, ties to even: the significand has 53 bits, fewer below
    [2^-1022]. *)
Definition round_ratio_pos (s : bool) (n d : Z) : spec_float :=
  let e := Z.max (3 - F64.emax - F64.prec) (log2_ratio n d - (F64.prec - 1)) in
  pack s (scaled_round n d e) e.

(** [n / d] for [0 < d], rounded to the nearest binary64 number; an
    infinity when the quotient is past the greatest finite number. *)
Definition round_ratio (n d : Z) : spec_float :=
  match n with
  | Z0 => S754_zero false
  | Zpos _ => round_ratio_pos false n d
  | Zneg p => round_ratio_pos true (Zpos p) d
  end.

(** ** Strings *)

Definition CR : string := String (ascii_of_nat 13) "".

(** [s.endswith(suffix)] *)
Definition endswith (s suffix : string) : bool :=
  let n := String.length s in
  let k := String.length suffix in
  (k <=? n)%nat && String.eqb (substring (n - k) k s) suffix.

(** [s.startswith(p)] *)
Definition startswith (s p : string) : bool := String.prefix p s.

(** [s[:-1]] *)
Definition drop_last (s : string) : string :=
  substring 0 (String.length s - 1) s.

(** [sub in s] on two strings *)
Fixpoint contains (s sub : string) : bool :=
  String.prefix sub s ||
  match s with
  | EmptyString => false
  | String _ s' => contains s' sub
  end.

(** [s.replace(old, new)] for a non-empty [old]: scan from the left; after a
    match the next [length old - 1] characters are skipped. *)
Fixpoint replace_from (skip : nat) (old new s : string) : string :=
  match s with
  | EmptyString => EmptyString
  | String c s' =>
      match skip with
      | S n => replace_from n old new s'
      | O =>
          if String.prefix old s
          then new ++ replace_from (String.length old - 1) old new s'
          else String c (replace_from O old new s')
      end
  end.

Definition replace (s old new : string) : string := replace_from 0 old new s.

(** [sep.join(parts)] *)
Fixpoint str_join (sep : string) (parts : list string) : string :=
  match parts with
  | [] => ""
  | [p] => p
  | p :: rest => p ++ sep ++ str_join sep rest
  end.

(** [os.path.join(a, b)] of [posixpath] *)
Definition path_join (a b : string) : string :=
  if startswith b "/" then b
  else if String.eqb a "" || endswith a "/" then a ++ b
  else a ++ "/" ++ b.

(** Index just after the last ['/'] of [s], as [s.rfind('/') + 1]. *)
Fixpoint after_last_slash (s : string) : nat :=
  match s with
  | EmptyString => O
  | String c s' =>
      match after_last_slash s' with
      | O => if Ascii.eqb c "/" then 1%nat else O
      | S n => S (S n)
      end
  end.

Fixpoint all_slashes (s : string) : bool :=
  match s with
  | EmptyString => true
  | String c s' => Ascii.eqb c "/" && all_slashes s'
  end.

(** [head.rstrip('/')] *)
Fixpoint rstrip_slashes (s : string) : string :=
  match s with
  | EmptyString => EmptyString
  | String c s' => if all_slashes s then EmptyString else String c (rstrip_slashes s')
  end.

(** [os.path.dirname(p)] of [posixpath] *)
Definition dirname (p : string) : string :=
  let head := substring 0 (after_last_slash p) p in
  if negb (String.eqb head "") && negb (all_slashes head)
  then rstrip_slashes head else head.

(** ** Dates and times *)

(** A [datetime]: its wall-clock fields as microseconds since
    1970-01-01T00:00:00 read in its own zone, and the offset of that zone
    from UTC; a naive datetime has no offset. *)
Record datetime := { wall : Z; utcoffset : option Z }.

Definition utc_datetime (us : Z) : datetime := {| wall := us; utcoffset := Some 0 |}.

(** Seconds of 0001-01-01T00:00:00 and 9999-12-31T23:59:59 UTC: the range
    of [datetime]. *)
Definition MIN_TIMESTAMP : Z := -62135596800.
Definition MAX_TIMESTAMP : Z := 253402300799.

(** [datetime.fromtimestamp(t, tz=utc)] on an integer [t] *)
Definition fromtimestamp_int (t : Z) : result datetime :=
  if Z.leb MIN_TIMESTAMP t && Z.leb t MAX_TIMESTAMP
  then Ok (utc_datetime (t * 1000000))
  else Raise (ValueError "year is out of range").

(** [datetime.fromtimestamp(f, tz=utc)] on a float: whole seconds and
    fraction are split, the fraction times 1e6 is rounded half-even. *)
Definition fromtimestamp_float (f : spec_float) : result datetime :=
  rbind (float_trunc f) (fun secs =>
  let frac := SFsub F64.prec F64.emax f (F64.of_Z secs) in
  rbind (float_round (F64.mul frac (F64.of_Z 1000000))) (fun us =>
  let '(secs, us) :=
    if Z.leb 1000000 us then (secs + 1, us - 1000000)
    else if Z.ltb us 0 then (secs - 1, us + 1000000)
    else (secs, us) in
  if Z.leb MIN_TIMESTAMP secs && Z.leb secs MAX_TIMESTAMP
  then Ok (utc_datetime (secs * 1000000 + us))
  else Raise (ValueError "year is out of range"))).

(** [a - b] on two datetimes, a [timedelta] in microseconds *)
Definition datetime_sub (a b : datetime) : result Z :=
  match utcoffset a, utcoffset b with
  | Some oa, Some ob => Ok ((wall a - oa) - (wall b - ob))
  | None, None => Ok (wall a - wall b)
  | _, _ => Raise (TypeError "can't subtract offset-naive and offset-aware datetimes")
  end.

(** [a >= b] on two datetimes *)
Definition datetime_ge (a b : datetime) : result bool :=
  match utcoffset a, utcoffset b with
  | Some oa, Some ob => Ok (Z.leb (wall b - ob) (wall a - oa))
  | None, None => Ok (Z.leb (wall b) (wall a))
  | _, _ => Raise (TypeError "can't compare offset-naive and offset-aware datetimes")
  end.

(** [delta.total_seconds()]: the microseconds divided by [10**6], a true
    division of two integers.  A [timedelta] holds less than 10^9 days, so
    the quotient is far from the overflow that [round_ratio] turns into an
    infinity. *)
Definition total_seconds (delta : Z) : spec_float := round_ratio delta 1000000.

(** ** The Python library functions the scripts call

    Parsers and printers of the standard library whose text formats play
    no part in what is proved are taken as they are. *)
Record pylib := {
  (** [json.load(f)] and [json.loads(s)] on the text read *)
  json_loads : string -> result value;
  (** [json.dumps(v)], the body of the refresh request *)
  json_dumps : value -> string;
  (** [json.dumps(v, separators=(",", ":"))] *)
  json_dumps_compact : value -> string;
  (** the chunks [json.dump(v, f, indent=2, sort_keys=True)] writes to [f] *)
  json_dump_chunks : value -> list string;
  (** [str(v)] inside an f-string *)
  py_str : value -> string;
  (** [int(s)] and [float(s)] on a string *)
  int_of_str : string -> result Z;
  float_of_str : string -> result spec_float;
  (** [datetime.fromisoformat(s)] and [dt.isoformat()] *)
  fromisoformat : string -> result datetime;
  isoformat : datetime -> string;
  (** [dt.astimezone().strftime("%Y-%m-%d %H:%M")] on an aware datetime *)
  strftime_local : datetime -> result string;
  (** [dt.timestamp()] on a naive datetime, read in the local zone *)
  naive_timestamp : Z -> result spec_float;
}.

(** ** The world a run acts on *)

Record request := {
  req_method : string;
  req_url : string;
  req_headers : list (string * value);
  req_data : option string;
}.

(** File-system calls that open a file for writing or move one. *)
Inductive fs_op :=
  | OpenW (path : string)
  | WriteChunk (path chunk : string)
  | CloseW (path : string)
  | Replace (src dst : string).

Record world := {
  environ : gmap string string;
  (** [os.path.expanduser("~")] *)
  home : string;
  files : gmap string string;
  (** [urlopen(req, timeout=20)] followed by [resp.read().decode("utf-8")] *)
  urlopen : request -> result string;
  (** the successive readings of the system clock, in microseconds *)
  clock : nat -> Z;
  ticks : nat;
  stdout : list string;
  (** the file-system calls made so far, latest last *)
  fs_log : list fs_op;
}.

Definition set_files (fs : gmap string string) (w : world) : world :=
  {| environ := environ w; home := home w; files := fs; urlopen := urlopen w;
     clock := clock w; ticks := ticks w; stdout := stdout w; fs_log := fs_log w |}.
Definition set_ticks (n : nat) (w : world) : world :=
  {| environ := environ w; home := home w; files := files w; urlopen := urlopen w;
     clock := clock w; ticks := n; stdout := stdout w; fs_log := fs_log w |}.
Definition set_stdout (out : list string) (w : world) : world :=
  {| environ := environ w; home := home w; files := files w; urlopen := urlopen w;
     clock := clock w; ticks := ticks w; stdout := out; fs_log := fs_log w |}.
Definition set_fs_log (l : list fs_op) (w : world) : world :=
  {| environ := environ w; home := home w; files := files w; urlopen := urlopen w;
     clock := clock w; ticks := ticks w; stdout := stdout w; fs_log := l |}.

(** What one file-system call does to the files. *)
Definition fs_apply (op : fs_op) (fs : gmap string string)
  : result (gmap string string) :=
  match op with
  | OpenW p => Ok (<[p := ""]> fs)
  | WriteChunk p c => Ok (<[p := default "" (fs !! p) ++ c]> fs)
  | CloseW _ => Ok fs
  | Replace src dst =>
      match fs !! src with
      | Some c => Ok (<[dst := c]> (delete src fs))
      | None => Raise (FileNotFoundError
                         ("[Errno 2] No such file or directory: '" ++ src ++ "'"))
      end
  end.

(** *** Computations: a state and exception monad over the world *)

Definition M (A : Type) : Type := world -> result A * world.

Definition ret {A} (a : A) : M A := fun w => (Ok a, w).
Definition raise {A} (e : exn) : M A := fun w => (Raise e, w).
Definition bind {A B} (c : M A) (k : A -> M B) : M B :=
  fun w => match c w with
           | (Ok a, w') => k a w'
           | (Raise e, w') => (Raise e, w')
           end.
Definition lift {A} (r : result A) : M A := fun w => (r, w).
Definition gets {A} (f : world -> A) : M A := fun w => (Ok (f w), w).

Declare Scope py_scope.
Delimit Scope py_scope with py.
Notation "x <- c ;; k" := (bind c (fun x => k))
  (at level 100, c at next level, right associativity) : py_scope.
Notation "c ;; k" := (bind c (fun _ => k))
  (at level 100, right associativity) : py_scope.

(** [try: c except Exception ...: h e] *)
Definition try_except {A} (c : M A) (h : exn -> M A) : M A :=
  fun w => match c w with
           | (Ok a, w') => (Ok a, w')
           | (Raise e, w') => h e w'
           end.

Definition fs_do (op : fs_op) : M unit :=
  fun w => let w := set_fs_log (fs_log w ++ [op]) w in
           match fs_apply op (files w) with
           | Ok fs => (Ok tt, set_files fs w)
           | Raise e => (Raise e, w)
           end.

Fixpoint fs_do_all (ops : list fs_op) : M unit :=
  match ops with
  | [] => ret tt
  | op :: ops' => bind (fs_do op) (fun _ => fs_do_all ops')
  end.

(** [sys.stdout.write(s)] *)
Definition stdout_write (s : string) : M unit :=
  fun w => (Ok tt, set_stdout (stdout w ++ [s]) w).

(** [int(v)] *)
Definition py_int (L : pylib) (v : value) : result Z :=
  match v with
  | VBool b => Ok (if b then 1 else 0)
  | VInt z => Ok z
  | VFloat f => float_trunc f
  | VStr s => int_of_str L s
  | _ => Raise (TypeError
                  ("int() argument must be a string, a bytes-like object or a real number, not '"
                   ++ type_name v ++ "'"))
  end.

(** [float(v)] *)
Definition py_float (L : pylib) (v : value) : result spec_float :=
  match v with
  | VBool b => Ok (if b then F64.one else S754_zero false)
  | VInt z => float_of_int z
  | VFloat f => Ok f
  | VStr s => float_of_str L s
  | _ => Raise (TypeError
                  ("float() argument must be a string or a real number, not '"
                   ++ type_name v ++ "'"))
  end.

(** [max(l)]: the first of the greatest elements under [>] *)
Fixpoint py_max_from (best : value) (l : list value) : result value :=
  match l with
  | [] => Ok best
  | x :: l' =>
      rbind (py_gt x best) (fun b => py_max_from (if b then x else best) l')
  end.

Definition py_max (l : list value) : result value :=
  match l with
  | [] => Raise (ValueError "max() arg is an empty sequence")
  | x :: l' => py_max_from x l'
  end.

Local Open Scope py_scope.

(** * codexbar.py *)

Module Codexbar.

Definition AUTH_REFRESH_INTERVAL_SECONDS : Z := 8 * 24 * 60 * 60.
Definition DEFAULT_USAGE_URL : string := "https://chatgpt.com/backend-api/wham/usage".
Definition REFRESH_URL : string := "https://auth.openai.com/oauth/token".
Definition REFRESH_CLIENT_ID : string := "app_EMoamEEZ73f0CkXaXp7hrann".

Section Helpers.
Context (L : pylib).

Definition _now_utc : M datetime :=
  fun w => (Ok (utc_datetime (clock w (ticks w))), set_ticks (S (ticks w)) w).

Definition _parse_iso8601 (value : value) : option datetime :=
  if negb (truthy value) then None
  else
    match value with
    | VStr s =>
        let s := if endswith s "Z" then drop_last s ++ "+00:00" else s in
        match fromisoformat L s with
        | Ok dt => Some dt
        | Raise _ => None
        end
    | _ => None
    end.

Definition _auth_path : M string :=
  codex_home <- gets (fun w => environ w !! "CODEX_HOME") ;;
  match codex_home with
  | Some h =>
      if negb (String.eqb h "") then ret (path_join h "auth.json")
      else gets (fun w => path_join (path_join (home w) ".codex") "auth.json")
  | None => gets (fun w => path_join (path_join (home w) ".codex") "auth.json")
  end.

Definition _read_auth : M (value * string) :=
  path <- _auth_path ;;
  content <- gets (fun w => files w !! path) ;;
  match content with
  | None => raise (FileNotFoundError ("auth.json not found at " ++ path))
  | Some text =>
      data <- lift (json_loads L text) ;;
      ret (data, path)
  end.

(** The file-system calls of [_write_auth], in order. *)
Definition _write_auth_ops (path : string) (data : value) : list fs_op :=
  let tmp := path ++ ".tmp" in
  ([OpenW tmp] ++ map (WriteChunk tmp) (json_dump_chunks L data)
   ++ [CloseW tmp; Replace tmp path])%list.

Definition _write_auth (path : string) (data : value) : M unit :=
  fs_do_all (_write_auth_ops path data).

Definition _needs_refresh (last_refresh : option datetime) : M bool :=
  match last_refresh with
  | None => ret true
  | Some lr =>
      now <- _now_utc ;;
      delta <- lift (datetime_sub now lr) ;;
      let age := total_seconds delta in
      lift (py_gt (VFloat age) (VInt AUTH_REFRESH_INTERVAL_SECONDS))
  end.

Definition _refresh_tokens (refresh_token : value) : M value :=
  let payload := VDict [("client_id", VStr REFRESH_CLIENT_ID);
                        ("grant_type", VStr "refresh_token");
                        ("refresh_token", refresh_token);
                        ("scope", VStr "openid profile email")] in
  let body := json_dumps L payload in
  let req := {| req_method := "POST"; req_url := REFRESH_URL;
                req_headers := [("Content-Type", VStr "application/json")];
                req_data := Some body |} in
  resp <- gets (fun w => urlopen w req) ;;
  data <- lift resp ;;
  lift (json_loads L data).

Definition _fetch_usage (access_token account_id : value) : M value :=
  url <- gets (fun w => default DEFAULT_USAGE_URL (environ w !! "CODEX_USAGE_URL")) ;;
  let headers := [("Authorization", VStr ("Bearer " ++ py_str L access_token));
                  ("User-Agent", VStr "codex-cli");
                  ("Accept", VStr "application/json")] in
  let headers :=
    if truthy account_id then (headers ++ [("ChatGPT-Account-Id", account_id)])%list
    else headers in
  let req := {| req_method := "GET"; req_url := url;
                req_headers := headers; req_data := None |} in
  resp <- gets (fun w => urlopen w req) ;;
  data <- lift resp ;;
  lift (json_loads L data).

Definition _format_reset (ts : value) : result string :=
  if negb (truthy ts) then Ok "unknown"
  else
    match rbind (py_int L ts) fromtimestamp_int with
    | Raise _ => Ok "unknown"
    | Ok dt => strftime_local L dt
    end.

Definition _format_eta (ts : value) : M string :=
  if negb (truthy ts) then ret "unknown"
  else
    match rbind (py_int L ts) fromtimestamp_int with
    | Raise _ => ret "unknown"
    | Ok target =>
        now <- _now_utc ;;
        delta <- lift (datetime_sub target now) ;;
        total <- lift (float_trunc (total_seconds delta)) ;;
        if Z.leb total 0 then ret "now"
        else
          let hours := total / 3600 in
          let minutes := (total mod 3600) / 60 in
          ret (string_of_Z hours ++ "h " ++ string_of_Z minutes ++ "m")
    end.

Definition _class_for (percent : value) : result string :=
  if is_none percent then Ok "unknown"
  else
    rbind (py_ge_int percent 90) (fun c =>
    if c then Ok "critical"
    else
      rbind (py_ge_int percent 70) (fun w =>
      if w then Ok "warn" else Ok "ok")).

Definition _emit (payload : value) : M unit :=
  stdout_write (json_dumps_compact L payload).

(** [f"{int(p)}%"], or the placeholder when [p] is [None] *)
Definition percent_text (p : value) : result string :=
  if is_none p then Ok "--"
  else rbind (py_int L p) (fun n => Ok (string_of_Z n ++ "%")).

(** One turn of the loop of [main] that keeps the greatest percentage. *)
Definition top_step (top_percent p : value) : result value :=
  if is_none p then Ok top_percent
  else if is_none top_percent then Ok p
  else rbind (py_gt p top_percent) (fun b => Ok (if b then p else top_percent)).

Definition error_payload (tooltip : string) : value :=
  VDict [("text", VStr "Codex --");
         ("tooltip", VStr tooltip);
         ("class", VStr "error");
         ("percentage", VInt 0);
         ("alt", VStr "codex")].

(** What [main] holds when it reaches the test of the refresh branch. *)
Record credentials := {
  cr_auth : value;
  cr_path : string;
  cr_tokens : value;
  cr_access_token : value;
  cr_refresh_token : value;
  cr_account_id : value;
  cr_last_refresh : option datetime;
}.

(** [main], from [_read_auth()] to [last_refresh = ...]. *)
Definition load_credentials : M credentials :=
  ap <- _read_auth ;;
  let '(auth, path) := ap in
  t <- lift (py_get auth "tokens") ;;
  let tokens := py_or t (VDict []) in
  access_token <- lift (py_get tokens "access_token") ;;
  refresh_token <- lift (py_get tokens "refresh_token") ;;
  account_id <- lift (py_get tokens "account_id") ;;
  (if negb (truthy access_token)
   then raise (RuntimeError "Missing access_token in auth.json")
   else ret tt) ;;
  lr <- lift (py_get auth "last_refresh") ;;
  ret {| cr_auth := auth; cr_path := path; cr_tokens := tokens;
         cr_access_token := access_token; cr_refresh_token := refresh_token;
         cr_account_id := account_id; cr_last_refresh := _parse_iso8601 lr |}.

(** The body of the refresh branch; it yields the new access token. *)
Definition refresh (c : credentials) : M value :=
  refreshed <- _refresh_tokens (cr_refresh_token c) ;;
  a <- lift (py_get_default refreshed "access_token" (cr_access_token c)) ;;
  tokens <- lift (py_setitem (cr_tokens c) "access_token" a) ;;
  r <- lift (py_get_default refreshed "refresh_token" (cr_refresh_token c)) ;;
  tokens <- lift (py_setitem tokens "refresh_token" r) ;;
  i <- lift (py_get refreshed "id_token") ;;
  tokens <- (if truthy i then lift (py_setitem tokens "id_token" i) else ret tokens) ;;
  auth <- lift (py_setitem (cr_auth c) "tokens" tokens) ;;
  now <- _now_utc ;;
  auth <- lift (py_setitem auth "last_refresh"
                  (VStr (replace (isoformat L now) "+00:00" "Z"))) ;;
  _write_auth (cr_path c) auth ;;
  lift (py_get tokens "access_token").

(** [if refresh_token and _needs_refresh(last_refresh): ...] *)
Definition refresh_if_stale (c : credentials) : M value :=
  stale <- (if truthy (cr_refresh_token c)
            then _needs_refresh (cr_last_refresh c) else ret false) ;;
  if stale then refresh c else ret (cr_access_token c).

Record windows := {
  daily_percent : value;
  weekly_percent : value;
  daily_reset : value;
  weekly_reset : value;
}.

(** [main], from [rate_limit = ...] to [weekly_reset = ...]. *)
Definition read_windows (usage : value) : result windows :=
  rbind (py_get usage "rate_limit") (fun rl =>
  let rate_limit := py_or rl (VDict []) in
  rbind (py_get rate_limit "primary_window") (fun pw =>
  let primary := py_or pw (VDict []) in
  rbind (py_get rate_limit "secondary_window") (fun sw =>
  let secondary := py_or sw (VDict []) in
  rbind (py_get primary "used_percent") (fun dp =>
  rbind (py_get secondary "used_percent") (fun wp =>
  rbind (py_get primary "reset_at") (fun dr =>
  rbind (py_get secondary "reset_at") (fun wr =>
  Ok {| daily_percent := dp; weekly_percent := wp;
        daily_reset := dr; weekly_reset := wr |}))))))).

(** The greatest known percentage, by the loop of [main]. *)
Definition top_of (win : windows) : result value :=
  rbind (top_step VNone (daily_percent win))
    (fun t => top_step t (weekly_percent win)).

(** [main], from [daily_text = ...] to the payload. *)
Definition render (win : windows) : M value :=
  daily_text <- lift (percent_text (daily_percent win)) ;;
  weekly_text <- lift (percent_text (weekly_percent win)) ;;
  let text := "D " ++ daily_text ++ " · W " ++ weekly_text in
  top_percent <- lift (top_of win) ;;
  daily_at <- lift (_format_reset (daily_reset win)) ;;
  daily_eta <- _format_eta (daily_reset win) ;;
  weekly_at <- lift (_format_reset (weekly_reset win)) ;;
  weekly_eta <- _format_eta (weekly_reset win) ;;
  now <- _now_utc ;;
  updated <- lift (strftime_local L now) ;;
  let tooltip_lines :=
    ["Daily used: " ++ daily_text;
     "Daily reset: " ++ daily_at ++ " (" ++ daily_eta ++ ")";
     "Weekly used: " ++ weekly_text;
     "Weekly reset: " ++ weekly_at ++ " (" ++ weekly_eta ++ ")";
     "Updated: " ++ updated] in
  let tooltip := str_join CR tooltip_lines in
  cls <- lift (_class_for top_percent) ;;
  percentage <- lift (if is_none top_percent then Ok 0 else py_int L top_percent) ;;
  ret (VDict [("text", VStr text);
              ("tooltip", VStr tooltip);
              ("class", VStr cls);
              ("percentage", VInt percentage);
              ("alt", VStr "codex")]).

(** The body of the [try] block of [main]. *)
Definition main_try : M unit :=
  c <- load_credentials ;;
  access_token <- refresh_if_stale c ;;
  usage <- _fetch_usage access_token (cr_account_id c) ;;
  win <- lift (read_windows usage) ;;
  payload <- render win ;;
  _emit payload.

Definition main : M unit :=
  try_except main_try (fun e =>
    match e with
    | HTTPError code _ => _emit (error_payload ("HTTP error: " ++ string_of_Z code))
    | _ => _emit (error_payload ("Error: " ++ exn_str e))
    end).

End Helpers.
End Codexbar.

(** * limitsbar.py *)

Module Limitsbar.

Definition AUTH_REFRESH_INTERVAL_SECONDS : Z := 8 * 24 * 60 * 60.
Definition DEFAULT_USAGE_URL : string := "https://chatgpt.com/backend-api/wham/usage".
Definition REFRESH_URL : string := "https://auth.openai.com/oauth/token".
Definition REFRESH_CLIENT_ID : string := "app_EMoamEEZ73f0CkXaXp7hrann".

Definition ICON_FIVE_HOUR : string := "󱑁".
Definition ICON_WEEKLY : string := "󰃭".
Definition ICON_UNAVAILABLE : string := "󰅚".

Section Helpers.
Context (L : pylib).

Definition _now_utc : M datetime :=
  fun w => (Ok (utc_datetime (clock w (ticks w))), set_ticks (S (ticks w)) w).

Definition _parse_iso8601 (value : value) : option datetime :=
  if negb (truthy value) then None
  else
    match value with
    | VStr s =>
        let s := if endswith s "Z" then drop_last s ++ "+00:00" else s in
        match fromisoformat L s with
        | Ok dt => Some dt
        | Raise _ => None
        end
    | _ => None
    end.

Definition _auth_path : M string :=
  codex_home <- gets (fun w => environ w !! "CODEX_HOME") ;;
  match codex_home with
  | Some h =>
      if negb (String.eqb h "") then ret (path_join h "auth.json")
      else gets (fun w => path_join (path_join (home w) ".codex") "auth.json")
  | None => gets (fun w => path_join (path_join (home w) ".codex") "auth.json")
  end.

Definition _read_auth : M (value * string) :=
  path <- _auth_path ;;
  content <- gets (fun w => files w !! path) ;;
  match content with
  | None => raise (FileNotFoundError ("auth.json not found at " ++ path))
  | Some text =>
      data <- lift (json_loads L text) ;;
      ret (data, path)
  end.

(** The file-system calls of [_write_auth], in order. *)
Definition _write_auth_ops (path : string) (data : value) : list fs_op :=
  let tmp := path ++ ".tmp" in
  ([OpenW tmp] ++ map (WriteChunk tmp) (json_dump_chunks L data)
   ++ [CloseW tmp; Replace tmp path])%list.

Definition _write_auth (path : string) (data : value) : M unit :=
  fs_do_all (_write_auth_ops path data).

Definition _needs_refresh (last_refresh : option datetime) : M bool :=
  match last_refresh with
  | None => ret true
  | Some lr =>
      now <- _now_utc ;;
      delta <- lift (datetime_sub now lr) ;;
      let age := total_seconds delta in
      lift (py_gt (VFloat age) (VInt AUTH_REFRESH_INTERVAL_SECONDS))
  end.

Definition _refresh_tokens (refresh_token : value) : M value :=
  let payload := VDict [("client_id", VStr REFRESH_CLIENT_ID);
                        ("grant_type", VStr "refresh_token");
                        ("refresh_token", refresh_token);
                        ("scope", VStr "openid profile email")] in
  let body := json_dumps L payload in
  let req := {| req_method := "POST"; req_url := REFRESH_URL;
                req_headers := [("Content-Type", VStr "application/json")];
                req_data := Some body |} in
  resp <- gets (fun w => urlopen w req) ;;
  data <- lift resp ;;
  lift (json_loads L data).

Definition _fetch_usage (access_token account_id : value) : M value :=
  url <- gets (fun w => default DEFAULT_USAGE_URL (environ w !! "CODEX_USAGE_URL")) ;;
  let headers := [("Authorization", VStr ("Bearer " ++ py_str L access_token));
                  ("User-Agent", VStr "codex-cli");
                  ("Accept", VStr "application/json")] in
  let headers :=
    if truthy account_id then (headers ++ [("ChatGPT-Account-Id", account_id)])%list
    else headers in
  let req := {| req_method := "GET"; req_url := url;
                req_headers := headers; req_data := None |} in
  resp <- gets (fun w => urlopen w req) ;;
  data <- lift resp ;;
  lift (json_loads L data).

Definition _format_reset (ts : value) : result string :=
  if negb (truthy ts) then Ok "unknown"
  else
    match rbind (py_int L ts) fromtimestamp_int with
    | Raise _ => Ok "unknown"
    | Ok dt => strftime_local L dt
    end.

Definition _format_eta (ts : value) : M string :=
  if negb (truthy ts) then ret "unknown"
  else
    match rbind (py_int L ts) fromtimestamp_int with
    | Raise _ => ret "unknown"
    | Ok target =>
        now <- _now_utc ;;
        delta <- lift (datetime_sub target now) ;;
        total <- lift (float_trunc (total_seconds delta)) ;;
        if Z.leb total 0 then ret "now"
        else
          let hours := total / 3600 in
          let minutes := (total mod 3600) / 60 in
          ret (string_of_Z hours ++ "h " ++ string_of_Z minutes ++ "m")
    end.

(** [dt.timestamp()] *)
Definition datetime_timestamp (dt : datetime) : result spec_float :=
  match utcoffset dt with
  | Some off => Ok (total_seconds (wall dt - off))
  | None => naive_timestamp L (wall dt)
  end.

Definition _format_reset_dt (dt : option datetime) : M (string * string) :=
  match dt with
  | None => ret ("unknown", "unknown")
  | Some dt =>
      match rbind (datetime_timestamp dt) float_trunc with
      | Raise _ => ret ("unknown", "unknown")
      | Ok t =>
          let ts := VInt t in
          at_ <- lift (_format_reset ts) ;;
          eta <- _format_eta ts ;;
          ret (at_, eta)
      end
  end.

Definition _class_for (percent : value) : result string :=
  if is_none percent then Ok "unknown"
  else
    rbind (py_ge_int percent 90) (fun c =>
    if c then Ok "critical"
    else
      rbind (py_ge_int percent 70) (fun w =>
      if w then Ok "warn" else Ok "ok")).

Definition _claude_credentials_path : M string :=
  gets (fun w => path_join (path_join (home w) ".claude") ".credentials.json").

Definition _read_claude_credentials : M (value * string) :=
  path <- _claude_credentials_path ;;
  content <- gets (fun w => files w !! path) ;;
  match content with
  | None => raise (FileNotFoundError "Claude credentials not found")
  | Some text =>
      data <- lift (json_loads L text) ;;
      i <- lift (py_get data "claudeAiOauth") ;;
      let inner := py_or i (VDict []) in
      ret (inner, path)
  end.

Definition _parse_claude_resets (value : value) : option datetime :=
  if negb (truthy value) then None
  else _parse_iso8601 value.

Definition _claude_usage_percent (utilization : value) : result (option Z) :=
  if is_none utilization then Ok None
  else
    match py_float L utilization with
    | Raise _ => Ok None
    | Ok val =>
        if cmp_le (xnum_compare (xnum_of_float val) (Fin 1))
        then rbind (float_round (F64.mul val F64.hundred)) (fun n => Ok (Some n))
        else rbind (float_round val) (fun n => Ok (Some n))
    end.

(** ["user:profile" not in scopes]: membership of a string in a list, a
    string or a dict *)
Definition py_contains (container : value) (s : string) : result bool :=
  match container with
  | VList l => Ok (existsb (fun x => match x with
                                     | VStr t => String.eqb t s
                                     | _ => false
                                     end) l)
  | VStr t => Ok (contains t s)
  | VDict d => Ok (match dict_lookup d s with Some _ => true | None => false end)
  | _ => Raise (TypeError
                  ("argument of type '" ++ type_name container ++ "' is not iterable"))
  end.

(** [expires_at / 1000] *)
Definition div_1000 (expires_at : value) : result spec_float :=
  match expires_at with
  | VBool b => int_true_div (if b then 1 else 0) 1000
  | VInt z => int_true_div z 1000
  | VFloat f => Ok (F64.div f (F64.of_Z 1000))
  | _ => Raise (TypeError "unsupported operand type(s) for /")
  end.

Definition is_int_or_float (v : value) : bool :=
  match v with
  | VBool _ | VInt _ | VFloat _ => true
  | _ => false
  end.

Record claude_status := {
  session_percent : option Z;
  week_percent : option Z;
  session_reset : option datetime;
  week_reset : option datetime;
}.

Record codex_status := {
  daily_percent : value;
  weekly_percent : value;
  daily_reset : value;
  weekly_reset : value;
}.

(** What is left of [_get_claude_status] once the credentials are read. *)
Definition claude_after_read (cred : value) : M (option claude_status * option string) :=
  access <- lift (py_get cred "accessToken") ;;
  sc <- lift (py_get cred "scopes") ;;
  let scopes := py_or sc (VList []) in
  expires_at <- lift (py_get cred "expiresAt") ;;
  if negb (truthy access) then ret (None, Some "Claude access token missing")
  else
    has_scope <- lift (py_contains scopes "user:profile") ;;
    if negb has_scope then ret (None, Some "Claude token missing user:profile scope")
    else
      positive <- (if is_int_or_float expires_at
                   then lift (py_gt expires_at (VInt 0)) else ret false) ;;
      expired <-
        (if positive then
           secs <- lift (div_1000 expires_at) ;;
           exp_dt <- lift (fromtimestamp_float secs) ;;
           now <- _now_utc ;;
           lift (datetime_ge now exp_dt)
         else ret false) ;;
      if expired then ret (None, Some "Claude token expired (run `claude login`)")
      else
        let req := {| req_method := "GET";
                      req_url := "https://api.anthropic.com/api/oauth/usage";
                      req_headers :=
                        [("Authorization", VStr ("Bearer " ++ py_str L access));
                         ("anthropic-beta", VStr "oauth-2025-04-20")];
                      req_data := None |} in
        fetched <- try_except
                     (resp <- gets (fun w => urlopen w req) ;;
                      text <- lift resp ;;
                      data <- lift (json_loads L text) ;;
                      ret (inl data))
                     (fun e => ret (inr e)) ;;
        match fetched with
        | inr (HTTPError code _) =>
            ret (None, Some ("Claude HTTP error: " ++ string_of_Z code))
        | inr e => ret (None, Some ("Claude error: " ++ exn_str e))
        | inl data =>
            fh <- lift (py_get data "five_hour") ;;
            let five_hour := py_or fh (VDict []) in
            sd <- lift (py_get data "seven_day") ;;
            let seven_day := py_or sd (VDict []) in
            u5 <- lift (py_get five_hour "utilization") ;;
            session_percent <- lift (_claude_usage_percent u5) ;;
            u7 <- lift (py_get seven_day "utilization") ;;
            week_percent <- lift (_claude_usage_percent u7) ;;
            r5 <- lift (py_get five_hour "resets_at") ;;
            let session_reset := _parse_claude_resets r5 in
            r7 <- lift (py_get seven_day "resets_at") ;;
            let week_reset := _parse_claude_resets r7 in
            match session_percent, week_percent with
            | None, None => ret (None, Some "Claude usage unavailable")
            | _, _ =>
                ret (Some {| session_percent := session_percent;
                             week_percent := week_percent;
                             session_reset := session_reset;
                             week_reset := week_reset |}, None)
            end
        end.

Definition _get_claude_status : M (option claude_status * option string) :=
  fun w =>
    match _read_claude_credentials w with
    | (Raise (FileNotFoundError _), w') =>
        (Ok (None, Some "Claude credentials not found (run `claude login`)"), w')
    | (Raise e, w') => (Raise e, w')
    | (Ok (cred, _), w') => claude_after_read cred w'
    end.

(** What [_get_codex_status] holds when it reaches the test of the
    refresh branch. *)
Record credentials := {
  cr_auth : value;
  cr_path : string;
  cr_tokens : value;
  cr_access_token : value;
  cr_refresh_token : value;
  cr_account_id : value;
  cr_last_refresh : option datetime;
}.

(** [_get_codex_status], from [_read_auth()] to [last_refresh = ...];
    [None] when it returns early for want of an access token. *)
Definition load_credentials : M (option credentials) :=
  ap <- _read_auth ;;
  let '(auth, path) := ap in
  t <- lift (py_get auth "tokens") ;;
  let tokens := py_or t (VDict []) in
  access_token <- lift (py_get tokens "access_token") ;;
  refresh_token <- lift (py_get tokens "refresh_token") ;;
  account_id <- lift (py_get tokens "account_id") ;;
  if negb (truthy access_token) then ret None
  else
    lr <- lift (py_get auth "last_refresh") ;;
    ret (Some {| cr_auth := auth; cr_path := path; cr_tokens := tokens;
                 cr_access_token := access_token; cr_refresh_token := refresh_token;
                 cr_account_id := account_id; cr_last_refresh := _parse_iso8601 lr |}).

(** The body of the refresh branch; it yields the new access token. *)
Definition refresh (c : credentials) : M value :=
  refreshed <- _refresh_tokens (cr_refresh_token c) ;;
  a <- lift (py_get_default refreshed "access_token" (cr_access_token c)) ;;
  tokens <- lift (py_setitem (cr_tokens c) "access_token" a) ;;
  r <- lift (py_get_default refreshed "refresh_token" (cr_refresh_token c)) ;;
  tokens <- lift (py_setitem tokens "refresh_token" r) ;;
  i <- lift (py_get refreshed "id_token") ;;
  tokens <- (if truthy i then lift (py_setitem tokens "id_token" i) else ret tokens) ;;
  auth <- lift (py_setitem (cr_auth c) "tokens" tokens) ;;
  now <- _now_utc ;;
  auth <- lift (py_setitem auth "last_refresh"
                  (VStr (replace (isoformat L now) "+00:00" "Z"))) ;;
  _write_auth (cr_path c) auth ;;
  lift (py_get tokens "access_token").

(** [if refresh_token and _needs_refresh(last_refresh): ...] *)
Definition refresh_if_stale (c : credentials) : M value :=
  stale <- (if truthy (cr_refresh_token c)
            then _needs_refresh (cr_last_refresh c) else ret false) ;;
  if stale then refresh c else ret (cr_access_token c).

(** [_get_codex_status], from [rate_limit = ...] to the dict returned. *)
Definition read_status (usage : value) : result codex_status :=
  rbind (py_get usage "rate_limit") (fun rl =>
  let rate_limit := py_or rl (VDict []) in
  rbind (py_get rate_limit "primary_window") (fun pw =>
  let primary := py_or pw (VDict []) in
  rbind (py_get rate_limit "secondary_window") (fun sw =>
  let secondary := py_or sw (VDict []) in
  rbind (py_get primary "used_percent") (fun dp =>
  rbind (py_get secondary "used_percent") (fun wp =>
  rbind (py_get primary "reset_at") (fun dr =>
  rbind (py_get secondary "reset_at") (fun wr =>
  Ok {| daily_percent := dp; weekly_percent := wp;
        daily_reset := dr; weekly_reset := wr |}))))))).

(** The body of the [try] block of [_get_codex_status]. *)
Definition codex_try : M (option codex_status * option string) :=
  oc <- load_credentials ;;
  match oc with
  | None => ret (None, Some "Codex auth.json missing access token")
  | Some c =>
      access_token <- refresh_if_stale c ;;
      usage <- _fetch_usage access_token (cr_account_id c) ;;
      status <- lift (read_status usage) ;;
      ret (Some status, None)
  end.

Definition _get_codex_status : M (option codex_status * option string) :=
  try_except codex_try (fun e =>
    match e with
    | FileNotFoundError _ =>
        ret (None, Some "Codex auth.json not found (run `codex login`)")
    | HTTPError code _ =>
        ret (None, Some ("Codex HTTP error: " ++ string_of_Z code))
    | _ => ret (None, Some ("Codex error: " ++ exn_str e))
    end).

Definition _emit (payload : value) : M unit :=
  stdout_write (json_dumps_compact L payload).

(** [f"{int(p)}%"], or the placeholder when [p] is [None] *)
Definition percent_text (p : value) : result string :=
  if is_none p then Ok "--"
  else rbind (py_int L p) (fun n => Ok (string_of_Z n ++ "%")).

Definition opt_int (o : option Z) : value :=
  match o with Some n => VInt n | None => VNone end.

(** [f"{e}"] of an error message that may be [None] *)
Definition err_text (e : option string) : string := default "None" e.

(** The Codex segment of [main]: the known percentages, the label and
    the two tooltip lines. *)
Definition codex_segment (codex : option codex_status) (codex_err : option string)
  : M (list value * string * list string) :=
  match codex with
  | Some c =>
      let d := daily_percent c in
      let w := weekly_percent c in
      let percents := ((if is_none d then [] else [d])
                       ++ (if is_none w then [] else [w]))%list in
      d_text <- lift (percent_text d) ;;
      w_text <- lift (percent_text w) ;;
      let part := "Codex " ++ ICON_FIVE_HOUR ++ " " ++ d_text ++ " "
                  ++ ICON_WEEKLY ++ " " ++ w_text in
      d_at <- lift (_format_reset (daily_reset c)) ;;
      d_eta <- _format_eta (daily_reset c) ;;
      w_at <- lift (_format_reset (weekly_reset c)) ;;
      w_eta <- _format_eta (weekly_reset c) ;;
      ret (percents, part,
           ["Codex — 5h: " ++ d_text ++ " (resets " ++ d_at ++ ", " ++ d_eta ++ ")";
            "Codex — Weekly: " ++ w_text ++ " (resets " ++ w_at ++ ", " ++ w_eta ++ ")"])
  | None =>
      ret ([], "Codex " ++ ICON_UNAVAILABLE,
           ["Codex — Not available (" ++ err_text codex_err ++ ")"])
  end.

(** The Claude segment of [main]. *)
Definition claude_segment (claude : option claude_status) (claude_err : option string)
  : M (list value * string * list string) :=
  match claude with
  | Some c =>
      let s := opt_int (session_percent c) in
      let w := opt_int (week_percent c) in
      let percents := ((if is_none s then [] else [s])
                       ++ (if is_none w then [] else [w]))%list in
      s_text <- lift (percent_text s) ;;
      w_text <- lift (percent_text w) ;;
      let part := "Claude " ++ ICON_FIVE_HOUR ++ " " ++ s_text ++ " "
                  ++ ICON_WEEKLY ++ " " ++ w_text in
      sr <- _format_reset_dt (session_reset c) ;;
      wr <- _format_reset_dt (week_reset c) ;;
      ret (percents, part,
           ["Claude — 5h: " ++ s_text ++ " (resets " ++ fst sr ++ ", " ++ snd sr ++ ")";
            "Claude — Weekly: " ++ w_text ++ " (resets " ++ fst wr ++ ", " ++ snd wr ++ ")"])
  | None =>
      ret ([], "Claude " ++ ICON_UNAVAILABLE,
           ["Claude — Not available (" ++ err_text claude_err ++ ")"])
  end.

(** [main] once both statuses are known: the payload. *)
Definition render (codex : option codex_status) (codex_err : option string)
    (claude : option claude_status) (claude_err : option string) : M value :=
  cseg <- codex_segment codex codex_err ;;
  let '(percents1, part1, lines1) := cseg in
  aseg <- claude_segment claude claude_err ;;
  let '(percents2, part2, lines2) := aseg in
  let parts := [part1; part2] in
  let percents := (percents1 ++ percents2)%list in
  now <- _now_utc ;;
  updated <- lift (strftime_local L now) ;;
  let updated_line := "Updated: " ++ updated in
  let tooltip_lines :=
    (["AI Limits"; ""] ++ lines1 ++ [""] ++ lines2
     ++ [""; updated_line; "Refresh: every 5 minutes"])%list in
  let text := str_join "  |  " parts in
  top_percent <- lift (match percents with [] => Ok VNone | _ => py_max percents end) ;;
  cls <- lift (_class_for top_percent) ;;
  percentage <- lift (if is_none top_percent then Ok 0 else py_int L top_percent) ;;
  ret (VDict [("text", VStr text);
              ("tooltip", VStr (str_join CR tooltip_lines));
              ("class", VStr cls);
              ("percentage", VInt percentage);
              ("alt", VStr "ai-limits")]).

Definition main : M unit :=
  cx <- _get_codex_status ;;
  let '(codex, codex_err) := cx in
  cl <- _get_claude_status ;;
  let '(claude, claude_err) := cl in
  payload <- render codex codex_err claude claude_err ;;
  _emit payload.

End Helpers.
End Limitsbar.

(** * A library instance and worlds to run the scripts on

    Printers follow [json] and [datetime] on the values the examples print;
    the parsers know the documents and the timestamps the examples read.
    The local zone is UTC. *)

Module Demo.

(** ** Printing JSON *)

(** Code points of a UTF-8 text. *)
Fixpoint utf8_decode (pending : nat) (acc : N) (bytes : list N) : list N :=
  match bytes with
  | [] => []
  | b :: rest =>
      match pending with
      | S n =>
          let acc := (acc * 64 + N.land b 63)%N in
          match n with
          | O => acc :: utf8_decode O 0%N rest
          | _ => utf8_decode n acc rest
          end
      | O =>
          if (b <? 128)%N then b :: utf8_decode O 0%N rest
          else if (b <? 224)%N then utf8_decode 1 (N.land b 31) rest
          else if (b <? 240)%N then utf8_decode 2 (N.land b 15) rest
          else utf8_decode 3 (N.land b 7) rest
      end
  end.

Definition code_points (s : string) : list N :=
  utf8_decode O 0%N (map N_of_ascii (list_ascii_of_string s)).

Definition hex_digit (n : N) : string :=
  String (ascii_of_N (if (n <? 10)%N then 48 + n else 87 + n)) "".

Definition u_escape (n : N) : string :=
  "\u" ++ hex_digit (N.land (N.shiftr n 12) 15) ++ hex_digit (N.land (N.shiftr n 8) 15)
  ++ hex_digit (N.land (N.shiftr n 4) 15) ++ hex_digit (N.land n 15).

Definition DQ : string := String (ascii_of_nat 34) "".

(** One code point inside a JSON string, [ensure_ascii] on. *)
Definition escape_code_point (cp : N) : string :=
  if (cp =? 34)%N then "\" ++ DQ
  else if (cp =? 92)%N then "\\"
  else if (cp =? 10)%N then "\n"
  else if (cp =? 13)%N then "\r"
  else if (cp =? 9)%N then "\t"
  else if (cp =? 8)%N then "\b"
  else if (cp =? 12)%N then "\f"
  else if (32 <=? cp)%N && (cp <=? 126)%N then String (ascii_of_N cp) ""
  else if (cp <? 65536)%N then u_escape cp
  else
    let v := (cp - 65536)%N in
    u_escape (N.lor 55296 (N.shiftr v 10)) ++ u_escape (N.lor 56320 (N.land v 1023)).

Definition quote (s : string) : string :=
  DQ ++ String.concat "" (map escape_code_point (code_points s)) ++ DQ.

(** Digits of a finite float that is not a whole number: its exact decimal
    expansion. *)
Definition exact_decimal (neg : bool) (m : positive) (k : Z) : string :=
  let n := Z.pos m * 5 ^ k in
  let ip := n / 10 ^ k in
  let fp := string_of_Z (10 ^ k + n mod 10 ^ k) in
  (if neg then "-" else "") ++ string_of_Z ip ++ "."
  ++ substring 1 (String.length fp - 1) fp.

Definition float_repr (f : spec_float) : string :=
  match f with
  | S754_nan => "NaN"
  | S754_infinity false => "Infinity"
  | S754_infinity true => "-Infinity"
  | S754_zero false => "0.0"
  | S754_zero true => "-0.0"
  | S754_finite s m e =>
      let q := F64.to_Q f in
      if Z.eqb (Z.pos (Qden q) * Qtrunc q) (Qnum q)
      then string_of_Z (Qtrunc q) ++ ".0"
      else exact_decimal s m (- e)
  end.

(** [json.dumps(v, separators=(item_sep, key_sep))] *)
Fixpoint dumps_with (item_sep key_sep : string) (v : value) : string :=
  match v with
  | VNone => "null"
  | VBool true => "true"
  | VBool false => "false"
  | VInt z => string_of_Z z
  | VFloat f => float_repr f
  | VStr s => quote s
  | VList l => "[" ++ str_join item_sep (map (dumps_with item_sep key_sep) l) ++ "]"
  | VDict d =>
      "{" ++ str_join item_sep
               (map (fun kv => let '(k, x) := kv in
                               quote k ++ key_sep ++ dumps_with item_sep key_sep x) d)
      ++ "}"
  end.

Fixpoint insert_sorted (kv : string * value) (d : list (string * value))
  : list (string * value) :=
  match d with
  | [] => [kv]
  | kv' :: d' =>
      match String.compare (fst kv) (fst kv') with
      | Gt => kv' :: insert_sorted kv d'
      | _ => kv :: d
      end
  end.

(** The value with the keys of every dict in order: [sort_keys=True]. *)
Fixpoint sort_keys (v : value) : value :=
  match v with
  | VList l => VList (map sort_keys l)
  | VDict d =>
      VDict (fold_right insert_sorted []
               (map (fun kv => let '(k, x) := kv in (k, sort_keys x)) d))
  | _ => v
  end.

Definition newline_indent (level : nat) : string :=
  String (ascii_of_nat 10) (String.concat "" (repeat "  " level)).

(** [json.dumps(v, indent=2)] at nesting depth [level] *)
Fixpoint dumps_indent (level : nat) (v : value) : string :=
  match v with
  | VList [] => "[]"
  | VList l =>
      "[" ++ newline_indent (S level)
      ++ str_join ("," ++ newline_indent (S level)) (map (dumps_indent (S level)) l)
      ++ newline_indent level ++ "]"
  | VDict [] => "{}"
  | VDict d =>
      "{" ++ newline_indent (S level)
      ++ str_join ("," ++ newline_indent (S level))
           (map (fun kv => let '(k, x) := kv in
                           quote k ++ ": " ++ dumps_indent (S level) x) d)
      ++ newline_indent level ++ "}"
  | _ => dumps_with ", " ": " v
  end.

(** ** Printing dates *)

(** Year, month and day of a day number counted from 1970-01-01. *)
Definition civil_from_days (days : Z) : Z * Z * Z :=
  let z := days + 719468 in
  let era := z / 146097 in
  let doe := z - era * 146097 in
  let yoe := (doe - doe / 1460 + doe / 36524 - doe / 146096) / 365 in
  let doy := doe - (365 * yoe + yoe / 4 - yoe / 100) in
  let mp := (5 * doy + 2) / 153 in
  let d := doy - (153 * mp + 2) / 5 + 1 in
  let m := if Z.ltb mp 10 then mp + 3 else mp - 9 in
  let y := yoe + era * 400 + (if Z.leb m 2 then 1 else 0) in
  (y, m, d).

Definition pad (width : nat) (n : Z) : string :=
  let digits := string_of_Z n in
  String.concat "" (repeat "0" (width - String.length digits)) ++ digits.

Definition date_text (secs : Z) : string :=
  let '(y, m, d) := civil_from_days (secs / 86400) in
  pad 4 y ++ "-" ++ pad 2 m ++ "-" ++ pad 2 d.

(** ["%Y-%m-%d %H:%M"] of an instant given in seconds *)
Definition strftime_utc (secs : Z) : string :=
  let sod := secs mod 86400 in
  date_text secs ++ " " ++ pad 2 (sod / 3600) ++ ":" ++ pad 2 ((sod mod 3600) / 60).

Definition offset_text (off : Z) : string :=
  let secs := Z.abs off / 1000000 in
  (if Z.ltb off 0 then "-" else "+") ++ pad 2 (secs / 3600) ++ ":"
  ++ pad 2 ((secs mod 3600) / 60).

Definition isoformat_text (dt : datetime) : string :=
  let secs := wall dt / 1000000 in
  let us := wall dt mod 1000000 in
  let sod := secs mod 86400 in
  date_text secs ++ "T" ++ pad 2 (sod / 3600) ++ ":" ++ pad 2 ((sod mod 3600) / 60)
  ++ ":" ++ pad 2 (sod mod 60)
  ++ (if Z.eqb us 0 then "" else "." ++ pad 6 us)
  ++ match utcoffset dt with Some off => offset_text off | None => "" end.

(** ** Parsing *)

(** A decimal literal with an optional minus sign. *)
Fixpoint digits_value (acc : Z) (cs : list ascii) : option Z :=
  match cs with
  | [] => Some acc
  | c :: cs' =>
      let n := Z.of_nat (nat_of_ascii c) in
      if Z.leb 48 n && Z.leb n 57 then digits_value (10 * acc + (n - 48)) cs'
      else None
  end.

Definition parse_int (s : string) : result Z :=
  let bad := ValueError ("invalid literal for int() with base 10: '" ++ s ++ "'") in
  match list_ascii_of_string s with
  | [] => Raise bad
  | c :: cs =>
      if Ascii.eqb c "-"
      then match cs with
           | [] => Raise bad
           | _ => match digits_value 0 cs with
                  | Some n => Ok (- n)
                  | None => Raise bad
                  end
           end
      else match digits_value 0 (c :: cs) with
           | Some n => Ok n
           | None => Raise bad
           end
  end.

Definition parse_float (s : string) : result spec_float :=
  match parse_int s with
  | Ok n => float_of_int n
  | Raise _ => Raise (ValueError ("could not convert string to float: '" ++ s ++ "'"))
  end.

Definition at_utc (secs : Z) : datetime := utc_datetime (secs * 1000000).

(** The timestamps the examples read. *)
Definition timestamps : list (string * datetime) :=
  [("2026-11-01T12:00:00+00:00", at_utc 1793534400);
   ("2026-10-20T12:00:00+00:00", at_utc 1792497600);
   ("2026-11-04T13:30:00+00:00", at_utc 1793799000);
   ("2026-11-08T00:00:00+00:00", at_utc 1794096000)].

Fixpoint assoc {A} (l : list (string * A)) (k : string) : option A :=
  match l with
  | [] => None
  | (k', a) :: l' => if String.eqb k' k then Some a else assoc l' k
  end.

Definition parse_iso (s : string) : result datetime :=
  match assoc timestamps s with
  | Some dt => Ok dt
  | None => Raise (ValueError ("Invalid isoformat string: '" ++ s ++ "'"))
  end.

(** ** The documents of the examples *)

Definition tokens_doc : value :=
  VDict [("access_token", VStr "tok"); ("refresh_token", VStr "ref");
         ("account_id", VStr "acct")].

(** Credentials refreshed three days ago, and fifteen days ago. *)
Definition auth_fresh : value :=
  VDict [("tokens", tokens_doc); ("last_refresh", VStr "2026-11-01T12:00:00Z")].
Definition auth_stale : value :=
  VDict [("tokens", tokens_doc); ("last_refresh", VStr "2026-10-20T12:00:00Z")].

Definition window (used_percent reset_at : value) : value :=
  VDict [("used_percent", used_percent); ("reset_at", reset_at)].

Definition usage_doc (daily weekly : value) : value :=
  VDict [("rate_limit",
          VDict [("primary_window", window daily (VInt 1793799000));
                 ("secondary_window", window weekly (VInt 1794096000))])].

Definition refreshed_doc : value :=
  VDict [("access_token", VStr "tok2"); ("refresh_token", VStr "ref2")].

Definition claude_credentials : value :=
  VDict [("claudeAiOauth",
          VDict [("accessToken", VStr "sk");
                 ("scopes", VList [VStr "user:inference"; VStr "user:profile"]);
                 ("expiresAt", VInt 1793880000000)])].

Definition claude_usage_doc : value :=
  VDict [("five_hour", VDict [("utilization", VInt 88);
                              ("resets_at", VStr "2026-11-04T13:30:00+00:00")]);
         ("seven_day", VDict [("utilization", VInt 5);
                              ("resets_at", VStr "2026-11-08T00:00:00+00:00")])].

Definition documents : list value :=
  [auth_fresh; auth_stale; usage_doc (VInt 45) (VInt 10);
   usage_doc (VInt 150) (VInt 10); refreshed_doc; claude_credentials;
   claude_usage_doc; VList []].

Definition compact : value -> string := dumps_with "," ":".

(** [json.dumps(v, indent=2, sort_keys=True)] *)
Definition pretty (v : value) : string := dumps_indent 0 (sort_keys v).

(** A document is read back from its compact form and from its indented
    form. *)
Definition parse_json (text : string) : result value :=
  match find (fun v => String.eqb (compact v) text) documents with
  | Some v => Ok v
  | None =>
      match find (fun v => String.eqb (pretty v) text) documents with
      | Some v => Ok (sort_keys v)
      | None =>
          Raise (Exception "JSONDecodeError" "Expecting value: line 1 column 1 (char 0)")
      end
  end.

Definition show (v : value) : string :=
  match v with
  | VNone => "None"
  | VBool true => "True"
  | VBool false => "False"
  | VStr s => s
  | _ => dumps_with ", " ": " v
  end.

Definition lib : pylib :=
  {| json_loads := parse_json;
     json_dumps := dumps_with ", " ": ";
     json_dumps_compact := compact;
     json_dump_chunks := fun v =>
       map (fun c => String c "") (list_ascii_of_string (pretty v));
     py_str := show;
     int_of_str := parse_int;
     float_of_str := parse_float;
     fromisoformat := parse_iso;
     isoformat := isoformat_text;
     strftime_local := fun dt =>
       Ok (strftime_utc ((wall dt - default 0 (utcoffset dt)) / 1000000));
     naive_timestamp := fun us => Ok (total_seconds us) |}.

(** ** Worlds *)

(** 2026-11-04T12:00:00Z, in microseconds *)
Definition NOW : Z := 1793793600 * 1000000.

Definition CODEX_AUTH : string := "/home/u/.codex/auth.json".
Definition CLAUDE_CREDENTIALS : string := "/home/u/.claude/.credentials.json".

(** The three services, given the answers of the two usage endpoints. *)
Definition services (codex_usage claude_usage : result string) (req : request)
  : result string :=
  if String.eqb (req_url req) Codexbar.DEFAULT_USAGE_URL then codex_usage
  else if String.eqb (req_url req) Codexbar.REFRESH_URL then Ok (compact refreshed_doc)
  else if String.eqb (req_url req) "https://api.anthropic.com/api/oauth/usage"
       then claude_usage
  else Raise (Exception "URLError" "<urlopen error [Errno -2] Name or service not known>").

Definition world_of (fs : gmap string string) (codex_usage claude_usage : result string)
  : world :=
  {| environ := ∅; home := "/home/u"; files := fs;
     urlopen := services codex_usage claude_usage;
     clock := fun n => NOW + Z.of_nat n; ticks := 0; stdout := []; fs_log := [] |}.

(** Both accounts logged in, the Codex token refreshed three days ago. *)
Definition logged_in : gmap string string :=
  {[ CODEX_AUTH := compact auth_fresh;
     CLAUDE_CREDENTIALS := compact claude_credentials ]}.

Definition codex_45_10 : result string := Ok (compact (usage_doc (VInt 45) (VInt 10))).
Definition claude_88_5 : result string := Ok (compact claude_usage_doc).

End Demo.

(** * Notions used in the statements *)


(** The binary64 number written [0.42]. *)
Definition f042 : spec_float := S754_finite false 7566047373982433 (-54).

Fixpoint fs_run (ops : list fs_op) (fs : gmap string string)
  : result (gmap string string) :=
  match ops with
  | [] => Ok fs
  | op :: ops' => rbind (fs_apply op fs) (fs_run ops')
  end.

(** A call that opens, writes or closes the file [tmp]. *)
Definition only_touches (tmp : string) (op : fs_op) : Prop :=
  match op with
  | OpenW p | WriteChunk p _ | CloseW p => p = tmp
  | Replace _ _ => False
  end.

(** [op] names only paths that satisfy [P]. *)
Definition op_within (P : string -> Prop) (op : fs_op) : Prop :=
  match op with
  | OpenW p | WriteChunk p _ | CloseW p => P p
  | Replace src dst => P src /\ P dst
  end.

(** From [w] to [w'] only files that satisfy [P] were touched. *)
Definition kept (P : string -> Prop) (w w' : world) : Prop :=
  (forall p, ~ P p -> files w' !! p = files w !! p)
  /\ exists ops, fs_log w' = (fs_log w ++ ops)%list /\ Forall (op_within P) ops.

Definition confined (P : string -> Prop) {A} (c : M A) (w : world) : Prop :=
  kept P w (snd (c w)).

Class TickFree {X} (f : world -> X) : Prop :=
  tick_free : forall n w, f (set_ticks n w) = f w.
Class OutFree {X} (f : world -> X) : Prop :=
  out_free : forall out w, f (set_stdout out w) = f w.
Class FsFree {X} (f : world -> X) : Prop :=
  fs_free : forall w fs l, f (set_files fs (set_fs_log l w)) = f w.

Definition keeps {X A} (f : world -> X) (c : M A) : Prop :=
  forall w, f (snd (c w)) = f w.

(** A computation that makes no file-system call at all. *)
Definition quiet {A} (c : M A) : Prop := keeps files c /\ keeps fs_log c.

(** [~/.claude/.credentials.json] *)
Definition claude_path (w : world) : string :=
  path_join (path_join (home w) ".claude") ".credentials.json".

(** The window percentages [main] of [codexbar.py] knows. *)
Definition codex_known (win : Codexbar.windows) : list value :=
  List.filter (fun p => negb (is_none p))
    [Codexbar.daily_percent win; Codexbar.weekly_percent win].

(** [top] is the greatest of the percentages [known]: [None] when there is
    none, else one of them, a number that none of them exceeds. *)
Definition greatest_of (known : list value) (top : value) : Prop :=
  match known with
  | [] => top = VNone
  | _ =>
      In top known
      /\ exists x, xnum_of_value top = Some x
                   /\ forall p, In p known ->
                                exists y, xnum_of_value p = Some y
                                          /\ cmp_gt (xnum_compare y x) = false
  end.

(** What [_format_eta] shows for [total] whole seconds. *)
Definition eta_text (total : Z) : string :=
  if Z.leb total 0 then "now"
  else string_of_Z (total / 3600) ++ "h " ++ string_of_Z ((total mod 3600) / 60) ++ "m".

(** The test of the refresh branch, as [refresh_if_stale] evaluates it. *)
Definition stale_test (rt : value) (lr : option datetime) : M bool :=
  if truthy rt then Codexbar._needs_refresh lr else ret false.

(** A window percentage that is absent or a number from 0 to 100. *)
Definition percent_in_range (p : value) : Prop :=
  p = VNone \/ exists q, xnum_of_value p = Some (Fin q) /\ (0 <= q)%Q /\ (q <= 100)%Q.

(** The percentages [main] of [limitsbar.py] collects in [percents]. *)
Definition known_percents (codex : option Limitsbar.codex_status)
    (claude : option Limitsbar.claude_status) : list value :=
  (match codex with
   | Some c => List.filter (fun p => negb (is_none p))
                 [Limitsbar.daily_percent c; Limitsbar.weekly_percent c]
   | None => []
   end
   ++ match claude with
      | Some c => List.filter (fun p => negb (is_none p))
                    [Limitsbar.opt_int (Limitsbar.session_percent c);
                     Limitsbar.opt_int (Limitsbar.week_percent c)]
      | None => []
      end)%list.

(** [main] of [codexbar.py] up to the payload it is about to print. *)
Definition codexbar_payload (L : pylib) : M value :=
  c <- Codexbar.load_credentials L ;;
  access_token <- Codexbar.refresh_if_stale L c ;;
  usage <- Codexbar._fetch_usage L access_token (Codexbar.cr_account_id c) ;;
  win <- lift (Codexbar.read_windows usage) ;;
  Codexbar.render L win.

Definition payload_percentage (payload : value) : option value :=
  match payload with
  | VDict d => dict_lookup d "percentage"
  | _ => None
  end.

(** The record [limitsbar.py] holds for the credentials [c] of
    [codexbar.py]. *)
Definition limitsbar_credentials (c : Codexbar.credentials) : Limitsbar.credentials :=
  {| Limitsbar.cr_auth := Codexbar.cr_auth c;
     Limitsbar.cr_path := Codexbar.cr_path c;
     Limitsbar.cr_tokens := Codexbar.cr_tokens c;
     Limitsbar.cr_access_token := Codexbar.cr_access_token c;
     Limitsbar.cr_refresh_token := Codexbar.cr_refresh_token c;
     Limitsbar.cr_account_id := Codexbar.cr_account_id c;
     Limitsbar.cr_last_refresh := Codexbar.cr_last_refresh c |}.

(** * Properties *)

(** ** Severity class *)

Lemma py_ge_int_fin (p : value) (q : Q) (k : Z) :
  xnum_of_value p = Some (Fin q) ->
  py_ge_int p k = Ok (match Qcompare q (inject_Z k) with Lt => false | _ => true end).
Proof.
  intros H. unfold py_ge_int. rewrite H. simpl.
  destruct (Qcompare q (inject_Z k)); reflexivity.
Qed.

Lemma xnum_not_none (p : value) (x : xnum) :
  xnum_of_value p = Some x -> is_none p = false.
Proof. destruct p; simpl; congruence. Qed.

Lemma class_for_fin (p : value) (q : Q) :
  xnum_of_value p = Some (Fin q) ->
  Codexbar._class_for p =
    Ok (match Qcompare q 90 with
        | Lt => match Qcompare q 70 with Lt => "ok" | _ => "warn" end
        | _ => "critical"
        end).
Proof.
  intros H. unfold Codexbar._class_for.
  rewrite (xnum_not_none _ _ H), !(py_ge_int_fin _ _ _ H). simpl.
  change (inject_Z 90) with 90%Q. change (inject_Z 70) with 70%Q.
  destruct (Qcompare q 90); simpl; try reflexivity.
  destruct (Qcompare q 70); reflexivity.
Qed.

(** C2: on a percentage [p] with [0 <= p < 100] the severity class is
    ["ok"] below 70, ["warn"] from 70 and below 90, ["critical"] from 90;
    on [None] it is ["unknown"].  Both scripts. *)
Theorem class_for_buckets :
  (Codexbar._class_for VNone = Ok "unknown" /\ Limitsbar._class_for VNone = Ok "unknown") /\
  forall (p : value) (q : Q),
    xnum_of_value p = Some (Fin q) -> (0 <= q)%Q -> (q < 100)%Q ->
    ((q < 70)%Q ->
     Codexbar._class_for p = Ok "ok" /\ Limitsbar._class_for p = Ok "ok") /\
    ((70 <= q)%Q -> (q < 90)%Q ->
     Codexbar._class_for p = Ok "warn" /\ Limitsbar._class_for p = Ok "warn") /\
    ((90 <= q)%Q ->
     Codexbar._class_for p = Ok "critical" /\ Limitsbar._class_for p = Ok "critical").
Proof.
  split; [split; reflexivity|].
  intros p q Hp _ _.
  change (Limitsbar._class_for p) with (Codexbar._class_for p).
  rewrite (class_for_fin p q Hp).
  repeat split; intros;
    destruct (Qcompare_spec q 90); destruct (Qcompare_spec q 70);
    first [reflexivity | exfalso; lra].
Qed.

Lemma class_for_buckets_witness :
  Codexbar._class_for (VFloat (S754_finite false 145 (-1))) = Ok "warn"
  /\ Limitsbar._class_for (VFloat (S754_finite false 145 (-1))) = Ok "warn".
Proof.
  apply (proj2 class_for_buckets (VFloat (S754_finite false 145 (-1))) (145 # 2)).
  - reflexivity.
  - unfold Qle; simpl; lia.
  - unfold Qlt; simpl; lia.
  - unfold Qle; simpl; lia.
  - unfold Qlt; simpl; lia.
Defined.

(** ** Durations in seconds *)

(** *** The rounded quotient *)

Lemma round_half_even_bounds (a : Z) (d : positive) :
  let m := Qround_half_even (a # d) in
  2 * a - Z.pos d <= 2 * m * Z.pos d <= 2 * a + Z.pos d.
Proof.
  unfold Qround_half_even. simpl Qnum. simpl Qden.
  pose proof (Z.div_mod a (Z.pos d) ltac:(lia)) as Hdm.
  pose proof (Z.mod_pos_bound a (Z.pos d) ltac:(lia)) as Hb.
  set (fl := a / Z.pos d) in *. set (r := a mod Z.pos d) in *.
  destruct (Z.compare_spec (2 * r) (Z.pos d)) as [E|E|E];
    [destruct (Z.even fl)| |]; cbv zeta; nia.
Qed.

Lemma pow2_pos (k : Z) : 0 <= k -> 0 < 2 ^ k.
Proof. intros H. apply Z.pow_pos_nonneg; lia. Qed.

(** The scaled quotient, between its bounds. *)
Lemma scaled_round_bounds (n d e : Z) :
  0 < d -> e <= 0 ->
  let m := scaled_round n d e in
  2 * (n * 2 ^ (- e)) - d <= 2 * m * d <= 2 * (n * 2 ^ (- e)) + d.
Proof.
  intros Hd He. unfold scaled_round.
  destruct (Z.leb_spec e 0); [|lia].
  pose proof (round_half_even_bounds (n * 2 ^ (- e)) (Z.to_pos d)) as Hr.
  rewrite Z2Pos.id in Hr by lia. exact Hr.
Qed.

Lemma scaled_round_le (n d e B : Z) :
  0 < d -> e <= 0 -> n <= B * d -> scaled_round n d e <= B * 2 ^ (- e).
Proof.
  intros Hd He Hn. pose proof (scaled_round_bounds n d e Hd He) as H.
  pose proof (pow2_pos (- e) ltac:(lia)) as Hp. cbv zeta in H. nia.
Qed.

Lemma scaled_round_ge (n d e B : Z) :
  0 < d -> e <= 0 -> B * d <= n -> B * 2 ^ (- e) <= scaled_round n d e.
Proof.
  intros Hd He Hn. pose proof (scaled_round_bounds n d e Hd He) as H.
  pose proof (pow2_pos (- e) ltac:(lia)) as Hp. cbv zeta in H. nia.
Qed.

Lemma pow2_ge_19 (k : Z) : 19 <= k -> 524288 <= 2 ^ k.
Proof.
  intros H. change 524288 with (2 ^ 19). apply Z.pow_le_mono_r; lia.
Qed.

(** With at least 19 fractional bits a millionth is not rounded away. *)
Lemma scaled_round_gt (n e B : Z) :
  e <= -19 -> B * 1000000 + 1 <= n -> B * 2 ^ (- e) < scaled_round n 1000000 e.
Proof.
  intros He Hn. pose proof (scaled_round_bounds n 1000000 e ltac:(lia) ltac:(lia)) as H.
  pose proof (pow2_ge_19 (- e) ltac:(lia)) as Hp. cbv zeta in H. nia.
Qed.

Lemma scaled_round_lt (n e B : Z) :
  e <= -19 -> n <= B * 1000000 - 1 -> scaled_round n 1000000 e < B * 2 ^ (- e).
Proof.
  intros He Hn. pose proof (scaled_round_bounds n 1000000 e ltac:(lia) ltac:(lia)) as H.
  pose proof (pow2_ge_19 (- e) ltac:(lia)) as Hp. cbv zeta in H. nia.
Qed.

Lemma log2_ratio_le (n d : Z) :
  0 < n -> 0 < d -> 0 <= log2_ratio n d -> d * 2 ^ log2_ratio n d <= n.
Proof.
  intros Hn Hd. unfold log2_ratio.
  pose proof (Z.log2_spec n Hn) as [Ha Ha'].
  pose proof (Z.log2_spec d Hd) as [Hb Hb'].
  pose proof (Z.log2_nonneg n) as Hna. pose proof (Z.log2_nonneg d) as Hnb.
  set (a := Z.log2 n) in *. set (b := Z.log2 d) in *.
  destruct (Z.leb_spec 0 (a - b)) as [Hk|Hk].
  - destruct (Z.leb_spec (d * 2 ^ (a - b)) n) as [Ht|Ht]; intros HL; [exact Ht|].
    assert (2 ^ a = 2 ^ (b + 1) * 2 ^ (a - b - 1)) as E.
    { rewrite <- Z.pow_add_r by lia. f_equal. lia. }
    pose proof (pow2_pos (a - b - 1) ltac:(lia)). nia.
  - destruct (Z.leb_spec d (n * 2 ^ (- (a - b)))); intros HL; lia.
Qed.

Lemma scaled_round_ge_pos (n d e B : Z) :
  0 < d -> 0 < e -> B * (d * 2 ^ e) <= n -> B <= scaled_round n d e.
Proof.
  intros Hd He Hn. unfold scaled_round. destruct (Z.leb_spec e 0); [lia|].
  pose proof (pow2_pos e ltac:(lia)) as Hp.
  pose proof (round_half_even_bounds n (Z.to_pos (d * 2 ^ e))) as Hr.
  rewrite Z2Pos.id in Hr by nia. cbv zeta in Hr. nia.
Qed.

(** *** The value packed *)

Lemma pack_cases (s : bool) (m e : Z) :
  0 <= m -> e <= 0 ->
  pack s m e = S754_zero s /\ m = 0
  \/ (exists p, pack s m e = S754_finite s p e /\ m = Z.pos p /\ m <> 2 ^ 53)
  \/ (pack s m e = S754_finite s 4503599627370496 (e + 1) /\ m = 2 ^ 53).
Proof.
  intros Hm He. unfold pack.
  destruct (Z.eqb_spec m (2 ^ 53)) as [E|E].
  - right. right. split; [|exact E].
    destruct (Z.ltb_spec (F64.emax - F64.prec) (e + 1)) as [H|H].
    + unfold F64.emax, F64.prec in H. lia.
    + reflexivity.
  - destruct (Z.ltb_spec (F64.emax - F64.prec) e) as [H|H].
    + unfold F64.emax, F64.prec in H. lia.
    + destruct m as [|p|p]; [left; auto|right; left; eauto|lia].
Qed.

Lemma half_quot (a b : Z) : 0 < b -> (2 * a) / (2 * b) = a / b.
Proof. intros H. apply Z.div_mul_cancel_l; lia. Qed.

Lemma pow2_succ (k : Z) : 0 <= k -> 2 ^ (k + 1) = 2 * 2 ^ k.
Proof. intros H. rewrite Z.pow_add_r by lia. lia. Qed.

(** [int()] of a packed value with fractional bits. *)
Lemma pack_trunc (s : bool) (m e : Z) :
  0 <= m -> e <= -1 ->
  float_trunc (pack s m e)
  = Ok (if s then - (m / 2 ^ (- e)) else m / 2 ^ (- e)).
Proof.
  intros Hm He.
  pose proof (pow2_pos (- e) ltac:(lia)) as Hp.
  destruct (pack_cases s m e Hm ltac:(lia)) as [[-> ->]|[(p & -> & -> & _)|[-> ->]]].
  - unfold float_trunc. simpl. rewrite Z.div_0_l by lia. destruct s; reflexivity.
  - unfold float_trunc, xnum_of_float, F64.to_Q.
    destruct (Z.leb_spec 0 e); [lia|]. unfold Qtrunc. simpl Qnum. simpl Qden.
    rewrite Z2Pos.id by lia. destruct s.
    + change (Z.neg p) with (- Z.pos p). rewrite Z.quot_opp_l by lia.
      rewrite Z.quot_div_nonneg by lia. reflexivity.
    + rewrite Z.quot_div_nonneg by lia. reflexivity.
  - assert (2 ^ 53 / 2 ^ (- e) = 4503599627370496 / 2 ^ (- (e + 1))) as E.
    { replace (- e) with (- (e + 1) + 1) by lia.
      rewrite pow2_succ by lia. change (2 ^ 53) with (2 * 4503599627370496).
      apply half_quot. apply pow2_pos. lia. }
    rewrite E. clear E.
    destruct (Z.eq_dec e (-1)) as [->|Hne].
    + destruct s; reflexivity.
    + pose proof (pow2_pos (- (e + 1)) ltac:(lia)) as Hp'.
      unfold float_trunc, xnum_of_float, F64.to_Q.
      destruct (Z.leb_spec 0 (e + 1)); [lia|]. unfold Qtrunc. simpl Qnum. simpl Qden.
      rewrite Z2Pos.id by lia. destruct s.
      * change (Z.neg 4503599627370496) with (Z.opp 4503599627370496).
        rewrite Z.quot_opp_l by lia.
        rewrite Z.quot_div_nonneg by lia. reflexivity.
      * rewrite Z.quot_div_nonneg by lia. reflexivity.
Qed.

Lemma cmp_gt_Q (a : Z) (d : positive) (B : Z) :
  cmp_gt (xnum_compare (Fin (a # d)) (Fin (inject_Z B))) = Z.ltb (B * Z.pos d) a.
Proof.
  unfold xnum_compare, cmp_gt, Qcompare, inject_Z. simpl Qnum. simpl Qden.
  rewrite Z.mul_1_r.
  destruct (Z.ltb_spec (B * Z.pos d) a); destruct (Z.compare_spec a (B * Z.pos d));
    try reflexivity; lia.
Qed.

Lemma cmp_gt_Z (a B : Z) :
  cmp_gt (xnum_compare (Fin (inject_Z a)) (Fin (inject_Z B))) = Z.ltb B a.
Proof.
  unfold inject_Z at 1. rewrite cmp_gt_Q. f_equal. lia.
Qed.

(** A packed value against an integer. *)
Lemma pack_compare (m e B : Z) :
  0 <= m -> e <= 0 ->
  cmp_gt (xnum_compare (xnum_of_float (pack false m e)) (Fin (inject_Z B)))
  = Z.ltb (B * 2 ^ (- e)) m.
Proof.
  intros Hm He.
  pose proof (pow2_pos (- e) ltac:(lia)) as Hp.
  destruct (pack_cases false m e Hm He) as [[-> ->]|[(p & -> & -> & _)|[-> ->]]].
  - change (xnum_of_float (S754_zero false)) with (Fin (inject_Z 0)).
    rewrite cmp_gt_Z.
    destruct (Z.ltb_spec B 0); destruct (Z.ltb_spec (B * 2 ^ (- e)) 0);
      try reflexivity; nia.
  - unfold xnum_of_float, F64.to_Q.
    destruct (Z.leb_spec 0 e) as [H0|H0].
    + assert (e = 0) as -> by lia. rewrite cmp_gt_Z. simpl Z.pow.
      f_equal; lia.
    + rewrite cmp_gt_Q. rewrite Z2Pos.id by lia. reflexivity.
  - unfold xnum_of_float, F64.to_Q.
    destruct (Z.leb_spec 0 (e + 1)) as [H0|H0].
    + assert (e = 0 \/ e = -1) as [-> | ->] by lia.
      * rewrite cmp_gt_Z. simpl Z.pow. simpl Z.add. simpl Z.opp.
        destruct (Z.ltb_spec B (4503599627370496 * 2));
          destruct (Z.ltb_spec (B * 1) 9007199254740992); try reflexivity; lia.
      * rewrite cmp_gt_Z. simpl Z.pow. simpl Z.add. simpl Z.opp.
        destruct (Z.ltb_spec B (4503599627370496 * 1));
          destruct (Z.ltb_spec (B * 2) 9007199254740992); try reflexivity; lia.
    + pose proof (pow2_pos (- (e + 1)) ltac:(lia)) as Hp'.
      assert (2 ^ (- e) = 2 * 2 ^ (- (e + 1))) as E.
      { replace (- e) with (- (e + 1) + 1) by lia. apply pow2_succ. lia. }
      rewrite cmp_gt_Q. rewrite Z2Pos.id by lia.
      rewrite E. change (2 ^ 53) with 9007199254740992.
      destruct (Z.ltb_spec (B * 2 ^ (- (e + 1))) 4503599627370496);
        destruct (Z.ltb_spec (B * (2 * 2 ^ (- (e + 1)))) 9007199254740992);
        try reflexivity; lia.
Qed.

(** A packed value with no fractional bit is at least its significand. *)
Lemma pack_big (m e B : Z) :
  0 < e -> 2 ^ 52 <= m -> B < 2 ^ 52 ->
  cmp_gt (xnum_compare (xnum_of_float (pack false m e)) (Fin (inject_Z B))) = true.
Proof.
  intros He Hm HB. pose proof (pow2_pos e ltac:(lia)) as Hp.
  change (2 ^ 52) with 4503599627370496 in *.
  unfold pack. destruct (Z.eqb_spec m (2 ^ 53)) as [E|E].
  - destruct (Z.ltb (F64.emax - F64.prec) (e + 1)); [reflexivity|].
    pose proof (pow2_pos (e + 1) ltac:(lia)) as Hp'.
    change (2 ^ 52) with 4503599627370496.
    unfold xnum_of_float, F64.to_Q.
    destruct (Z.leb_spec 0 (e + 1)); [|lia].
    rewrite cmp_gt_Z. apply Z.ltb_lt. nia.
  - destruct (Z.ltb (F64.emax - F64.prec) e); [reflexivity|].
    destruct m as [|p|p]; try lia.
    unfold xnum_of_float, F64.to_Q.
    destruct (Z.leb_spec 0 e); [|lia].
    rewrite cmp_gt_Z. apply Z.ltb_lt. nia.
Qed.

(** A negative quotient is greater than no natural number. *)
Lemma pack_negative (m e B : Z) :
  0 <= B ->
  cmp_gt (xnum_compare (xnum_of_float (pack true m e)) (Fin (inject_Z B))) = false.
Proof.
  intros HB.
  assert (forall p e', cmp_gt (xnum_compare (xnum_of_float (S754_finite true p e'))
                                 (Fin (inject_Z B))) = false) as Hfin.
  { intros p e'. unfold xnum_of_float, F64.to_Q.
    destruct (Z.leb_spec 0 e').
    - pose proof (pow2_pos e' ltac:(lia)) as Hp.
      rewrite cmp_gt_Z. apply Z.ltb_ge. nia.
    - rewrite cmp_gt_Q. apply Z.ltb_ge. nia. }
  assert (cmp_gt (xnum_compare (xnum_of_float (S754_zero true)) (Fin (inject_Z B)))
          = false) as Hzero.
  { change (xnum_of_float (S754_zero true)) with (Fin (inject_Z 0)).
    rewrite cmp_gt_Z. apply Z.ltb_ge. lia. }
  unfold pack. destruct (Z.eqb m (2 ^ 53)).
  - destruct (Z.ltb (F64.emax - F64.prec) (e + 1)); [reflexivity|].
    change (2 ^ 52) with 4503599627370496. apply Hfin.
  - destruct (Z.ltb (F64.emax - F64.prec) e); [reflexivity|].
    destruct m as [|p|p]; [exact Hzero|apply Hfin|exact Hzero].
Qed.

(** *** [total_seconds] *)

(** [round_ratio] and [int_true_div] round alike: on a duration of 544
    years less a microsecond, on 8 days, on a negative microsecond, on a
    quotient below the normal numbers and on a tie. *)
Lemma round_ratio_true_division :
  int_true_div 17179869239999999 1000000 = Ok (round_ratio 17179869239999999 1000000)
  /\ int_true_div 691200000000 1000000 = Ok (round_ratio 691200000000 1000000)
  /\ int_true_div (-1) 1000000 = Ok (round_ratio (-1) 1000000)
  /\ int_true_div 1 (10 ^ 320) = Ok (round_ratio 1 (10 ^ 320))
  /\ int_true_div (2 ^ 54 - 1) 1 = Ok (round_ratio (2 ^ 54 - 1) 1)
  /\ float_trunc (round_ratio 17179869239999999 1000000) = Ok 17179869240.
Proof. vm_compute. repeat split. Qed.

Lemma exponent_small (n : Z) :
  0 < n -> n < 2 ^ 34 * 1000000 ->
  Z.max (3 - F64.emax - F64.prec) (log2_ratio n 1000000 - (F64.prec - 1)) <= -19.
Proof.
  intros Hn Hlt. unfold F64.emax, F64.prec.
  destruct (Z.le_gt_cases 34 (log2_ratio n 1000000)) as [H|H]; [|lia].
  pose proof (log2_ratio_le n 1000000 Hn ltac:(lia) ltac:(lia)) as Hle.
  pose proof (Z.pow_le_mono_r 2 34 (log2_ratio n 1000000) ltac:(lia) H). nia.
Qed.

(** A duration of less than [2^34] seconds (544 years) keeps its whole
    seconds: the quotient is rounded by less than a millionth. *)
Lemma total_seconds_trunc (delta : Z) :
  Z.abs delta < 2 ^ 34 * 1000000 ->
  float_trunc (total_seconds delta) = Ok (Z.quot delta 1000000).
Proof.
  intros Hd. unfold total_seconds, round_ratio.
  assert (forall n s, 0 < n -> n < 2 ^ 34 * 1000000 ->
            float_trunc (round_ratio_pos s n 1000000)
            = Ok (if s then - (n / 1000000) else n / 1000000)) as Hpos.
  { intros n s Hn Hlt. unfold round_ratio_pos.
    pose proof (exponent_small n Hn Hlt) as He.
    set (e := Z.max _ _) in *.
    pose proof (Z.div_mod n 1000000 ltac:(lia)) as Hdm.
    pose proof (Z.mod_pos_bound n 1000000 ltac:(lia)) as Hm.
    pose proof (Z.div_pos n 1000000 ltac:(lia) ltac:(lia)) as Hk.
    set (k := n / 1000000) in *.
    pose proof (pow2_pos (- e) ltac:(lia)) as Hp.
    pose proof (scaled_round_ge n 1000000 e k ltac:(lia) ltac:(lia) ltac:(lia)) as Hlo.
    pose proof (scaled_round_lt n e (k + 1) He ltac:(lia)) as Hhi.
    rewrite pack_trunc by nia.
    assert (scaled_round n 1000000 e / 2 ^ (- e) = k) as ->; [|reflexivity].
    symmetry. apply Z.div_unique with (r := scaled_round n 1000000 e - 2 ^ (- e) * k); nia. }
  destruct delta as [|p|p].
  - reflexivity.
  - rewrite Hpos by lia. rewrite Z.quot_div_nonneg by lia. reflexivity.
  - rewrite Hpos by lia. change (Z.neg p) with (Z.opp (Z.pos p)).
    rewrite Z.quot_opp_l by lia. rewrite Z.quot_div_nonneg by lia. reflexivity.
Qed.

(** Against a number of seconds below [2^34], the rounded quotient
    compares as the exact one. *)
Lemma total_seconds_gt (delta k : Z) :
  0 <= k < 2 ^ 34 ->
  cmp_gt (xnum_compare (xnum_of_float (total_seconds delta)) (Fin (inject_Z k)))
  = Z.ltb (k * 1000000) delta.
Proof.
  intros Hk. unfold total_seconds, round_ratio.
  destruct delta as [|p|p].
  - change (xnum_of_float (S754_zero false)) with (Fin (inject_Z 0)).
    rewrite cmp_gt_Z. destruct (Z.ltb_spec k 0); destruct (Z.ltb_spec (k * 1000000) 0);
      try reflexivity; lia.
  - unfold round_ratio_pos. set (n := Z.pos p). assert (0 < n) as Hn by (unfold n; lia).
    set (L := log2_ratio n 1000000).
    set (e := Z.max _ _).
    assert (e = Z.max (-1074) (L - 52)) as Ee by reflexivity.
    destruct (Z.le_gt_cases e (-19)) as [He|He].
    + rewrite pack_compare.
      2:{ pose proof (scaled_round_ge n 1000000 e 0 ltac:(lia) ltac:(lia) ltac:(lia)).
          lia. }
      2:{ lia. }
      destruct (Z.ltb_spec (k * 1000000) n) as [H|H].
      * apply Z.ltb_lt. apply scaled_round_gt; lia.
      * apply Z.ltb_ge. apply scaled_round_le; lia.
    + assert (0 <= L) as HL by lia.
      pose proof (log2_ratio_le n 1000000 Hn ltac:(lia) HL) as Hle. fold L in Hle.
      assert (e = L - 52) as EL by lia.
      assert (Z.ltb (k * 1000000) n = true) as ->.
      { apply Z.ltb_lt.
        pose proof (Z.pow_le_mono_r 2 34 L ltac:(lia) ltac:(lia)). nia. }
      destruct (Z.le_gt_cases e 0) as [H0|H0].
      * pose proof (pow2_pos (- e) ltac:(lia)) as Hp.
        pose proof (Z.pow_le_mono_r 2 34 L ltac:(lia) ltac:(lia)) as H34.
        pose proof (scaled_round_ge n 1000000 e (2 ^ 34) ltac:(lia) H0 ltac:(nia)) as Hlo.
        rewrite pack_compare by nia. apply Z.ltb_lt. nia.
      * apply pack_big; [lia| |change (2 ^ 52) with 4503599627370496;
                                change (2 ^ 34) with 17179869184 in Hk; lia].
        apply scaled_round_ge_pos; [lia|lia|].
        assert (2 ^ L = 2 ^ 52 * 2 ^ e) as E.
        { rewrite <- Z.pow_add_r by lia. f_equal. lia. }
        nia.
  - unfold round_ratio_pos. rewrite pack_negative by lia.
    symmetry. apply Z.ltb_ge. lia.
Qed.


(** ** Staleness of the Codex token *)



(** ** The helpers the two scripts share *)

(** C9: the eleven helpers the two scripts both define return the same
    result on every input. *)
Theorem shared_helpers_agree (L : pylib) :
  (forall v, Codexbar._parse_iso8601 L v = Limitsbar._parse_iso8601 L v) /\
  (forall w, Codexbar._auth_path w = Limitsbar._auth_path w) /\
  (forall w, Codexbar._read_auth L w = Limitsbar._read_auth L w) /\
  (forall path data w,
     Codexbar._write_auth L path data w = Limitsbar._write_auth L path data w) /\
  (forall last_refresh w,
     Codexbar._needs_refresh last_refresh w = Limitsbar._needs_refresh last_refresh w) /\
  (forall refresh_token w,
     Codexbar._refresh_tokens L refresh_token w = Limitsbar._refresh_tokens L refresh_token w) /\
  (forall access_token account_id w,
     Codexbar._fetch_usage L access_token account_id w
     = Limitsbar._fetch_usage L access_token account_id w) /\
  (forall ts, Codexbar._format_reset L ts = Limitsbar._format_reset L ts) /\
  (forall ts w, Codexbar._format_eta L ts w = Limitsbar._format_eta L ts w) /\
  (forall percent, Codexbar._class_for percent = Limitsbar._class_for percent) /\
  (forall payload w, Codexbar._emit L payload w = Limitsbar._emit L payload w).
Proof. repeat split. Qed.

(** [round] yields an integer at distance at most one half, and the even
    one at exactly one half. *)
Lemma Qround_half_even_nearest (q : Q) :
  let n := Qround_half_even q in
  (inject_Z n - (1 # 2) <= q)%Q /\ (q <= inject_Z n + (1 # 2))%Q /\
  ((q == inject_Z n - (1 # 2))%Q \/ (q == inject_Z n + (1 # 2))%Q -> Z.even n = true).
Proof.
  destruct q as [a d]. unfold Qround_half_even. simpl Qnum. simpl Qden.
  pose proof (Z.div_mod a (Z.pos d) ltac:(lia)) as Hdm.
  pose proof (Z.mod_pos_bound a (Z.pos d) ltac:(lia)) as Hb.
  set (fl := a / Z.pos d) in *. set (r := a mod Z.pos d) in *.
  unfold Qle, Qeq, Qminus, Qplus, Qopp, inject_Z. simpl.
  destruct (Z.compare_spec (2 * r) (Z.pos d)) as [E|E|E].
  - destruct (Z.even fl) eqn:Ev.
    + repeat split; try nia. intros _. exact Ev.
    + repeat split; try nia. intros _. rewrite Z.even_add, Ev. reflexivity.
  - repeat split; try nia; try (intros [H|H]; exfalso; nia).
  - repeat split; try nia; try (intros [H|H]; exfalso; nia).
Qed.

(** C6, amended: [None] gives [None], and so does a value that [float()]
    rejects.  Otherwise the value is first converted to binary64: a finite
    [v <= 1.0] is sent to [round] of the binary64 product [v * 100] and a
    finite [v > 1.0] to [round(v)], halves to the even integer; [0.42] gives
    42 and [87] gives 87.  NaN, an infinity, and a [v] whose product
    overflows make [round] raise, which [_claude_usage_percent] does not
    catch. *)
Theorem claude_usage_percent_normalizes (L : pylib) :
  Limitsbar._claude_usage_percent L VNone = Ok None /\
  (forall (u : value) (v : spec_float) (q : Q),
     is_none u = false -> py_float L u = Ok v -> xnum_of_float v = Fin q ->
     ((q <= 1)%Q ->
      forall p, xnum_of_float (F64.mul v F64.hundred) = Fin p ->
      Limitsbar._claude_usage_percent L u = Ok (Some (Qround_half_even p))) /\
     ((1 < q)%Q ->
      Limitsbar._claude_usage_percent L u = Ok (Some (Qround_half_even q)))) /\
  Limitsbar._claude_usage_percent L (VFloat f042) = Ok (Some 42) /\
  Limitsbar._claude_usage_percent L (VInt 87) = Ok (Some 87) /\
  (forall (u : value) (e : exn),
     is_none u = false -> py_float L u = Raise e ->
     Limitsbar._claude_usage_percent L u = Ok None) /\
  (forall (u : value) (v : spec_float),
     is_none u = false -> py_float L u = Ok v ->
     (xnum_of_float v = NaN ->
      Limitsbar._claude_usage_percent L u
      = Raise (ValueError "cannot convert float NaN to integer"))
     /\ (xnum_of_float v = PInf \/ xnum_of_float v = NInf ->
         Limitsbar._claude_usage_percent L u
         = Raise (OverflowError "cannot convert float infinity to integer"))
     /\ (forall q, xnum_of_float v = Fin q -> (q <= 1)%Q ->
         xnum_of_float (F64.mul v F64.hundred) = NInf ->
         Limitsbar._claude_usage_percent L u
         = Raise (OverflowError "cannot convert float infinity to integer"))).
Proof.
  split; [reflexivity|]. split; [|split; [vm_compute; reflexivity|]].
  2:{ split; [vm_compute; reflexivity|]. split.
      - intros u e Hu He. unfold Limitsbar._claude_usage_percent.
        now rewrite Hu, He.
      - intros u v Hu Hv. unfold Limitsbar._claude_usage_percent.
        rewrite Hu, Hv. split; [|split].
        + intros Hn. destruct v as [s|s| |s m e]; try discriminate Hn;
            [destruct s; discriminate Hn|reflexivity].
        + intros [Hi|Hi]; destruct v as [s|s| |s m e]; try discriminate Hi;
            destruct s; try discriminate Hi; reflexivity.
        + intros q Hq Hle Hp. rewrite Hq. simpl xnum_compare. unfold cmp_le.
          destruct (Qcompare_spec q 1); try (exfalso; lra);
            unfold float_round; rewrite Hp; reflexivity. }
  - intros u v q Hu Hv Hq. unfold Limitsbar._claude_usage_percent.
    rewrite Hu, Hv, Hq. simpl xnum_compare. unfold cmp_le.
    split.
    + intros Hle p Hp.
      destruct (Qcompare_spec q 1); try (exfalso; lra);
        unfold float_round; rewrite Hp; reflexivity.
    + intros Hlt.
      destruct (Qcompare_spec q 1); try (exfalso; lra).
      unfold float_round; rewrite Hq; reflexivity.
Qed.

(** C6 as stated fails: the integer [2^53 + 1] is greater than 1 and is
    not sent to itself but to [2^53]; the integer [10^400] is sent to
    [None]; and on an infinity [round] raises. *)
Lemma claude_usage_percent_counterexample :
  Limitsbar._claude_usage_percent Demo.lib (VInt (2 ^ 53 + 1)) = Ok (Some (2 ^ 53))
  /\ 2 ^ 53 <> 2 ^ 53 + 1
  /\ Limitsbar._claude_usage_percent Demo.lib (VInt (10 ^ 400)) = Ok None
  /\ Limitsbar._claude_usage_percent Demo.lib (VFloat (S754_infinity false))
     = Raise (OverflowError "cannot convert float infinity to integer").
Proof. vm_compute. repeat split. discriminate. Qed.

Lemma claude_usage_percent_witness :
  Limitsbar._claude_usage_percent Demo.lib (VFloat f042) = Ok (Some 42).
Proof.
  refine (proj1 (proj1 (proj2 (claude_usage_percent_normalizes Demo.lib))
                   (VFloat f042) f042 (F64.to_Q f042) eq_refl eq_refl eq_refl)
            _ (F64.to_Q (F64.mul f042 F64.hundred)) eq_refl).
  unfold Qle; simpl; lia.
Defined.

(** ** The time left until a reset *)

(** [_format_eta] on a timestamp that [int()] turns into a number of
    seconds [datetime] can hold. *)
Lemma format_eta_run (L : pylib) (ts : value) (w : world) (t : Z) :
  truthy ts = true -> py_int L ts = Ok t ->
  MIN_TIMESTAMP <= t <= MAX_TIMESTAMP ->
  fst (Codexbar._format_eta L ts w)
  = rbind (float_trunc (total_seconds (t * 1000000 - clock w (ticks w))))
      (fun total => Ok (eta_text total)).
Proof.
  intros Ht Hi [Hlo Hhi].
  assert (Z.leb MIN_TIMESTAMP t && Z.leb t MAX_TIMESTAMP = true) as Er
    by (apply andb_true_intro; split; apply Z.leb_le; assumption).
  unfold Codexbar._format_eta. rewrite Ht, Hi. unfold rbind at 1, fromtimestamp_int.
  rewrite Er. cbn [negb].
  unfold bind, Codexbar._now_utc, lift, datetime_sub, utc_datetime, ret.
  cbn [utcoffset wall fst snd].
  replace (t * 1000000 - 0 - (clock w (ticks w) - 0))
    with (t * 1000000 - clock w (ticks w)) by lia.
  destruct (float_trunc _) as [total|e]; [|reflexivity].
  unfold rbind, eta_text. destruct (Z.leb total 0); reflexivity.
Qed.





(** ** Writing the credential file *)

(** *** Paths *)

Lemma length_append (s t : string) :
  String.length (s ++ t) = (String.length s + String.length t)%nat.
Proof. induction s as [|c s IH]; simpl; [reflexivity|now rewrite IH]. Qed.

Lemma append_neq_self (s t : string) : t <> "" -> s ++ t <> s.
Proof.
  intros Ht E. apply (f_equal String.length) in E. rewrite length_append in E.
  destruct t; [contradiction|]. simpl in E. lia.
Qed.

Lemma after_last_slash_tmp (p : string) :
  after_last_slash (p ++ ".tmp") = after_last_slash p.
Proof. induction p as [|c p IH]; simpl; [reflexivity|now rewrite IH]. Qed.

Lemma after_last_slash_le (p : string) :
  (after_last_slash p <= String.length p)%nat.
Proof.
  induction p as [|c p IH]; simpl; [lia|].
  destruct (after_last_slash p); [destruct (Ascii.eqb c _)|]; lia.
Qed.

Lemma substring_append_head (n : nat) (s t : string) :
  (n <= String.length s)%nat -> substring 0 n (s ++ t) = substring 0 n s.
Proof.
  revert s. induction n as [|n IH]; intros s Hn.
  - destruct s; simpl; [destruct t|]; reflexivity.
  - destruct s as [|c s]; simpl in *; [lia|]. rewrite IH by lia. reflexivity.
Qed.

Lemma dirname_tmp (p : string) : dirname (p ++ ".tmp") = dirname p.
Proof.
  unfold dirname. rewrite after_last_slash_tmp.
  rewrite substring_append_head by apply after_last_slash_le. reflexivity.
Qed.

(** *** Running file-system calls *)

Lemma fs_do_all_run (ops : list fs_op) (w : world) (fs' : gmap string string) :
  fs_run ops (files w) = Ok fs' ->
  fs_do_all ops w = (Ok tt, set_fs_log (fs_log w ++ ops) (set_files fs' w)).
Proof.
  revert w. induction ops as [|op ops IH]; intros w H; simpl in *.
  - injection H as <-. rewrite app_nil_r. destruct w; reflexivity.
  - unfold bind, fs_do. simpl.
    destruct (fs_apply op (files w)) as [fs1|e] eqn:E; simpl in H; [|discriminate].
    rewrite (IH (set_files fs1 (set_fs_log (fs_log w ++ [op]) w)) H).
    simpl. rewrite <- app_assoc. reflexivity.
Qed.

Lemma fs_run_app (ops1 ops2 : list fs_op) (fs : gmap string string) :
  fs_run (ops1 ++ ops2) fs = rbind (fs_run ops1 fs) (fs_run ops2).
Proof.
  revert fs. induction ops1 as [|op ops1 IH]; intros fs; simpl; [reflexivity|].
  destruct (fs_apply op fs); simpl; [apply IH|reflexivity].
Qed.

Lemma append_cons (c : Ascii.ascii) (s t : string) : String c s ++ t = String c (s ++ t).
Proof. reflexivity. Qed.

Lemma append_empty_r (s : string) : s ++ "" = s.
Proof.
  induction s as [|c s IH]; [reflexivity|]. now rewrite append_cons, IH.
Qed.

Lemma append_assoc (a b c : string) : (a ++ b) ++ c = a ++ (b ++ c).
Proof.
  induction a as [|x a IH]; [reflexivity|]. now rewrite !append_cons, IH.
Qed.

(** Writing chunks to [tmp] appends them there and leaves other paths. *)
Lemma fs_run_chunks (tmp : string) (chunks : list string) (fs : gmap string string)
    (acc : string) :
  fs !! tmp = Some acc ->
  exists fs', fs_run (map (WriteChunk tmp) chunks) fs = Ok fs'
              /\ fs' !! tmp = Some (acc ++ String.concat "" chunks)
              /\ forall p, p <> tmp -> fs' !! p = fs !! p.
Proof.
  revert fs acc. induction chunks as [|c chunks IH]; intros fs acc Hacc.
  - exists fs. simpl. rewrite append_empty_r. auto.
  - simpl fs_run. rewrite Hacc. simpl.
    destruct (IH (<[tmp := acc ++ c]> fs) (acc ++ c)) as (fs' & Hrun & Htmp & Hother).
    { apply lookup_insert_eq. }
    exists fs'. split; [exact Hrun|]. split.
    + rewrite Htmp, append_assoc. f_equal. f_equal.
      destruct chunks; simpl; [apply append_empty_r|reflexivity].
    + intros p Hp. rewrite (Hother p Hp). apply lookup_insert_ne. congruence.
Qed.

Lemma fs_run_only_touches (tmp : string) (ops : list fs_op) (fs : gmap string string) :
  Forall (only_touches tmp) ops ->
  exists fs', fs_run ops fs = Ok fs' /\ forall p, p <> tmp -> fs' !! p = fs !! p.
Proof.
  intros H. revert fs. induction H as [|op ops Hop _ IH]; intros fs.
  - exists fs. split; [reflexivity|auto].
  - destruct op as [p|p c|p|src dst]; simpl in Hop; try contradiction; subst p; simpl.
    + destruct (IH (<[tmp := ""]> fs)) as (fs' & Hrun & Hother).
      exists fs'. split; [exact Hrun|].
      intros p Hp. rewrite (Hother p Hp). apply lookup_insert_ne. congruence.
    + destruct (IH (<[tmp := default "" (fs !! tmp) ++ c]> fs)) as (fs' & Hrun & Hother).
      exists fs'. split; [exact Hrun|].
      intros p Hp. rewrite (Hother p Hp). apply lookup_insert_ne. congruence.
    + apply IH.
Qed.

Lemma write_auth_ops_shape (L : pylib) (path : string) (data : value) :
  let tmp := path ++ ".tmp" in
  let pre := (OpenW tmp :: map (WriteChunk tmp) (json_dump_chunks L data)
              ++ [CloseW tmp])%list in
  Codexbar._write_auth_ops L path data = (pre ++ [Replace tmp path])%list
  /\ Forall (only_touches tmp) pre.
Proof.
  intros tmp pre. split.
  - unfold Codexbar._write_auth_ops, pre. fold tmp. simpl.
    rewrite <- app_assoc. reflexivity.
  - unfold pre. constructor; [reflexivity|].
    apply Forall_app. split.
    + apply Forall_map. apply Forall_forall. intros c _. reflexivity.
    + constructor; [reflexivity|constructor].
Qed.

Lemma fs_run_pre (L : pylib) (path : string) (data : value) (fs : gmap string string) :
  let tmp := path ++ ".tmp" in
  let pre := (OpenW tmp :: map (WriteChunk tmp) (json_dump_chunks L data)
              ++ [CloseW tmp])%list in
  exists fs', fs_run pre fs = Ok fs'
              /\ fs' !! tmp = Some (String.concat "" (json_dump_chunks L data))
              /\ forall p, p <> tmp -> fs' !! p = fs !! p.
Proof.
  intros tmp pre. unfold pre. simpl fs_run.
  rewrite fs_run_app.
  destruct (fs_run_chunks tmp (json_dump_chunks L data) (<[tmp := ""]> fs) "")
    as (fs' & Hrun & Htmp & Hother).
  { apply lookup_insert_eq. }
  exists fs'. rewrite Hrun. simpl. split; [reflexivity|]. split; [exact Htmp|].
  intros p Hp. rewrite (Hother p Hp). apply lookup_insert_ne. congruence.
Qed.

(** C8: [_write_auth] writes the whole new content to [path + ".tmp"], a
    path of the same directory, and only then moves it over [path] in one
    step; stopped after any number of its file-system calls, it leaves at
    [path] either the old content or the new one in full, hence valid
    JSON.  Both scripts. *)
Theorem write_auth_atomic (L : pylib) (path : string) (data : value) (w : world)
    (old : string) :
  files w !! path = Some old ->
  (exists v, json_loads L old = Ok v) ->
  (exists v, json_loads L (String.concat "" (json_dump_chunks L data)) = Ok v) ->
  let tmp := path ++ ".tmp" in
  let new := String.concat "" (json_dump_chunks L data) in
  let ops := Codexbar._write_auth_ops L path data in
  Limitsbar._write_auth_ops L path data = ops
  /\ dirname tmp = dirname path
  /\ (exists pre, ops = (pre ++ [Replace tmp path])%list
                  /\ Forall (only_touches tmp) pre
                  /\ exists w', fs_do_all pre w = (Ok tt, w')
                                /\ files w' !! tmp = Some new
                                /\ files w' !! path = Some old)
  /\ (forall n, (n < length ops)%nat ->
        exists w', fs_do_all (take n ops) w = (Ok tt, w')
                   /\ files w' !! path = Some old)
  /\ (exists w', Codexbar._write_auth L path data w = (Ok tt, w')
                 /\ Limitsbar._write_auth L path data w = (Ok tt, w')
                 /\ files w' !! path = Some new
                 /\ files w' !! tmp = None)
  /\ (forall n, exists w' c v,
        fs_do_all (take n ops) w = (Ok tt, w')
        /\ files w' !! path = Some c /\ json_loads L c = Ok v).
Proof.
  intros Hold Hvold Hvnew tmp new ops.
  assert (Hne : path <> tmp).
  { intros E. symmetry in E. revert E. apply append_neq_self. discriminate. }
  destruct (write_auth_ops_shape L path data) as [Hshape Hpre].
  fold tmp in Hshape, Hpre. fold ops in Hshape.
  set (pre := (OpenW tmp :: map (WriteChunk tmp) (json_dump_chunks L data)
               ++ [CloseW tmp])%list) in *.
  destruct (fs_run_pre L path data (files w)) as (fs1 & Hrun1 & Htmp1 & Hother1).
  fold tmp in Hrun1, Htmp1, Hother1. fold pre in Hrun1. fold new in Htmp1.
  assert (Hbefore : forall n, (n < length ops)%nat ->
            exists w', fs_do_all (take n ops) w = (Ok tt, w')
                       /\ files w' !! path = Some old).
  { intros n Hn.
    assert (length ops = S (length pre)) as Hlen
      by (rewrite Hshape, length_app, Nat.add_comm; reflexivity).
    rewrite Hshape, take_app_le by lia.
    destruct (fs_run_only_touches tmp (take n pre) (files w)) as (fs' & Hrun & Hother).
    { apply Forall_take. exact Hpre. }
    eexists. split; [apply fs_do_all_run; exact Hrun|].
    simpl. rewrite (Hother path Hne). exact Hold. }
  assert (Hfull : fs_run ops (files w) = Ok (<[path := new]> (delete tmp fs1))).
  { rewrite Hshape, fs_run_app, Hrun1. simpl. rewrite Htmp1. reflexivity. }
  split; [reflexivity|]. split; [apply dirname_tmp|]. split; [|split; [exact Hbefore|split]].
  - exists pre. split; [exact Hshape|]. split; [exact Hpre|].
    eexists. split; [apply fs_do_all_run; exact Hrun1|]. simpl.
    split; [exact Htmp1|]. rewrite (Hother1 path Hne). exact Hold.
  - eexists. split; [|split; [|split]].
    + unfold Codexbar._write_auth. fold ops. apply fs_do_all_run. exact Hfull.
    + unfold Limitsbar._write_auth.
      change (Limitsbar._write_auth_ops L path data) with ops.
      apply fs_do_all_run. exact Hfull.
    + simpl. apply lookup_insert_eq.
    + simpl. rewrite lookup_insert_ne by congruence. apply lookup_delete_eq.
  - intros n. destruct (Nat.lt_ge_cases n (length ops)) as [Hn|Hn].
    + destruct (Hbefore n Hn) as (w' & Hrun & Hp). destruct Hvold as [v Hv].
      exists w', old, v. auto.
    + rewrite take_ge by exact Hn. destruct Hvnew as [v Hv].
      eexists _, new, v. split; [apply fs_do_all_run; exact Hfull|].
      split; [simpl; apply lookup_insert_eq|exact Hv].
Qed.

Lemma write_auth_atomic_witness :
  exists w' c v,
    fs_do_all (take 7 (Codexbar._write_auth_ops Demo.lib Demo.CODEX_AUTH Demo.auth_stale))
      (Demo.world_of Demo.logged_in Demo.codex_45_10 Demo.claude_88_5) = (Ok tt, w')
    /\ files w' !! Demo.CODEX_AUTH = Some c /\ json_loads Demo.lib c = Ok v.
Proof.
  refine (proj2 (proj2 (proj2 (proj2 (proj2
            (write_auth_atomic Demo.lib Demo.CODEX_AUTH Demo.auth_stale
               (Demo.world_of Demo.logged_in Demo.codex_45_10 Demo.claude_88_5)
               (Demo.compact Demo.auth_fresh) _ _ _))))) 7%nat).
  - vm_compute. reflexivity.
  - exists Demo.auth_fresh. vm_compute. reflexivity.
  - exists (Demo.sort_keys Demo.auth_stale). vm_compute. reflexivity.
Defined.

(** ** What a run touches *)

(** *** Parts of the world a computation leaves as they are

    [keeps f c]: running [c] does not change the observation [f] of the
    world.  The three classes say which updates an observation ignores. *)

#[local] Instance files_tick_free : TickFree files.
Proof. intros n w. reflexivity. Qed.
#[local] Instance fs_log_tick_free : TickFree fs_log.
Proof. intros n w. reflexivity. Qed.
#[local] Instance stdout_tick_free : TickFree stdout.
Proof. intros n w. reflexivity. Qed.
#[local] Instance files_out_free : OutFree files.
Proof. intros n w. reflexivity. Qed.
#[local] Instance fs_log_out_free : OutFree fs_log.
Proof. intros n w. reflexivity. Qed.
#[local] Instance stdout_fs_free : FsFree stdout.
Proof. intros w fs l. reflexivity. Qed.

Section Keeps.
Context {X : Type} (f : world -> X).

Lemma keeps_ret {A} (a : A) : keeps f (ret a).
Proof. intros w. reflexivity. Qed.
Lemma keeps_raise {A} e : keeps f (@raise A e).
Proof. intros w. reflexivity. Qed.
Lemma keeps_lift {A} (r : result A) : keeps f (lift r).
Proof. intros w. reflexivity. Qed.
Lemma keeps_gets {A} (g : world -> A) : keeps f (gets g).
Proof. intros w. reflexivity. Qed.

Lemma keeps_bind {A B} (c : M A) (k : A -> M B) :
  keeps f c -> (forall a, keeps f (k a)) -> keeps f (bind c k).
Proof.
  intros Hc Hk w. unfold bind. specialize (Hc w).
  destruct (c w) as [[a|e] w']; simpl in *; [|exact Hc].
  now rewrite (Hk a w').
Qed.

Lemma keeps_try {A} (c : M A) (h : exn -> M A) :
  keeps f c -> (forall e, keeps f (h e)) -> keeps f (try_except c h).
Proof.
  intros Hc Hh w. unfold try_except. specialize (Hc w).
  destruct (c w) as [[a|e] w']; simpl in *; [exact Hc|].
  now rewrite (Hh e w').
Qed.

Lemma keeps_now `{!TickFree f} : keeps f Codexbar._now_utc.
Proof. intros w. apply tick_free. Qed.

Lemma keeps_stdout_write `{!OutFree f} s : keeps f (stdout_write s).
Proof. intros w. apply out_free. Qed.

Lemma keeps_fs_do `{!FsFree f} op : keeps f (fs_do op).
Proof.
  intros w. unfold fs_do.
  destruct (fs_apply op (files (set_fs_log (fs_log w ++ [op]) w))) as [fs|e]; simpl.
  - apply fs_free.
  - exact (fs_free (f := f) w (files w) (fs_log w ++ [op])%list).
Qed.

End Keeps.

Create HintDb keeps.
#[local] Hint Extern 0 (TickFree _) => exact _ : keeps.
#[local] Hint Extern 0 (OutFree _) => exact _ : keeps.
#[local] Hint Extern 0 (FsFree _) => exact _ : keeps.
#[local] Hint Resolve keeps_ret keeps_raise keeps_lift keeps_gets : keeps.
#[local] Hint Extern 1 (keeps _ Codexbar._now_utc) => apply keeps_now; exact _ : keeps.
#[local] Hint Extern 1 (keeps _ Limitsbar._now_utc) => apply keeps_now; exact _ : keeps.
#[local] Hint Extern 1 (keeps _ (stdout_write _)) =>
  apply keeps_stdout_write; exact _ : keeps.
#[local] Hint Extern 1 (keeps _ (fs_do _)) => apply keeps_fs_do; exact _ : keeps.

Ltac keeps_step :=
  match goal with
  | |- keeps _ (bind _ _) => apply keeps_bind; [|intros]
  | |- keeps _ (try_except _ _) => apply keeps_try; [|intros]
  | |- keeps _ (match ?x with _ => _ end) => destruct x
  | |- keeps _ _ => solve [auto with keeps]
  end.
Ltac keeps_tac := repeat keeps_step.

Section KeepsHelpers.
Context {X : Type} (f : world -> X) `{!TickFree f} (L : pylib).

Lemma keeps_auth_path : keeps f Codexbar._auth_path.
Proof. unfold Codexbar._auth_path. keeps_tac. Qed.
Hint Resolve keeps_auth_path : keeps.

Lemma keeps_read_auth : keeps f (Codexbar._read_auth L).
Proof. unfold Codexbar._read_auth. keeps_tac. Qed.
Hint Resolve keeps_read_auth : keeps.

Lemma keeps_needs_refresh lr : keeps f (Codexbar._needs_refresh lr).
Proof. unfold Codexbar._needs_refresh. keeps_tac. Qed.
Hint Resolve keeps_needs_refresh : keeps.

Lemma keeps_refresh_tokens rt : keeps f (Codexbar._refresh_tokens L rt).
Proof. unfold Codexbar._refresh_tokens. keeps_tac. Qed.
Hint Resolve keeps_refresh_tokens : keeps.

Lemma keeps_fetch_usage a i : keeps f (Codexbar._fetch_usage L a i).
Proof. unfold Codexbar._fetch_usage. keeps_tac. Qed.
Hint Resolve keeps_fetch_usage : keeps.

Lemma keeps_format_eta ts : keeps f (Codexbar._format_eta L ts).
Proof. unfold Codexbar._format_eta. keeps_tac. Qed.
Hint Resolve keeps_format_eta : keeps.

Lemma keeps_load_codexbar : keeps f (Codexbar.load_credentials L).
Proof. unfold Codexbar.load_credentials. keeps_tac. Qed.

Lemma keeps_load_limitsbar : keeps f (Limitsbar.load_credentials L).
Proof. unfold Limitsbar.load_credentials. keeps_tac. Qed.

Lemma keeps_render_codexbar win : keeps f (Codexbar.render L win).
Proof. unfold Codexbar.render. keeps_tac. Qed.

Lemma keeps_format_reset_dt dt : keeps f (Limitsbar._format_reset_dt L dt).
Proof. unfold Limitsbar._format_reset_dt. keeps_tac. Qed.
Hint Resolve keeps_format_reset_dt : keeps.

Lemma keeps_render_limitsbar a b c d : keeps f (Limitsbar.render L a b c d).
Proof.
  unfold Limitsbar.render, Limitsbar.codex_segment, Limitsbar.claude_segment.
  keeps_tac.
Qed.

Lemma keeps_get_claude_status : keeps f (Limitsbar._get_claude_status L).
Proof.
  assert (keeps f (Limitsbar._read_claude_credentials L)) as Hread.
  { unfold Limitsbar._read_claude_credentials, Limitsbar._claude_credentials_path.
    keeps_tac. }
  assert (forall cred, keeps f (Limitsbar.claude_after_read L cred)) as Hafter.
  { intros cred. unfold Limitsbar.claude_after_read. keeps_tac. }
  intros w. unfold Limitsbar._get_claude_status. specialize (Hread w).
  destruct (Limitsbar._read_claude_credentials L w) as [[[cred p]|e] w']; simpl in *.
  - now rewrite (Hafter cred w').
  - destruct e; exact Hread.
Qed.

Lemma keeps_emit `{!OutFree f} p : keeps f (Codexbar._emit L p).
Proof. unfold Codexbar._emit. keeps_tac. Qed.

Lemma keeps_fs_do_all `{!FsFree f} ops : keeps f (fs_do_all ops).
Proof. induction ops as [|op ops IH]; simpl; keeps_tac. Qed.

Lemma keeps_refresh_if_stale_codexbar `{!FsFree f} c :
  keeps f (Codexbar.refresh_if_stale L c).
Proof.
  unfold Codexbar.refresh_if_stale, Codexbar.refresh, Codexbar._write_auth.
  pose proof (@keeps_fs_do_all _) as Hw. keeps_tac.
Qed.

Lemma keeps_get_codex_status `{!FsFree f} : keeps f (Limitsbar._get_codex_status L).
Proof.
  unfold Limitsbar._get_codex_status, Limitsbar.codex_try, Limitsbar.refresh_if_stale,
    Limitsbar.refresh, Limitsbar._write_auth.
  pose proof keeps_load_limitsbar as Hl.
  pose proof (@keeps_fs_do_all _) as Hw. keeps_tac.
Qed.

End KeepsHelpers.

#[local] Hint Resolve keeps_auth_path keeps_read_auth keeps_needs_refresh
  keeps_refresh_tokens keeps_fetch_usage keeps_format_eta keeps_load_codexbar
  keeps_load_limitsbar keeps_render_codexbar keeps_format_reset_dt
  keeps_render_limitsbar keeps_get_claude_status : keeps.
#[local] Hint Extern 1 (keeps _ (Codexbar._emit _ _)) => apply keeps_emit; exact _ : keeps.
#[local] Hint Extern 1 (keeps _ (Limitsbar._emit _ _)) => apply keeps_emit; exact _ : keeps.

Ltac quiet_tac := split; keeps_tac.

Lemma kept_refl P w : kept P w w.
Proof. split; [auto|]. exists []. now rewrite app_nil_r. Qed.

Lemma kept_trans P w1 w2 w3 : kept P w1 w2 -> kept P w2 w3 -> kept P w1 w3.
Proof.
  intros [F1 (o1 & L1 & W1)] [F2 (o2 & L2 & W2)]. split.
  - intros p Hp. rewrite F2, F1; auto.
  - exists (o1 ++ o2)%list. rewrite L2, L1, app_assoc. split; [reflexivity|].
    apply Forall_app; auto.
Qed.

Lemma kept_nothing w w' :
  kept (fun _ => False) w w' -> files w' = files w /\ fs_log w' = fs_log w.
Proof.
  intros [F (ops & Hl & Hw)]. split.
  - apply map_eq. intros p. apply F. auto.
  - destruct Hw as [|op ops Hop _]; [now rewrite app_nil_r in Hl|].
    destruct op; simpl in Hop; tauto.
Qed.

Lemma quiet_confined P {A} (c : M A) w : quiet c -> confined P c w.
Proof.
  intros [Hf Hl]. split.
  - intros p _. now rewrite (Hf w).
  - exists []. rewrite (Hl w), app_nil_r. auto.
Qed.

Lemma confined_bind P {A B} (c : M A) (k : A -> M B) w :
  confined P c w ->
  (forall a w', c w = (Ok a, w') -> confined P (k a) w') ->
  confined P (bind c k) w.
Proof.
  unfold confined, bind. intros Hc Hk.
  destruct (c w) as [[a|e] w'] eqn:E; simpl in *; [|exact Hc].
  eapply kept_trans; [exact Hc|]. apply Hk. reflexivity.
Qed.

Lemma confined_try P {A} (c : M A) (h : exn -> M A) w :
  confined P c w ->
  (forall e w', c w = (Raise e, w') -> confined P (h e) w') ->
  confined P (try_except c h) w.
Proof.
  unfold confined, try_except. intros Hc Hh.
  destruct (c w) as [[a|e] w'] eqn:E; simpl in *; [exact Hc|].
  eapply kept_trans; [exact Hc|]. apply Hh. reflexivity.
Qed.

(** *** Paths of the two credential files *)

Lemma append_suffix_inj (a b s t : string) :
  a ++ s = b ++ t -> String.length s = String.length t -> s = t.
Proof.
  intros E Hl.
  assert (String.length a = String.length b) as Hab.
  { apply (f_equal String.length) in E. rewrite !length_append in E. lia. }
  clear Hl. revert b E Hab. induction a as [|x a IH]; intros [|y b] E Hab;
    simpl in Hab; try discriminate.
  - exact E.
  - rewrite !append_cons in E. injection E as _ E. apply (IH b); [exact E|lia].
Qed.

Lemma path_join_suffix (a b : string) :
  startswith b "/" = false -> exists x, path_join a b = x ++ b.
Proof.
  intros H. unfold path_join. rewrite H.
  destruct (String.eqb a "" || endswith a "/").
  - now exists a.
  - exists (a ++ "/"). now rewrite append_assoc.
Qed.

Lemma auth_json_not_claude (x : string) (w : world) :
  x ++ "auth.json" <> claude_path w /\ (x ++ "auth.json") ++ ".tmp" <> claude_path w.
Proof.
  destruct (path_join_suffix (path_join (home w) ".claude") ".credentials.json" eq_refl)
    as [y Hy].
  unfold claude_path. rewrite Hy. split; intros E.
  - change ".credentials.json" with (".credent" ++ "ials.json") in E.
    rewrite <- append_assoc in E.
    apply append_suffix_inj in E; [discriminate|reflexivity].
  - change ".credentials.json" with (".credentials." ++ "json") in E.
    rewrite <- (append_assoc y) in E.
    apply append_suffix_inj in E; [discriminate|reflexivity].
Qed.

(** *** What [_write_auth] touches *)

Lemma confined_fs_do_all P (ops : list fs_op) (w : world) :
  Forall (op_within P) ops -> confined P (fs_do_all ops) w.
Proof.
  intros H. revert w. induction H as [|op ops Hop _ IH]; intros w.
  - apply kept_refl.
  - simpl. apply confined_bind; [|intros; apply IH].
    unfold confined, fs_do. simpl.
    assert (forall fs', fs_apply op (files w) = Ok fs' ->
                        forall p, ~ P p -> fs' !! p = files w !! p) as Hfs.
    { intros fs' E p Hp. destruct op as [q|q c|q|src dst]; simpl in *.
      - injection E as <-. apply lookup_insert_ne. congruence.
      - injection E as <-. apply lookup_insert_ne. congruence.
      - now injection E as <-.
      - destruct (files w !! src); [|discriminate]. injection E as <-.
        destruct Hop as [Hs Hd].
        rewrite lookup_insert_ne by congruence.
        apply lookup_delete_ne. congruence. }
    destruct (fs_apply op (files w)) as [fs'|e]; simpl; split;
      try (exists [op]; split; [reflexivity|constructor; [exact Hop|constructor]]).
    + intros p Hp. apply (Hfs fs' eq_refl p Hp).
    + auto.
Qed.

Lemma confined_write_auth P L (path : string) (data : value) (w : world) :
  P path -> P (path ++ ".tmp") -> confined P (Codexbar._write_auth L path data) w.
Proof.
  intros Hp Ht. apply confined_fs_do_all. unfold Codexbar._write_auth_ops.
  apply Forall_app; split; [constructor; [exact Ht|constructor]|].
  apply Forall_app; split.
  - apply Forall_map. apply Forall_forall. intros c _. exact Ht.
  - constructor; [exact Ht|]. constructor; [split; assumption|constructor].
Qed.

Lemma bind_ok {A B} (c : M A) (k : A -> M B) w b w' :
  bind c k w = (Ok b, w') ->
  exists a w1, c w = (Ok a, w1) /\ k a w1 = (Ok b, w').
Proof.
  unfold bind. destruct (c w) as [[a|e] w1]; [eauto|discriminate].
Qed.

Lemma auth_path_suffix (w : world) p w' :
  Codexbar._auth_path w = (Ok p, w') -> exists x, p = x ++ "auth.json".
Proof.
  unfold Codexbar._auth_path. intros H.
  apply bind_ok in H as (h & w1 & _ & H).
  destruct h as [h|]; [destruct (negb (String.eqb h ""))|];
    injection H as <- _; apply path_join_suffix; reflexivity.
Qed.

Lemma read_auth_suffix L (w : world) auth p w' :
  Codexbar._read_auth L w = (Ok (auth, p), w') -> exists x, p = x ++ "auth.json".
Proof.
  unfold Codexbar._read_auth. intros H.
  apply bind_ok in H as (p0 & w1 & Hp & H).
  apply bind_ok in H as (content & w2 & _ & H).
  destruct content as [text|]; [|discriminate].
  apply bind_ok in H as (data & w3 & _ & H).
  injection H as _ <- _. eapply auth_path_suffix; eassumption.
Qed.

Lemma load_codexbar_path L (w : world) c w' :
  Codexbar.load_credentials L w = (Ok c, w') ->
  exists x, Codexbar.cr_path c = x ++ "auth.json".
Proof.
  unfold Codexbar.load_credentials. intros H.
  apply bind_ok in H as ([auth p] & w1 & Hread & H).
  repeat (apply bind_ok in H as (? & ? & _ & H)).
  injection H as <- _. simpl. eapply read_auth_suffix; eassumption.
Qed.

Lemma load_limitsbar_path L (w : world) c w' :
  Limitsbar.load_credentials L w = (Ok (Some c), w') ->
  exists x, Limitsbar.cr_path c = x ++ "auth.json".
Proof.
  unfold Limitsbar.load_credentials. intros H.
  apply bind_ok in H as ([auth p] & w1 & Hread & H).
  repeat (apply bind_ok in H as (? & ? & _ & H)).
  destruct (negb _); [discriminate|].
  apply bind_ok in H as (? & ? & _ & H).
  injection H as <- _. simpl.
  eapply (read_auth_suffix L); eassumption.
Qed.

Ltac confined_quiet := apply quiet_confined; solve [quiet_tac].

Lemma confined_refresh_codexbar P L c w :
  P (Codexbar.cr_path c) -> P (Codexbar.cr_path c ++ ".tmp") ->
  confined P (Codexbar.refresh L c) w.
Proof.
  intros Hp Ht. unfold Codexbar.refresh.
  repeat (apply confined_bind; [confined_quiet|intros]).
  apply confined_bind; [apply confined_write_auth; assumption|intros].
  confined_quiet.
Qed.

Lemma confined_refresh_limitsbar P L c w :
  P (Limitsbar.cr_path c) -> P (Limitsbar.cr_path c ++ ".tmp") ->
  confined P (Limitsbar.refresh L c) w.
Proof.
  intros Hp Ht. unfold Limitsbar.refresh.
  repeat (apply confined_bind; [confined_quiet|intros]).
  apply confined_bind;
    [apply (confined_write_auth P L (Limitsbar.cr_path c)); assumption|intros].
  confined_quiet.
Qed.

Lemma not_stale_test rt lr w :
  truthy rt = false \/ fst (Codexbar._needs_refresh lr w) = Ok false ->
  exists w', stale_test rt lr w = (Ok false, w')
             /\ files w' = files w /\ fs_log w' = fs_log w.
Proof.
  intros H. unfold stale_test.
  destruct (truthy rt); [|exists w; auto].
  destruct H as [H|H]; [discriminate|].
  pose proof (keeps_needs_refresh files lr w) as F.
  pose proof (keeps_needs_refresh fs_log lr w) as Lg.
  destruct (Codexbar._needs_refresh lr w) as [r w'] eqn:E. simpl in *. subst r.
  exists w'. auto.
Qed.

Lemma confined_refresh_if_stale_codexbar P L c w :
  (truthy (Codexbar.cr_refresh_token c) = false
   \/ fst (Codexbar._needs_refresh (Codexbar.cr_last_refresh c) w) = Ok false)
  \/ (P (Codexbar.cr_path c) /\ P (Codexbar.cr_path c ++ ".tmp")) ->
  confined P (Codexbar.refresh_if_stale L c) w.
Proof.
  intros [H|[Hp Ht]]; unfold Codexbar.refresh_if_stale.
  - destruct (not_stale_test _ _ _ H) as (w' & E & F & Lg).
    unfold confined, bind. unfold stale_test in E. rewrite E. simpl.
    split; [intros; now rewrite F|]. exists []. now rewrite Lg, app_nil_r.
  - apply confined_bind; [confined_quiet|intros [|] w' _].
    + apply confined_refresh_codexbar; assumption.
    + confined_quiet.
Qed.

Lemma confined_refresh_if_stale_limitsbar P L c w :
  (truthy (Limitsbar.cr_refresh_token c) = false
   \/ fst (Limitsbar._needs_refresh (Limitsbar.cr_last_refresh c) w) = Ok false)
  \/ (P (Limitsbar.cr_path c) /\ P (Limitsbar.cr_path c ++ ".tmp")) ->
  confined P (Limitsbar.refresh_if_stale L c) w.
Proof.
  intros [H|[Hp Ht]]; unfold Limitsbar.refresh_if_stale.
  - destruct (not_stale_test _ _ _ H) as (w' & E & F & Lg).
    unfold confined, bind. unfold stale_test in E.
    change Limitsbar._needs_refresh with Codexbar._needs_refresh.
    rewrite E. simpl.
    split; [intros; now rewrite F|]. exists []. now rewrite Lg, app_nil_r.
  - apply confined_bind; [confined_quiet|intros [|] w' _].
    + apply confined_refresh_limitsbar; assumption.
    + confined_quiet.
Qed.

(** [main] of [codexbar.py] touches only what the refresh branch may touch. *)
Lemma confined_main_codexbar P L w :
  (forall c w1, Codexbar.load_credentials L w = (Ok c, w1) ->
     (truthy (Codexbar.cr_refresh_token c) = false
      \/ fst (Codexbar._needs_refresh (Codexbar.cr_last_refresh c) w1) = Ok false)
     \/ (P (Codexbar.cr_path c) /\ P (Codexbar.cr_path c ++ ".tmp"))) ->
  confined P (Codexbar.main L) w.
Proof.
  intros H. unfold Codexbar.main.
  apply confined_try; [|intros e w' _; destruct e; confined_quiet].
  unfold Codexbar.main_try.
  apply confined_bind; [confined_quiet|intros c w1 Hc].
  apply confined_bind; [apply confined_refresh_if_stale_codexbar; eauto|intros].
  apply confined_bind; [confined_quiet|intros].
  apply confined_bind; [confined_quiet|intros].
  apply confined_bind; [confined_quiet|intros].
  confined_quiet.
Qed.

Lemma confined_get_codex_status P L w :
  (forall c w1, Limitsbar.load_credentials L w = (Ok (Some c), w1) ->
     (truthy (Limitsbar.cr_refresh_token c) = false
      \/ fst (Limitsbar._needs_refresh (Limitsbar.cr_last_refresh c) w1) = Ok false)
     \/ (P (Limitsbar.cr_path c) /\ P (Limitsbar.cr_path c ++ ".tmp"))) ->
  confined P (Limitsbar._get_codex_status L) w.
Proof.
  intros H. unfold Limitsbar._get_codex_status.
  apply confined_try; [|intros e w' _; destruct e; confined_quiet].
  unfold Limitsbar.codex_try.
  apply confined_bind; [confined_quiet|intros [c|] w1 Hc].
  - apply confined_bind; [apply confined_refresh_if_stale_limitsbar; eauto|intros].
    apply confined_bind; [confined_quiet|intros].
    confined_quiet.
  - confined_quiet.
Qed.

Lemma confined_main_limitsbar P L w :
  (forall c w1, Limitsbar.load_credentials L w = (Ok (Some c), w1) ->
     (truthy (Limitsbar.cr_refresh_token c) = false
      \/ fst (Limitsbar._needs_refresh (Limitsbar.cr_last_refresh c) w1) = Ok false)
     \/ (P (Limitsbar.cr_path c) /\ P (Limitsbar.cr_path c ++ ".tmp"))) ->
  confined P (Limitsbar.main L) w.
Proof.
  intros H. unfold Limitsbar.main.
  apply confined_bind; [apply confined_get_codex_status; exact H|intros [codex cerr] w1 _].
  apply confined_bind; [confined_quiet|intros [claude aerr] w2 _].
  apply confined_bind; [confined_quiet|intros].
  confined_quiet.
Qed.

(** C10: when the refresh branch is not taken (the stored refresh token is
    falsy, or [_needs_refresh] returns [False]) a run makes no file-system
    call and leaves every file as it was; and no run of either script
    touches the Claude credential file. *)
Theorem credential_files_frame (L : pylib) (w : world) :
  (forall c w1,
     Codexbar.load_credentials L w = (Ok c, w1) ->
     truthy (Codexbar.cr_refresh_token c) = false
     \/ fst (Codexbar._needs_refresh (Codexbar.cr_last_refresh c) w1) = Ok false ->
     files (snd (Codexbar.main L w)) = files w
     /\ fs_log (snd (Codexbar.main L w)) = fs_log w)
  /\ (forall c w1,
        Limitsbar.load_credentials L w = (Ok (Some c), w1) ->
        truthy (Limitsbar.cr_refresh_token c) = false
        \/ fst (Limitsbar._needs_refresh (Limitsbar.cr_last_refresh c) w1) = Ok false ->
        files (snd (Limitsbar.main L w)) = files w
        /\ fs_log (snd (Limitsbar.main L w)) = fs_log w)
  /\ (forall w', w' = snd (Codexbar.main L w) \/ w' = snd (Limitsbar.main L w) ->
        files w' !! claude_path w = files w !! claude_path w
        /\ exists ops, fs_log w' = (fs_log w ++ ops)%list
                       /\ Forall (op_within (fun p => p <> claude_path w)) ops).
Proof.
  repeat split.
  - apply kept_nothing. apply confined_main_codexbar.
    intros c' w1' E. rewrite E in H. injection H as <- <-. auto.
  - apply kept_nothing. apply confined_main_codexbar.
    intros c' w1' E. rewrite E in H. injection H as <- <-. auto.
  - apply kept_nothing. apply confined_main_limitsbar.
    intros c' w1' E. rewrite E in H. injection H as <- <-. auto.
  - apply kept_nothing. apply confined_main_limitsbar.
    intros c' w1' E. rewrite E in H. injection H as <- <-. auto.
  - assert (kept (fun p => p <> claude_path w) w w') as [F _].
    { destruct H as [-> | ->].
      - apply confined_main_codexbar. intros c w1 E. right.
        destruct (load_codexbar_path _ _ _ _ E) as [x ->]. apply auth_json_not_claude.
      - apply confined_main_limitsbar. intros c w1 E. right.
        destruct (load_limitsbar_path _ _ _ _ E) as [x ->]. apply auth_json_not_claude. }
    apply F. tauto.
  - assert (kept (fun p => p <> claude_path w) w w') as [_ Hl].
    { destruct H as [-> | ->].
      - apply confined_main_codexbar. intros c w1 E. right.
        destruct (load_codexbar_path _ _ _ _ E) as [x ->]. apply auth_json_not_claude.
      - apply confined_main_limitsbar. intros c w1 E. right.
        destruct (load_limitsbar_path _ _ _ _ E) as [x ->]. apply auth_json_not_claude. }
    exact Hl.
Qed.

Lemma lift_ok {A} (r : result A) w a w' : lift r w = (Ok a, w') -> r = Ok a /\ w' = w.
Proof. unfold lift. intros H. injection H as -> ->. auto. Qed.

Lemma Qtrunc_range (q : Q) : (0 <= q)%Q -> (q <= 100)%Q -> 0 <= Qtrunc q <= 100.
Proof.
  destruct q as [a d]. unfold Qle, Qtrunc. simpl. intros H0 H1.
  rewrite Z.mul_1_r in H0. rewrite Z.quot_div_nonneg by lia. split.
  - apply Z.div_pos; lia.
  - apply Z.div_le_upper_bound; lia.
Qed.

Lemma py_int_in_range L (p : value) (n : Z) :
  percent_in_range p -> p <> VNone -> py_int L p = Ok n -> 0 <= n <= 100.
Proof.
  intros [->|(q & Hq & H0 & H1)] Hn; [contradiction|]. intros Hi.
  assert (n = Qtrunc q) as ->; [|apply Qtrunc_range; assumption].
  destruct p as [|b|z|f|s|l|d]; simpl in Hq; try discriminate.
  - injection Hq as <-. injection Hi as <-. destruct b; reflexivity.
  - injection Hq as <-. injection Hi as <-. unfold Qtrunc. simpl.
    now rewrite Z.quot_1_r.
  - injection Hq as Hq. simpl in Hi. unfold float_trunc in Hi. rewrite Hq in Hi.
    now injection Hi.
Qed.

Lemma is_none_spec (v : value) : is_none v = true <-> v = VNone.
Proof. destruct v; simpl; split; congruence. Qed.

Lemma top_step_choice (t p r : value) :
  Codexbar.top_step t p = Ok r -> r = t \/ (r = p /\ p <> VNone).
Proof.
  unfold Codexbar.top_step. destruct (is_none p) eqn:Ep.
  - intros H. injection H as <-. auto.
  - assert (p <> VNone) by (intros ->; discriminate).
    destruct (is_none t).
    + intros H'. injection H' as <-. auto.
    + destruct (py_gt p t) as [[|]|e]; simpl; intros H'; try discriminate;
        injection H' as <-; auto.
Qed.

Lemma top_of_choice (win : Codexbar.windows) (top : value) :
  Codexbar.top_of win = Ok top ->
  top = VNone
  \/ (top <> VNone /\ (top = Codexbar.daily_percent win \/ top = Codexbar.weekly_percent win)).
Proof.
  unfold Codexbar.top_of.
  destruct (Codexbar.top_step VNone (Codexbar.daily_percent win)) as [t|e] eqn:E1;
    simpl; [|discriminate].
  intros E2. apply top_step_choice in E1, E2.
  destruct E2 as [->|[-> Hn]]; [|auto].
  destruct E1 as [->|[-> Hn]]; auto.
Qed.

Lemma py_max_from_choice (best : value) (l : list value) (r : value) :
  py_max_from best l = Ok r -> r = best \/ In r l.
Proof.
  revert best. induction l as [|x l IH]; intros best; simpl.
  - intros H. injection H as <-. auto.
  - destruct (py_gt x best) as [b|e]; simpl; [|discriminate].
    intros H. apply IH in H. destruct H as [->|H]; [|auto].
    destruct b; auto.
Qed.

Lemma py_max_choice (l : list value) (r : value) : py_max l = Ok r -> In r l.
Proof.
  destruct l as [|x l]; simpl; [discriminate|].
  intros H. apply py_max_from_choice in H. destruct H as [->|H]; auto.
Qed.

Lemma render_codexbar_percentage L win w payload w' :
  Codexbar.render L win w = (Ok payload, w') ->
  exists top n text tooltip cls,
    payload = VDict [("text", VStr text); ("tooltip", VStr tooltip);
                     ("class", VStr cls); ("percentage", VInt n);
                     ("alt", VStr "codex")]
    /\ Codexbar.top_of win = Ok top
    /\ Codexbar._class_for top = Ok cls
    /\ (if is_none top then Ok 0 else py_int L top) = Ok n.
Proof.
  unfold Codexbar.render. intros H.
  apply bind_ok in H as (dt & w1 & _ & H).
  apply bind_ok in H as (wt & w2 & _ & H).
  apply bind_ok in H as (top & w3 & Htop & H). apply lift_ok in Htop as [Htop _].
  apply bind_ok in H as (? & ? & _ & H).
  apply bind_ok in H as (? & ? & _ & H).
  apply bind_ok in H as (? & ? & _ & H).
  apply bind_ok in H as (? & ? & _ & H).
  apply bind_ok in H as (? & ? & _ & H).
  apply bind_ok in H as (? & ? & _ & H).
  apply bind_ok in H as (cls & ? & Hc & H). apply lift_ok in Hc as [Hc _].
  apply bind_ok in H as (n & ? & Hn & H). apply lift_ok in Hn as [Hn _].
  injection H as <- _. eauto 10.
Qed.

Lemma render_limitsbar_percentage L codex cerr claude aerr w payload w' :
  Limitsbar.render L codex cerr claude aerr w = (Ok payload, w') ->
  exists top n text tooltip cls,
    payload = VDict [("text", VStr text); ("tooltip", VStr tooltip);
                     ("class", VStr cls); ("percentage", VInt n);
                     ("alt", VStr "ai-limits")]
    /\ match known_percents codex claude with
       | [] => Ok VNone
       | _ => py_max (known_percents codex claude)
       end = Ok top
    /\ Limitsbar._class_for top = Ok cls
    /\ (if is_none top then Ok 0 else py_int L top) = Ok n.
Proof.
  unfold Limitsbar.render. intros H.
  apply bind_ok in H as ([[p1 part1] lines1] & w1 & H1 & H).
  apply bind_ok in H as ([[p2 part2] lines2] & w2 & H2 & H).
  assert (p1 = match codex with
               | Some c => List.filter (fun p => negb (is_none p))
                             [Limitsbar.daily_percent c; Limitsbar.weekly_percent c]
               | None => []
               end) as ->.
  { clear -H1. unfold Limitsbar.codex_segment in H1. destruct codex as [c|].
    - repeat (apply bind_ok in H1 as (? & ? & _ & H1)).
      injection H1 as <- _ _ _. simpl.
      destruct (is_none (Limitsbar.daily_percent c)),
               (is_none (Limitsbar.weekly_percent c)); reflexivity.
    - injection H1 as <- _ _ _. reflexivity. }
  assert (p2 = match claude with
               | Some c => List.filter (fun p => negb (is_none p))
                             [Limitsbar.opt_int (Limitsbar.session_percent c);
                              Limitsbar.opt_int (Limitsbar.week_percent c)]
               | None => []
               end) as ->.
  { clear -H2. unfold Limitsbar.claude_segment in H2. destruct claude as [c|].
    - repeat (apply bind_ok in H2 as (? & ? & _ & H2)).
      injection H2 as <- _ _ _. simpl.
      destruct (is_none (Limitsbar.opt_int (Limitsbar.session_percent c))),
               (is_none (Limitsbar.opt_int (Limitsbar.week_percent c))); reflexivity.
    - injection H2 as <- _ _ _. reflexivity. }
  fold (known_percents codex claude) in H.
  apply bind_ok in H as (? & ? & _ & H).
  apply bind_ok in H as (? & ? & _ & H).
  apply bind_ok in H as (top & ? & Htop & H). apply lift_ok in Htop as [Htop _].
  apply bind_ok in H as (cls & ? & Hc & H). apply lift_ok in Hc as [Hc _].
  apply bind_ok in H as (n & ? & Hn & H). apply lift_ok in Hn as [Hn _].
  injection H as <- _. eauto 10.
Qed.

(** *** What the two [main] functions print *)

Lemma main_try_payload L w :
  Codexbar.main_try L w = bind (codexbar_payload L) (Codexbar._emit L) w.
Proof.
  unfold Codexbar.main_try, codexbar_payload, bind.
  destruct (Codexbar.load_credentials L w) as [[c|e] w1]; [|reflexivity].
  destruct (Codexbar.refresh_if_stale L c w1) as [[a|e] w2]; [|reflexivity].
  destruct (Codexbar._fetch_usage L a (Codexbar.cr_account_id c) w2) as [[u|e] w3];
    [|reflexivity].
  destruct (lift (Codexbar.read_windows u) w3) as [[win|e] w4]; [|reflexivity].
  destruct (Codexbar.render L win w4) as [[p|e] w5]; reflexivity.
Qed.

Lemma keeps_stdout_codexbar_payload L : keeps stdout (codexbar_payload L).
Proof.
  unfold codexbar_payload.
  pose proof (keeps_refresh_if_stale_codexbar stdout L) as Hr. keeps_tac.
Qed.

(** Every run of [codexbar.py] prints one payload: the error payload, or
    the one rendered from the usage it fetched. *)
Lemma codexbar_main_emits (L : pylib) (w : world) :
  exists payload w1,
    Codexbar.main L w
    = (Ok tt, set_stdout (stdout w ++ [json_dumps_compact L payload]) w1)
    /\ ((exists tooltip, payload = Codexbar.error_payload tooltip)
        \/ exists c w2 a w3 usage w4 win,
             Codexbar.load_credentials L w = (Ok c, w2)
             /\ Codexbar.refresh_if_stale L c w2 = (Ok a, w3)
             /\ Codexbar._fetch_usage L a (Codexbar.cr_account_id c) w3 = (Ok usage, w4)
             /\ Codexbar.read_windows usage = Ok win
             /\ Codexbar.render L win w4 = (Ok payload, w1)).
Proof.
  unfold Codexbar.main, try_except. rewrite main_try_payload. unfold bind at 1.
  pose proof (keeps_stdout_codexbar_payload L w) as Hout.
  destruct (codexbar_payload L w) as [[payload|e] w1] eqn:E; simpl in Hout.
  - exists payload, w1. split.
    + unfold Codexbar._emit, stdout_write. now rewrite Hout.
    + right. unfold codexbar_payload in E.
      apply bind_ok in E as (c & w2 & Hc & E).
      apply bind_ok in E as (a & w3 & Ha & E).
      apply bind_ok in E as (usage & w4 & Hu & E).
      apply bind_ok in E as (win & w5 & Hw & E). apply lift_ok in Hw as [Hw ->].
      exists c, w2, a, w3, usage, w4, win. auto.
  - destruct e as [msg|code reason|cls msg];
      eexists _, w1; (split; [unfold Codexbar._emit, stdout_write; now rewrite Hout|]);
      left; eauto.
Qed.

(** A run of [limitsbar.py] that ends normally has printed one payload,
    rendered from the two statuses; a run that ends in an exception has
    printed nothing. *)
Lemma limitsbar_main_emits (L : pylib) (w : world) :
  match Limitsbar.main L w with
  | (Ok _, w') =>
      exists codex codex_err claude claude_err w1 w2 w3 payload,
        Limitsbar._get_codex_status L w = (Ok (codex, codex_err), w1)
        /\ Limitsbar._get_claude_status L w1 = (Ok (claude, claude_err), w2)
        /\ Limitsbar.render L codex codex_err claude claude_err w2 = (Ok payload, w3)
        /\ w' = set_stdout (stdout w ++ [json_dumps_compact L payload]) w3
  | (Raise _, w') => stdout w' = stdout w
  end.
Proof.
  unfold Limitsbar.main, bind.
  pose proof (keeps_get_codex_status stdout L w) as H1.
  destruct (Limitsbar._get_codex_status L w) as [[[codex cerr]|e] w1] eqn:E1;
    simpl in H1; [|exact H1].
  pose proof (keeps_get_claude_status stdout L w1) as H2.
  destruct (Limitsbar._get_claude_status L w1) as [[[claude aerr]|e] w2] eqn:E2;
    simpl in H2; [|congruence].
  pose proof (keeps_render_limitsbar stdout L codex cerr claude aerr w2) as H3.
  destruct (Limitsbar.render L codex cerr claude aerr w2) as [[payload|e] w3] eqn:E3;
    simpl in H3; [|congruence].
  unfold Limitsbar._emit, stdout_write.
  exists codex, cerr, claude, aerr, w1, w2, w3, payload.
  repeat split; try assumption. do 2 f_equal. congruence.
Qed.

(** ** The payload *)

Lemma top_in_range L (top : value) (n : Z) :
  (top <> VNone -> percent_in_range top) ->
  (if is_none top then Ok 0 else py_int L top) = Ok n ->
  0 <= n <= 100.
Proof.
  intros Hr Hn. destruct (is_none top) eqn:E.
  - injection Hn as <-. lia.
  - assert (top <> VNone) as Hnn by (intros ->; discriminate).
    eapply py_int_in_range; eauto.
Qed.

(** *** The greatest known percentage *)

Ltac xnum_order :=
  repeat match goal with
         | x : xnum |- _ => destruct x
         end;
  simpl in *; try reflexivity; try discriminate;
  repeat match goal with
         | H : context [Qcompare ?a ?b] |- _ => destruct (Qcompare_spec a b)
         | |- context [Qcompare ?a ?b] => destruct (Qcompare_spec a b)
         end;
  simpl in *; try reflexivity; try discriminate; exfalso; lra.

Lemma xnum_gt_irrefl (a : xnum) : cmp_gt (xnum_compare a a) = false.
Proof. xnum_order. Qed.

Lemma xnum_gt_trans (a b c : xnum) :
  cmp_gt (xnum_compare a b) = true -> cmp_gt (xnum_compare b c) = true ->
  cmp_gt (xnum_compare a c) = true.
Proof. intros H1 H2. xnum_order. Qed.

Lemma xnum_gt_below (y b x : xnum) :
  cmp_gt (xnum_compare y b) = false -> cmp_gt (xnum_compare x b) = true ->
  cmp_gt (xnum_compare y x) = false.
Proof. intros H1 H2. xnum_order. Qed.

(** [>] succeeds on a number only against a number. *)
Lemma py_gt_numbers (a b : value) (r : bool) (x : xnum) :
  py_gt a b = Ok r ->
  xnum_of_value a = Some x \/ xnum_of_value b = Some x ->
  exists xa xb, xnum_of_value a = Some xa /\ xnum_of_value b = Some xb
                /\ r = cmp_gt (xnum_compare xa xb).
Proof.
  unfold py_gt. intros H Hx.
  destruct (xnum_of_value a) as [xa|] eqn:Ea, (xnum_of_value b) as [xb|] eqn:Eb.
  - injection H as <-. eauto.
  - destruct Hx as [_|Hx]; [|discriminate].
    destruct a; try discriminate Ea; discriminate H.
  - destruct Hx as [Hx|_]; [discriminate|].
    destruct a; try discriminate H; destruct b; try discriminate Eb; discriminate H.
  - destruct Hx; discriminate.
Qed.

(** When [max] returns a number, every element is a number and none
    exceeds it. *)
Lemma py_max_from_greatest (best : value) (l : list value) (r : value) (x : xnum) :
  py_max_from best l = Ok r -> xnum_of_value r = Some x ->
  (exists xb, xnum_of_value best = Some xb
              /\ (r = best \/ cmp_gt (xnum_compare x xb) = true))
  /\ forall p, In p l -> exists y, xnum_of_value p = Some y
                                  /\ cmp_gt (xnum_compare y x) = false.
Proof.
  revert best. induction l as [|p l IH]; intros best; simpl.
  - intros H Hx. injection H as <-. split; [eauto|]. intros p [].
  - destruct (py_gt p best) as [b|e] eqn:Eg; simpl; [|discriminate].
    intros H Hx. destruct (IH _ H Hx) as [(xb' & Hb' & Hrel) Hall].
    assert (exists xp xb, xnum_of_value p = Some xp /\ xnum_of_value best = Some xb
                          /\ b = cmp_gt (xnum_compare xp xb)) as (xp & xb & Hp & Hb & Hcmp).
    { apply (py_gt_numbers p best b xb' Eg). destruct b; auto. }
    destruct b.
    + rewrite Hp in Hb'. injection Hb' as <-. symmetry in Hcmp.
      split.
      * exists xb. split; [exact Hb|]. right.
        destruct Hrel as [->|Hrel].
        -- rewrite Hp in Hx. injection Hx as <-. exact Hcmp.
        -- eapply xnum_gt_trans; eassumption.
      * intros q [<-|Hq]; [|auto]. exists xp. split; [exact Hp|].
        destruct Hrel as [->|Hrel].
        -- rewrite Hp in Hx. injection Hx as <-. apply xnum_gt_irrefl.
        -- destruct (cmp_gt (xnum_compare xp x)) eqn:E; [|reflexivity].
           pose proof (xnum_gt_trans _ _ _ E Hrel) as Habs.
           rewrite xnum_gt_irrefl in Habs. discriminate.
    + rewrite Hb in Hb'. injection Hb' as <-. symmetry in Hcmp.
      split; [eauto|].
      intros q [<-|Hq]; [|auto]. exists xp. split; [exact Hp|].
      destruct Hrel as [->|Hrel].
      * rewrite Hb in Hx. injection Hx as <-. exact Hcmp.
      * eapply xnum_gt_below; eassumption.
Qed.

Lemma class_for_number (p : value) (cls : string) :
  Codexbar._class_for p = Ok cls -> is_none p = false ->
  exists x, xnum_of_value p = Some x.
Proof.
  unfold Codexbar._class_for. intros H Hn. rewrite Hn in H. unfold py_ge_int in H.
  destruct (xnum_of_value p) as [x|]; [eauto|discriminate].
Qed.

(** What [max(percents) if percents else None] returns is the greatest of
    [percents], once [_class_for] has accepted it. *)
Lemma greatest_of_max (known : list value) (top : value) (cls : string) :
  (forall p, In p known -> is_none p = false) ->
  match known with [] => Ok VNone | _ => py_max known end = Ok top ->
  Codexbar._class_for top = Ok cls ->
  greatest_of known top.
Proof.
  intros Hk Hmax Hc. destruct known as [|p l].
  - injection Hmax as <-. reflexivity.
  - assert (In top (p :: l)) as Hin by (apply py_max_choice; exact Hmax).
    destruct (class_for_number top cls Hc (Hk top Hin)) as [x Hx].
    simpl in Hmax.
    destruct (py_max_from_greatest p l top x Hmax Hx) as [(xb & Hb & Hrel) Hall].
    split; [exact Hin|]. exists x. split; [exact Hx|].
    intros q [<-|Hq]; [|auto]. exists xb. split; [exact Hb|].
    destruct Hrel as [->|Hrel].
    + rewrite Hb in Hx. injection Hx as <-. apply xnum_gt_irrefl.
    + destruct (cmp_gt (xnum_compare xb x)) eqn:E; [|reflexivity].
      pose proof (xnum_gt_trans _ _ _ E Hrel) as Habs.
      rewrite xnum_gt_irrefl in Habs. discriminate.
Qed.

(** The loop of [codexbar.py] returns what [max] returns on the known
    windows. *)
Lemma top_of_known (win : Codexbar.windows) :
  Codexbar.top_of win
  = match codex_known win with [] => Ok VNone | _ => py_max (codex_known win) end.
Proof.
  unfold Codexbar.top_of, Codexbar.top_step, codex_known. simpl.
  destruct (is_none (Codexbar.daily_percent win)) eqn:Ed;
    destruct (is_none (Codexbar.weekly_percent win)) eqn:Ew; simpl;
    rewrite ?Ed, ?Ew; reflexivity.
Qed.

Lemma known_not_none (l : list value) (p : value) :
  In p (List.filter (fun p => negb (is_none p)) l) -> is_none p = false.
Proof.
  intros H. apply List.filter_In in H as [_ H]. now apply negb_true_iff.
Qed.

Lemma known_percents_not_none codex claude (p : value) :
  In p (known_percents codex claude) -> is_none p = false.
Proof.
  unfold known_percents. intros H. apply in_app_or in H as [H|H].
  - destruct codex; [eapply known_not_none; exact H|destruct H].
  - destruct claude; [eapply known_not_none; exact H|destruct H].
Qed.

(** C3, amended: the [percentage] of the payload is 0 in the error payload
    and when no window percentage is known, and otherwise [int()] of the
    greatest known window percentage of the usage the run has fetched, not
    clamped; it lies from 0 to 100 whenever every known window percentage
    does.  Both scripts. *)
Theorem percentage_is_truncated_top (L : pylib) (w : world) :
  (exists payload w1,
     Codexbar.main L w
     = (Ok tt, set_stdout (stdout w ++ [json_dumps_compact L payload]) w1)
     /\ ((exists tooltip, payload = Codexbar.error_payload tooltip
                          /\ payload_percentage payload = Some (VInt 0))
         \/ exists c w2 a w3 usage w4 win top n,
              Codexbar.load_credentials L w = (Ok c, w2)
              /\ Codexbar.refresh_if_stale L c w2 = (Ok a, w3)
              /\ Codexbar._fetch_usage L a (Codexbar.cr_account_id c) w3
                 = (Ok usage, w4)
              /\ Codexbar.read_windows usage = Ok win
              /\ Codexbar.top_of win = Ok top
              /\ greatest_of (codex_known win) top
              /\ (if is_none top then Ok 0 else py_int L top) = Ok n
              /\ payload_percentage payload = Some (VInt n)
              /\ (percent_in_range (Codexbar.daily_percent win) ->
                  percent_in_range (Codexbar.weekly_percent win) ->
                  0 <= n <= 100)))
  /\ (forall u w',
        Limitsbar.main L w = (Ok u, w') ->
        exists codex codex_err claude claude_err w1 w2 w3 payload top n,
          Limitsbar._get_codex_status L w = (Ok (codex, codex_err), w1)
          /\ Limitsbar._get_claude_status L w1 = (Ok (claude, claude_err), w2)
          /\ w' = set_stdout (stdout w ++ [json_dumps_compact L payload]) w3
          /\ match known_percents codex claude with
             | [] => Ok VNone
             | _ => py_max (known_percents codex claude)
             end = Ok top
          /\ greatest_of (known_percents codex claude) top
          /\ (if is_none top then Ok 0 else py_int L top) = Ok n
          /\ payload_percentage payload = Some (VInt n)
          /\ (Forall percent_in_range (known_percents codex claude) ->
              0 <= n <= 100)).
Proof.
  split.
  - destruct (codexbar_main_emits L w) as (payload & w1 & Hmain & [[tip ->]|H]).
    + exists (Codexbar.error_payload tip), w1. split; [exact Hmain|]. left. eauto.
    + destruct H as (c & w2 & a & w3 & usage & w4 & win & Hl & Hs & Hu & Hw & Hr).
      exists payload, w1. split; [exact Hmain|]. right.
      apply render_codexbar_percentage in Hr
        as (top & n & text & tooltip & cls & -> & Htop & Hc & Hn).
      exists c, w2, a, w3, usage, w4, win, top, n.
      do 5 (split; [assumption|]).
      split.
      { apply (greatest_of_max _ _ cls); [apply known_not_none| |exact Hc].
        rewrite <- top_of_known. exact Htop. }
      split; [exact Hn|]. split; [reflexivity|].
      intros Hd Hwk. apply (top_in_range L top n); [|exact Hn].
      intros Hnn. apply top_of_choice in Htop as [->|[_ [-> | ->]]];
        [contradiction|assumption|assumption].
  - intros u w' Hmain. pose proof (limitsbar_main_emits L w) as H.
    rewrite Hmain in H.
    destruct H as (codex & cerr & claude & aerr & w1 & w2 & w3 & payload
                   & H1 & H2 & Hr & ->).
    apply render_limitsbar_percentage in Hr
      as (top & n & text & tooltip & cls & -> & Htop & Hc & Hn).
    exists codex, cerr, claude, aerr, w1, w2, w3.
    eexists _, top, n.
    do 4 (split; [first [eassumption | reflexivity]|]).
    split.
    { apply (greatest_of_max _ _ cls);
        [apply known_percents_not_none|exact Htop|exact Hc]. }
    split; [exact Hn|]. split; [reflexivity|].
    intros Hall. apply (top_in_range L top n); [|exact Hn].
    intros _. destruct (known_percents codex claude) as [|x l] eqn:E.
    + injection Htop as <-. now left.
    + apply py_max_choice in Htop. rewrite Forall_forall in Hall.
      apply Hall. apply list_elem_of_In. exact Htop.
Qed.

#[local] Instance home_tick_free : TickFree home.
Proof. intros n w. reflexivity. Qed.
#[local] Instance home_fs_free : FsFree home.
Proof. intros w fs l. reflexivity. Qed.

(** Whatever the Codex pipeline does, when [json.load] rejects the Claude
    credential file the exception leaves [_get_claude_status] and [main]:
    nothing is printed. *)
Lemma malformed_claude_credentials_escape (L : pylib) (w : world) (text : string)
    (e : exn) :
  files w !! claude_path w = Some text ->
  json_loads L text = Raise e ->
  (forall msg, e <> FileNotFoundError msg) ->
  fst (Limitsbar.main L w) = Raise e
  /\ stdout (snd (Limitsbar.main L w)) = stdout w.
Proof.
  intros Hfile Hload Hfnf.
  unfold Limitsbar.main, bind.
  pose proof (keeps_get_codex_status stdout L w) as Hout.
  pose proof (keeps_get_codex_status home L w) as Hhome.
  assert (kept (fun p => p <> claude_path w) w (snd (Limitsbar._get_codex_status L w)))
    as [Hkept _].
  { apply confined_get_codex_status. intros c w1 E. right.
    destruct (load_limitsbar_path _ _ _ _ E) as [x ->]. apply auth_json_not_claude. }
  specialize (Hkept (claude_path w) ltac:(tauto)).
  destruct (Limitsbar._get_codex_status L w) as [[[codex cerr]|e0] w1] eqn:E1;
    simpl in *.
  - assert (Limitsbar._get_claude_status L w1 = (Raise e, w1)) as ->.
    { unfold Limitsbar._get_claude_status, Limitsbar._read_claude_credentials,
        Limitsbar._claude_credentials_path, bind, gets, lift.
      assert (claude_path w1 = claude_path w) as Hp
        by (unfold claude_path; now rewrite Hhome).
      unfold claude_path in Hp. rewrite Hp. fold (claude_path w).
      rewrite Hkept, Hfile, Hload.
      destruct e; try reflexivity. exfalso. eapply Hfnf. reflexivity. }
    auto.
  - exfalso. revert E1. unfold Limitsbar._get_codex_status, try_except.
    destruct (Limitsbar.codex_try L w) as [[a|e1] w']; [discriminate|].
    destruct e1; discriminate.
Qed.

(** C1 fails on [limitsbar.py]: with a Claude credential file that is not
    JSON, and with a Claude usage answer that is not an object, [main] ends
    in an exception and prints nothing. *)
Theorem limitsbar_main_raises :
  let malformed_file :=
    Demo.world_of {[ Demo.CLAUDE_CREDENTIALS := "not json" ]}
      Demo.codex_45_10 Demo.claude_88_5 in
  let malformed_usage :=
    Demo.world_of Demo.logged_in Demo.codex_45_10 (Ok (Demo.compact (VList []))) in
  fst (Limitsbar.main Demo.lib malformed_file)
  = Raise (Exception "JSONDecodeError" "Expecting value: line 1 column 1 (char 0)")
  /\ stdout (snd (Limitsbar.main Demo.lib malformed_file)) = []
  /\ fst (Limitsbar.main Demo.lib malformed_usage)
     = Raise (AttributeError "'list' object has no attribute 'get'")
  /\ stdout (snd (Limitsbar.main Demo.lib malformed_usage)) = [].
Proof. vm_compute. repeat split. Qed.

(** C4 fails: the Codex pipeline succeeds, the Claude credential file is
    not JSON, and [main] ends in an exception without printing the Codex
    usage. *)
Theorem claude_failure_suppresses_codex :
  let w := Demo.world_of (<[ Demo.CLAUDE_CREDENTIALS := "not json" ]> Demo.logged_in)
             Demo.codex_45_10 Demo.claude_88_5 in
  fst (Limitsbar._get_codex_status Demo.lib w)
  = Ok (Some {| Limitsbar.daily_percent := VInt 45;
                Limitsbar.weekly_percent := VInt 10;
                Limitsbar.daily_reset := VInt 1793799000;
                Limitsbar.weekly_reset := VInt 1794096000 |}, None)
  /\ fst (Limitsbar.main Demo.lib w)
     = Raise (Exception "JSONDecodeError" "Expecting value: line 1 column 1 (char 0)")
  /\ stdout (snd (Limitsbar.main Demo.lib w)) = [].
Proof. vm_compute. repeat split. Qed.

(** The other direction holds on the same accounts: without the Codex
    credentials the payload carries the Codex error and the Claude usage. *)
Example codex_failure_keeps_claude :
  let w := Demo.world_of (delete Demo.CODEX_AUTH Demo.logged_in)
             Demo.codex_45_10 Demo.claude_88_5 in
  fst (Limitsbar.main Demo.lib w) = Ok tt
  /\ stdout (snd (Limitsbar.main Demo.lib w))
     = [json_dumps_compact Demo.lib
          (VDict [("text", VStr ("Codex " ++ Limitsbar.ICON_UNAVAILABLE ++ "  |  Claude "
                                 ++ Limitsbar.ICON_FIVE_HOUR ++ " 88% "
                                 ++ Limitsbar.ICON_WEEKLY ++ " 5%"));
                  ("tooltip",
                   VStr (str_join CR
                     ["AI Limits"; "";
                      "Codex — Not available (Codex auth.json not found (run `codex login`))";
                      "";
                      "Claude — 5h: 88% (resets 2026-11-04 13:30, 1h 29m)";
                      "Claude — Weekly: 5% (resets 2026-11-08 00:00, 83h 59m)";
                      ""; "Updated: 2026-11-04 12:00"; "Refresh: every 5 minutes"]));
                  ("class", VStr "warn");
                  ("percentage", VInt 88);
                  ("alt", VStr "ai-limits")])].
Proof. vm_compute. repeat split. Qed.

(** C3 as stated fails: with [used_percent] 150 for the first window
    [codexbar.py] prints a payload whose [percentage] is 150. *)
Lemma percentage_counterexample :
  let w := Demo.world_of Demo.logged_in
             (Ok (Demo.compact (Demo.usage_doc (VInt 150) (VInt 10)))) Demo.claude_88_5 in
  let payload :=
    VDict [("text", VStr "D 150% · W 10%");
           ("tooltip",
            VStr (str_join CR ["Daily used: 150%";
                           "Daily reset: 2026-11-04 13:30 (1h 29m)";
                           "Weekly used: 10%";
                           "Weekly reset: 2026-11-08 00:00 (83h 59m)";
                           "Updated: 2026-11-04 12:00"]));
           ("class", VStr "critical");
           ("percentage", VInt 150);
           ("alt", VStr "codex")] in
  fst (Codexbar.main Demo.lib w) = Ok tt
  /\ stdout (snd (Codexbar.main Demo.lib w)) = [json_dumps_compact Demo.lib payload]
  /\ payload_percentage payload = Some (VInt 150)
  /\ ~ (0 <= 150 <= 100).
Proof. vm_compute. repeat split. intros [_ H]. apply H. reflexivity. Qed.

Lemma percentage_is_truncated_top_witness :
  exists codex codex_err claude claude_err w1 w2 w3 payload top n,
    let w := Demo.world_of Demo.logged_in Demo.codex_45_10 Demo.claude_88_5 in
    Limitsbar._get_codex_status Demo.lib w = (Ok (codex, codex_err), w1)
    /\ Limitsbar._get_claude_status Demo.lib w1 = (Ok (claude, claude_err), w2)
    /\ snd (Limitsbar.main Demo.lib w)
       = set_stdout (stdout w ++ [json_dumps_compact Demo.lib payload]) w3
    /\ match known_percents codex claude with
       | [] => Ok VNone
       | _ => py_max (known_percents codex claude)
       end = Ok top
    /\ greatest_of (known_percents codex claude) top
    /\ (if is_none top then Ok 0 else py_int Demo.lib top) = Ok n
    /\ payload_percentage payload = Some (VInt n)
    /\ (Forall percent_in_range (known_percents codex claude) -> 0 <= n <= 100).
Proof.
  apply (proj2 (percentage_is_truncated_top Demo.lib
                  (Demo.world_of Demo.logged_in Demo.codex_45_10 Demo.claude_88_5))
           tt (snd (Limitsbar.main Demo.lib
                      (Demo.world_of Demo.logged_in Demo.codex_45_10 Demo.claude_88_5)))).
  assert (fst (Limitsbar.main Demo.lib
                 (Demo.world_of Demo.logged_in Demo.codex_45_10 Demo.claude_88_5))
          = Ok tt) as H by (vm_compute; reflexivity).
  destruct (Limitsbar.main Demo.lib
              (Demo.world_of Demo.logged_in Demo.codex_45_10 Demo.claude_88_5))
    as [r w']. simpl in H. rewrite H. reflexivity.
Defined.

Lemma credential_files_frame_witness :
  let w := Demo.world_of Demo.logged_in Demo.codex_45_10 Demo.claude_88_5 in
  files (snd (Codexbar.main Demo.lib w)) = files w
  /\ fs_log (snd (Codexbar.main Demo.lib w)) = fs_log w.
Proof.
  intros w.
  refine (proj1 (credential_files_frame Demo.lib w) _ _ eq_refl _).
  right. vm_compute. reflexivity.
Defined.

(** * Further properties of the scripts *)

(** ** What a run prints *)

Lemma class_for_values (p : value) (c : string) :
  Codexbar._class_for p = Ok c ->
  c = "unknown" \/ c = "critical" \/ c = "warn" \/ c = "ok".
Proof.
  unfold Codexbar._class_for. destruct (is_none p).
  - intros H. injection H as <-. auto.
  - destruct (py_ge_int p 90) as [[|]|e]; simpl; [| |discriminate].
    + intros H. injection H as <-. auto.
    + destruct (py_ge_int p 70) as [[|]|e]; simpl; [| |discriminate];
        intros H; injection H as <-; auto.
Qed.

Lemma render_codexbar_class L win w payload w' :
  Codexbar.render L win w = (Ok payload, w') ->
  exists text tooltip cls n,
    payload = VDict [("text", VStr text); ("tooltip", VStr tooltip);
                     ("class", VStr cls); ("percentage", VInt n);
                     ("alt", VStr "codex")]
    /\ (cls = "unknown" \/ cls = "critical" \/ cls = "warn" \/ cls = "ok").
Proof.
  unfold Codexbar.render. intros H.
  do 9 (apply bind_ok in H as (? & ? & _ & H)).
  apply bind_ok in H as (cls & ? & Hc & H). apply lift_ok in Hc as [Hc _].
  apply bind_ok in H as (n & ? & _ & H).
  injection H as <- _. do 2 eexists. exists cls, n. split; [reflexivity|].
  eapply class_for_values; eassumption.
Qed.

Lemma render_limitsbar_class L codex cerr claude aerr w payload w' :
  Limitsbar.render L codex cerr claude aerr w = (Ok payload, w') ->
  exists text tooltip cls n,
    payload = VDict [("text", VStr text); ("tooltip", VStr tooltip);
                     ("class", VStr cls); ("percentage", VInt n);
                     ("alt", VStr "ai-limits")]
    /\ (cls = "unknown" \/ cls = "critical" \/ cls = "warn" \/ cls = "ok")
    /\ (codex = None -> claude = None ->
        cls = "unknown" /\ n = 0
        /\ text = "Codex " ++ Limitsbar.ICON_UNAVAILABLE ++ "  |  Claude "
                  ++ Limitsbar.ICON_UNAVAILABLE).
Proof.
  unfold Limitsbar.render. intros H.
  apply bind_ok in H as ([[p1 part1] lines1] & w1 & H1 & H).
  apply bind_ok in H as ([[p2 part2] lines2] & w2 & H2 & H).
  apply bind_ok in H as (? & ? & _ & H).
  apply bind_ok in H as (? & ? & _ & H).
  apply bind_ok in H as (top & ? & Htop & H). apply lift_ok in Htop as [Htop _].
  apply bind_ok in H as (cls & ? & Hc & H). apply lift_ok in Hc as [Hc _].
  apply bind_ok in H as (n & ? & Hn & H). apply lift_ok in Hn as [Hn _].
  injection H as <- _. do 2 eexists. exists cls, n. split; [reflexivity|]. split.
  - eapply (class_for_values top). exact Hc.
  - intros -> ->. injection H1 as <- <- _ _. injection H2 as <- <- _ _.
    simpl in Htop. injection Htop as <-.
    injection Hc as <-. injection Hn as <-. auto.
Qed.

(** X1: [main] of [codexbar.py] never ends in an exception: on every world
    it returns normally after writing exactly one payload, an object with
    the five keys [text], [tooltip], [class], [percentage] and [alt], a
    class among the five severity names and an integer percentage. *)
Theorem codexbar_main_always_prints (L : pylib) (w : world) :
  exists text tooltip cls n w1,
    Codexbar.main L w
    = (Ok tt,
       set_stdout
         (stdout w
          ++ [json_dumps_compact L
                (VDict [("text", VStr text); ("tooltip", VStr tooltip);
                        ("class", VStr cls); ("percentage", VInt n);
                        ("alt", VStr "codex")])]) w1)
    /\ (cls = "error" \/ cls = "unknown" \/ cls = "critical" \/ cls = "warn"
        \/ cls = "ok")
    /\ (cls = "error" -> n = 0 /\ text = "Codex --").
Proof.
  destruct (codexbar_main_emits L w) as (payload & w1 & Hmain & [[tip ->]|H]).
  - exists "Codex --", tip, "error", 0, w1. split; [exact Hmain|]. auto.
  - destruct H as (c & w2 & a & w3 & usage & w4 & win & _ & _ & _ & _ & Hr).
    apply render_codexbar_class in Hr as (text & tooltip & cls & n & -> & Hc).
    exists text, tooltip, cls, n, w1. split; [exact Hmain|]. split; [tauto|].
    intros ->. destruct Hc as [Hc|[Hc|[Hc|Hc]]]; discriminate Hc.
Qed.

Lemma codexbar_main_always_prints_witness :
  let w := Demo.world_of Demo.logged_in Demo.codex_45_10 Demo.claude_88_5 in
  exists text tooltip cls n w1,
    Codexbar.main Demo.lib w
    = (Ok tt,
       set_stdout
         (stdout w
          ++ [json_dumps_compact Demo.lib
                (VDict [("text", VStr text); ("tooltip", VStr tooltip);
                        ("class", VStr cls); ("percentage", VInt n);
                        ("alt", VStr "codex")])]) w1)
    /\ (cls = "error" \/ cls = "unknown" \/ cls = "critical" \/ cls = "warn"
        \/ cls = "ok")
    /\ (cls = "error" -> n = 0 /\ text = "Codex --").
Proof.
  intros w. exact (codexbar_main_always_prints Demo.lib w).
Defined.

(** X2: a run of [limitsbar.py] writes either one payload, when [main]
    returns, or nothing, when an exception leaves [main].  The payload has
    the five keys and a class among ["unknown"], ["critical"], ["warn"] and
    ["ok"], never ["error"]; with both accounts unavailable it is
    ["unknown"] with percentage 0. *)
Theorem limitsbar_main_prints_once (L : pylib) (w : world) :
  (forall e w', Limitsbar.main L w = (Raise e, w') -> stdout w' = stdout w)
  /\ (forall u w',
        Limitsbar.main L w = (Ok u, w') ->
        exists codex codex_err claude claude_err w1 w2 text tooltip cls n,
          Limitsbar._get_codex_status L w = (Ok (codex, codex_err), w1)
          /\ Limitsbar._get_claude_status L w1 = (Ok (claude, claude_err), w2)
          /\ stdout w'
             = (stdout w
                ++ [json_dumps_compact L
                      (VDict [("text", VStr text); ("tooltip", VStr tooltip);
                              ("class", VStr cls); ("percentage", VInt n);
                              ("alt", VStr "ai-limits")])])%list
          /\ (cls = "unknown" \/ cls = "critical" \/ cls = "warn" \/ cls = "ok")
          /\ (codex = None -> claude = None ->
              cls = "unknown" /\ n = 0
              /\ text = "Codex " ++ Limitsbar.ICON_UNAVAILABLE ++ "  |  Claude "
                        ++ Limitsbar.ICON_UNAVAILABLE)).
Proof.
  pose proof (limitsbar_main_emits L w) as H. split.
  - intros e w' E. rewrite E in H. exact H.
  - intros u w' E. rewrite E in H.
    destruct H as (codex & cerr & claude & aerr & w1 & w2 & w3 & payload
                   & H1 & H2 & Hr & ->).
    apply render_limitsbar_class in Hr as (text & tooltip & cls & n & -> & Hc & Hn).
    exists codex, cerr, claude, aerr, w1, w2, text, tooltip, cls, n.
    repeat split; try assumption; apply Hn; assumption.
Qed.

Lemma limitsbar_main_prints_once_witness :
  stdout (snd (Limitsbar.main Demo.lib
                 (Demo.world_of (<[ Demo.CLAUDE_CREDENTIALS := "not json" ]> Demo.logged_in)
                    Demo.codex_45_10 Demo.claude_88_5)))
  = stdout (Demo.world_of (<[ Demo.CLAUDE_CREDENTIALS := "not json" ]> Demo.logged_in)
              Demo.codex_45_10 Demo.claude_88_5).
Proof.
  set (w := Demo.world_of (<[ Demo.CLAUDE_CREDENTIALS := "not json" ]> Demo.logged_in)
              Demo.codex_45_10 Demo.claude_88_5).
  assert (fst (Limitsbar.main Demo.lib w)
          = Raise (Exception "JSONDecodeError" "Expecting value: line 1 column 1 (char 0)"))
    as H by (vm_compute; reflexivity).
  destruct (Limitsbar.main Demo.lib w) as [r w'] eqn:E. simpl in H. subst r.
  exact (proj1 (limitsbar_main_prints_once Demo.lib w) _ _ E).
Defined.

(** X3: [_get_codex_status] never ends in an exception: it returns either
    a status and no message, or no status and a message. *)
Theorem get_codex_status_total (L : pylib) (w : world) :
  exists r w',
    Limitsbar._get_codex_status L w = (Ok r, w')
    /\ ((exists status, r = (Some status, None))
        \/ (exists msg, r = (None, Some msg))).
Proof.
  unfold Limitsbar._get_codex_status, try_except.
  destruct (Limitsbar.codex_try L w) as [[r|e] w'] eqn:E.
  - exists r, w'. split; [reflexivity|].
    unfold Limitsbar.codex_try in E.
    apply bind_ok in E as ([c|] & w1 & _ & E).
    + do 3 (apply bind_ok in E as (? & ? & _ & E)).
      injection E as <- _. eauto.
    + injection E as <- _. eauto.
  - destruct e; eexists _, w'; (split; [reflexivity|]); eauto.
Qed.

(** ** The credential file *)

Lemma auth_path_run (w : world) :
  exists path, Codexbar._auth_path w = (Ok path, w).
Proof.
  unfold Codexbar._auth_path, bind, gets, ret.
  destruct (environ w !! "CODEX_HOME") as [h|]; [destruct (negb (String.eqb h ""))|];
    eauto.
Qed.

(** X4: with no file at the path [_auth_path] computes, [codexbar.py] prints
    the error payload whose tooltip names that path, and [_get_codex_status]
    of [limitsbar.py] reports that the file was not found; neither touches
    anything else. *)
Theorem missing_auth_file (L : pylib) (w : world) (path : string) :
  fst (Codexbar._auth_path w) = Ok path ->
  files w !! path = None ->
  Codexbar.main L w
  = (Ok tt,
     set_stdout
       (stdout w
        ++ [json_dumps_compact L
              (Codexbar.error_payload ("Error: auth.json not found at " ++ path))]) w)
  /\ Limitsbar._get_codex_status L w
     = (Ok (None, Some "Codex auth.json not found (run `codex login`)"), w).
Proof.
  intros Hp Hf. destruct (auth_path_run w) as (p & E).
  rewrite E in Hp. injection Hp as ->. split.
  - unfold Codexbar.main, try_except, Codexbar.main_try, Codexbar.load_credentials,
      Codexbar._read_auth, bind. rewrite E. unfold gets. rewrite Hf. reflexivity.
  - unfold Limitsbar._get_codex_status, try_except, Limitsbar.codex_try,
      Limitsbar.load_credentials, Limitsbar._read_auth, bind.
    change Limitsbar._auth_path with Codexbar._auth_path.
    rewrite E. unfold gets. rewrite Hf. reflexivity.
Qed.

Lemma missing_auth_file_witness :
  stdout (snd (Codexbar.main Demo.lib (Demo.world_of ∅ Demo.codex_45_10 Demo.claude_88_5)))
  = [json_dumps_compact Demo.lib
       (Codexbar.error_payload
          "Error: auth.json not found at /home/u/.codex/auth.json")].
Proof.
  rewrite (proj1 (missing_auth_file Demo.lib
                    (Demo.world_of ∅ Demo.codex_45_10 Demo.claude_88_5)
                    Demo.CODEX_AUTH eq_refl (lookup_empty _))).
  reflexivity.
Defined.

Lemma write_auth_run (L : pylib) (path : string) (data : value) (w : world) :
  Codexbar._write_auth L path data w
  = (Ok tt,
     set_fs_log (fs_log w ++ Codexbar._write_auth_ops L path data)
       (set_files
          (<[path := String.concat "" (json_dump_chunks L data)]>
             (delete (path ++ ".tmp") (files w))) w)).
Proof.
  unfold Codexbar._write_auth. apply fs_do_all_run.
  destruct (write_auth_ops_shape L path data) as [-> _].
  destruct (fs_run_pre L path data (files w)) as (fs' & Hrun & Htmp & Hother).
  rewrite fs_run_app, Hrun. simpl. rewrite Htmp. simpl. f_equal. f_equal.
  apply map_eq. intros p. destruct (decide (p = path ++ ".tmp")) as [->|Hne].
  - now rewrite !lookup_delete_eq.
  - rewrite !lookup_delete_ne by congruence. now apply Hother.
Qed.

(** X5: [_write_auth] leaves the dumped text at [path] and no file at
    [path + ".tmp"], whatever was at either path before, and no other file
    changes; its file-system calls are logged in order.  When the library
    reads the dumped text back as [v], [_read_auth] then returns [v] and the
    path.  Both scripts. *)
Theorem write_auth_then_read (L : pylib) (path : string) (data : value) (w : world) :
  let new := String.concat "" (json_dump_chunks L data) in
  exists w',
    Codexbar._write_auth L path data w = (Ok tt, w')
    /\ Limitsbar._write_auth L path data w = (Ok tt, w')
    /\ files w' = <[path := new]> (delete (path ++ ".tmp") (files w))
    /\ fs_log w' = (fs_log w ++ Codexbar._write_auth_ops L path data)%list
    /\ (forall v,
          fst (Codexbar._auth_path w) = Ok path ->
          json_loads L new = Ok v ->
          Codexbar._read_auth L w' = (Ok (v, path), w')
          /\ Limitsbar._read_auth L w' = (Ok (v, path), w')).
Proof.
  intros new. eexists. split; [apply write_auth_run|].
  split; [apply write_auth_run|]. split; [reflexivity|]. split; [reflexivity|].
  intros v Hp Hv. destruct (auth_path_run w) as (p & E).
  rewrite E in Hp. injection Hp as ->.
  assert (forall w0, environ w0 = environ w -> home w0 = home w ->
                     Codexbar._auth_path w0 = (Ok path, w0)) as Hpath.
  { intros w0 He Hh. revert E. unfold Codexbar._auth_path, bind, gets, ret.
    rewrite He.
    destruct (environ w !! "CODEX_HOME") as [h|]; [destruct (negb (String.eqb h ""))|];
      cbv beta; rewrite ?Hh; intros E; injection E as <-; reflexivity. }
  assert (Codexbar._read_auth L
            (set_fs_log (fs_log w ++ Codexbar._write_auth_ops L path data)
               (set_files (<[path := new]> (delete (path ++ ".tmp") (files w))) w))
          = (Ok (v, path),
             set_fs_log (fs_log w ++ Codexbar._write_auth_ops L path data)
               (set_files (<[path := new]> (delete (path ++ ".tmp") (files w))) w)))
    as Hread.
  { unfold Codexbar._read_auth, bind. rewrite Hpath by reflexivity.
    unfold gets. cbv beta. unfold set_fs_log, set_files. cbn [files].
    rewrite lookup_insert_eq.
    unfold lift, ret. fold new. rewrite Hv. reflexivity. }
  split; exact Hread.
Qed.

Lemma write_auth_then_read_witness :
  exists w',
    Codexbar._write_auth Demo.lib Demo.CODEX_AUTH Demo.auth_stale
      (Demo.world_of Demo.logged_in Demo.codex_45_10 Demo.claude_88_5) = (Ok tt, w')
    /\ Codexbar._read_auth Demo.lib w'
       = (Ok (Demo.sort_keys Demo.auth_stale, Demo.CODEX_AUTH), w').
Proof.
  destruct (write_auth_then_read Demo.lib Demo.CODEX_AUTH Demo.auth_stale
              (Demo.world_of Demo.logged_in Demo.codex_45_10 Demo.claude_88_5))
    as (w' & H1 & _ & _ & _ & H).
  exists w'. split; [exact H1|].
  refine (proj1 (H (Demo.sort_keys Demo.auth_stale) eq_refl _)).
  vm_compute. reflexivity.
Defined.

(** ** The refresh branch *)

Lemma dict_lookup_set_eq (d : list (string * value)) (k : string) (v : value) :
  dict_lookup (dict_set d k v) k = Some v.
Proof.
  induction d as [|[k' v'] d IH]; simpl.
  - now rewrite String.eqb_refl.
  - destruct (String.eqb k' k) eqn:E; simpl; rewrite E; [reflexivity|exact IH].
Qed.

Lemma dict_lookup_set_ne (d : list (string * value)) (k k' : string) (v : value) :
  k <> k' -> dict_lookup (dict_set d k v) k' = dict_lookup d k'.
Proof.
  intros Hne. induction d as [|[k0 v0] d IH]; simpl.
  - destruct (String.eqb_spec k k'); [contradiction|reflexivity].
  - destruct (String.eqb_spec k0 k) as [->|Hk]; simpl.
    + destruct (String.eqb_spec k k'); [contradiction|reflexivity].
    + destruct (String.eqb_spec k0 k'); [reflexivity|exact IH].
Qed.

Lemma refresh_tokens_run (L : pylib) (rt : value) (w : world) :
  exists r, Codexbar._refresh_tokens L rt w = (r, w).
Proof.
  unfold Codexbar._refresh_tokens, bind, gets, lift.
  destruct (urlopen w _) as [text|e]; eauto.
Qed.

Lemma setitem_dict (o : value) (k : string) (v o' : value) :
  py_setitem o k v = Ok o' -> exists d, o = VDict d /\ o' = VDict (dict_set d k v).
Proof.
  destruct o; simpl; try discriminate. intros H. injection H as <-. eauto.
Qed.

Lemma get_default_dict (o : value) (k : string) (dflt v : value) :
  py_get_default o k dflt = Ok v ->
  exists d, o = VDict d /\ v = default dflt (dict_lookup d k).
Proof.
  destruct o; simpl; try discriminate. intros H. injection H as <-. eauto.
Qed.

(** What a refresh that succeeds has done, in full. *)
Lemma refresh_run (L : pylib) (c : Codexbar.credentials) (w : world) (a : value)
    (w' : world) :
  Codexbar.refresh L c w = (Ok a, w') ->
  exists response tokens0 auth0 tokens1 auth1,
    Codexbar._refresh_tokens L (Codexbar.cr_refresh_token c) w = (Ok (VDict response), w)
    /\ Codexbar.cr_tokens c = VDict tokens0
    /\ Codexbar.cr_auth c = VDict auth0
    /\ a = default (Codexbar.cr_access_token c) (dict_lookup response "access_token")
    /\ tokens1
       = (let t := dict_set
                     (dict_set tokens0 "access_token" a) "refresh_token"
                     (default (Codexbar.cr_refresh_token c)
                        (dict_lookup response "refresh_token")) in
          let i := default VNone (dict_lookup response "id_token") in
          if truthy i then dict_set t "id_token" i else t)
    /\ auth1
       = dict_set (dict_set auth0 "tokens" (VDict tokens1)) "last_refresh"
           (VStr (replace (isoformat L (utc_datetime (clock w (ticks w)))) "+00:00" "Z"))
    /\ w' = set_fs_log
              (fs_log w ++ Codexbar._write_auth_ops L (Codexbar.cr_path c) (VDict auth1))
              (set_files
                 (<[Codexbar.cr_path c
                    := String.concat "" (json_dump_chunks L (VDict auth1))]>
                    (delete (Codexbar.cr_path c ++ ".tmp") (files w)))
                 (set_ticks (S (ticks w)) w)).
Proof.
  intros E. unfold Codexbar.refresh in E.
  apply bind_ok in E as (refreshed & w1 & Hr & E).
  destruct (refresh_tokens_run L (Codexbar.cr_refresh_token c) w) as (r & Hrun).
  rewrite Hrun in Hr. injection Hr as -> <-.
  apply bind_ok in E as (a0 & ? & Ha & E). apply lift_ok in Ha as [Ha ->].
  apply get_default_dict in Ha as (response & -> & ->).
  apply bind_ok in E as (t1 & ? & Ht1 & E). apply lift_ok in Ht1 as [Ht1 ->].
  apply setitem_dict in Ht1 as (tokens0 & Htok & ->).
  apply bind_ok in E as (r0 & ? & Hr0 & E). apply lift_ok in Hr0 as [Hr0 ->].
  simpl in Hr0. injection Hr0 as <-.
  apply bind_ok in E as (t2 & ? & Ht2 & E). apply lift_ok in Ht2 as [Ht2 ->].
  simpl in Ht2. injection Ht2 as <-.
  apply bind_ok in E as (i & ? & Hi & E). apply lift_ok in Hi as [Hi ->].
  simpl in Hi. injection Hi as <-.
  apply bind_ok in E as (t3 & w2 & Ht3 & E).
  assert (w2 = w /\ t3 = VDict
            (let t := dict_set
                        (dict_set tokens0 "access_token"
                           (default (Codexbar.cr_access_token c)
                              (dict_lookup response "access_token")))
                        "refresh_token"
                        (default (Codexbar.cr_refresh_token c)
                           (dict_lookup response "refresh_token")) in
             let i := default VNone (dict_lookup response "id_token") in
             if truthy i then dict_set t "id_token" i else t)) as [-> ->].
  { cbv zeta. destruct (truthy (default VNone (dict_lookup response "id_token")));
      injection Ht3 as <- <-; auto. }
  apply bind_ok in E as (au1 & ? & Hau1 & E). apply lift_ok in Hau1 as [Hau1 ->].
  apply setitem_dict in Hau1 as (auth0 & Hauth & ->).
  apply bind_ok in E as (now & w3 & Hnow & E).
  injection Hnow as <- <-.
  apply bind_ok in E as (au2 & ? & Hau2 & E). apply lift_ok in Hau2 as [Hau2 ->].
  simpl in Hau2. injection Hau2 as <-.
  apply bind_ok in E as ([] & w4 & Hw & E).
  rewrite write_auth_run in Hw. injection Hw as <-.
  apply lift_ok in E as [Hfin ->].
  exists response, tokens0, auth0. do 2 eexists.
  split; [exact Hrun|]. split; [exact Htok|]. split; [exact Hauth|].
  split.
  - revert Hfin. cbv zeta. unfold py_get, py_get_default.
    destruct (truthy (default VNone (dict_lookup response "id_token")));
      rewrite ?(dict_lookup_set_ne _ "id_token" "access_token") by discriminate;
      rewrite (dict_lookup_set_ne _ "refresh_token" "access_token") by discriminate;
      rewrite dict_lookup_set_eq; simpl; intros H; injection H as <-; reflexivity.
  - assert (a = default (Codexbar.cr_access_token c)
                  (dict_lookup response "access_token")) as ->.
    { revert Hfin. cbv zeta. unfold py_get, py_get_default.
      destruct (truthy (default VNone (dict_lookup response "id_token")));
        rewrite ?(dict_lookup_set_ne _ "id_token" "access_token") by discriminate;
        rewrite (dict_lookup_set_ne _ "refresh_token" "access_token") by discriminate;
        rewrite dict_lookup_set_eq; simpl; intros H; injection H as <-; reflexivity. }
    split; [reflexivity|]. split; reflexivity.
Qed.

(** X6: a refresh that succeeds keeps every field of the credential
    record but [tokens] and [last_refresh], and every token but
    [access_token], [refresh_token] and [id_token].  Each of the first two
    takes the value of the response when the response has the key and keeps
    its old value otherwise; [id_token] changes only when the response holds
    a truthy one.  The record written is stamped with the time read from the
    clock, and the access token returned is the one written.  Both
    scripts. *)
Theorem refresh_merges_response (L : pylib) (c : Codexbar.credentials) (w : world)
    (a : value) :
  fst (Codexbar.refresh L c w) = Ok a ->
  Limitsbar.refresh L (limitsbar_credentials c) w = Codexbar.refresh L c w
  /\ exists response tokens0 auth0 tokens1 auth1,
       fst (Codexbar._refresh_tokens L (Codexbar.cr_refresh_token c) w)
       = Ok (VDict response)
       /\ Codexbar.cr_tokens c = VDict tokens0
       /\ Codexbar.cr_auth c = VDict auth0
       /\ a = default (Codexbar.cr_access_token c) (dict_lookup response "access_token")
       /\ dict_lookup tokens1 "access_token" = Some a
       /\ dict_lookup tokens1 "refresh_token"
          = Some (default (Codexbar.cr_refresh_token c)
                    (dict_lookup response "refresh_token"))
       /\ dict_lookup tokens1 "id_token"
          = (if truthy (default VNone (dict_lookup response "id_token"))
             then dict_lookup response "id_token"
             else dict_lookup tokens0 "id_token")
       /\ (forall k, k <> "access_token" -> k <> "refresh_token" -> k <> "id_token" ->
                     dict_lookup tokens1 k = dict_lookup tokens0 k)
       /\ dict_lookup auth1 "tokens" = Some (VDict tokens1)
       /\ dict_lookup auth1 "last_refresh"
          = Some (VStr (replace (isoformat L (utc_datetime (clock w (ticks w))))
                          "+00:00" "Z"))
       /\ (forall k, k <> "tokens" -> k <> "last_refresh" ->
                     dict_lookup auth1 k = dict_lookup auth0 k)
       /\ files (snd (Codexbar.refresh L c w))
          = <[Codexbar.cr_path c := String.concat "" (json_dump_chunks L (VDict auth1))]>
              (delete (Codexbar.cr_path c ++ ".tmp") (files w))
       /\ fs_log (snd (Codexbar.refresh L c w))
          = (fs_log w
             ++ Codexbar._write_auth_ops L (Codexbar.cr_path c) (VDict auth1))%list.
Proof.
  intros H. split; [destruct c; reflexivity|].
  destruct (Codexbar.refresh L c w) as [r w'] eqn:E. simpl in H. subst r.
  apply refresh_run in E
    as (response & tokens0 & auth0 & tokens1 & auth1 & Hr & Ht & Ha & -> & Ht1 & Ha1 & ->).
  exists response, tokens0, auth0, tokens1, auth1.
  rewrite Hr. split; [reflexivity|]. split; [exact Ht|]. split; [exact Ha|].
  split; [reflexivity|].
  set (a := default (Codexbar.cr_access_token c) (dict_lookup response "access_token"))
    in *.
  set (r := default (Codexbar.cr_refresh_token c) (dict_lookup response "refresh_token"))
    in *.
  cbv zeta in Ht1.
  assert (truthy (default VNone (dict_lookup response "id_token")) = true ->
          dict_lookup response "id_token"
          = Some (default VNone (dict_lookup response "id_token"))) as Hid.
  { destruct (dict_lookup response "id_token"); [reflexivity|discriminate]. }
  repeat split.
  - subst tokens1. destruct (truthy _);
      rewrite ?(dict_lookup_set_ne _ "id_token" "access_token") by discriminate;
      rewrite (dict_lookup_set_ne _ "refresh_token" "access_token") by discriminate;
      apply dict_lookup_set_eq.
  - subst tokens1. destruct (truthy _);
      rewrite ?(dict_lookup_set_ne _ "id_token" "refresh_token") by discriminate;
      apply dict_lookup_set_eq.
  - subst tokens1. destruct (truthy _) eqn:Ti.
    + rewrite dict_lookup_set_eq. symmetry. exact (Hid eq_refl).
    + rewrite (dict_lookup_set_ne _ "refresh_token" "id_token") by discriminate.
      apply (dict_lookup_set_ne _ "access_token" "id_token"). discriminate.
  - intros k H1 H2 H3. subst tokens1. destruct (truthy _);
      rewrite ?(dict_lookup_set_ne _ "id_token" k) by congruence;
      rewrite (dict_lookup_set_ne _ "refresh_token" k) by congruence;
      apply dict_lookup_set_ne; congruence.
  - subst auth1.
    rewrite (dict_lookup_set_ne _ "last_refresh" "tokens") by discriminate.
    apply dict_lookup_set_eq.
  - subst auth1. apply dict_lookup_set_eq.
  - intros k H1 H2. subst auth1.
    rewrite (dict_lookup_set_ne _ "last_refresh" k) by congruence.
    apply dict_lookup_set_ne. congruence.
Qed.

Lemma refresh_merges_response_witness :
  let c := {| Codexbar.cr_auth := Demo.auth_stale;
              Codexbar.cr_path := Demo.CODEX_AUTH;
              Codexbar.cr_tokens := Demo.tokens_doc;
              Codexbar.cr_access_token := VStr "tok";
              Codexbar.cr_refresh_token := VStr "ref";
              Codexbar.cr_account_id := VStr "acct";
              Codexbar.cr_last_refresh := None |} in
  let w := Demo.world_of Demo.logged_in Demo.codex_45_10 Demo.claude_88_5 in
  Limitsbar.refresh Demo.lib (limitsbar_credentials c) w = Codexbar.refresh Demo.lib c w.
Proof.
  intros c w.
  refine (proj1 (refresh_merges_response Demo.lib c w (VStr "tok2") _)).
  vm_compute. reflexivity.
Defined.

Lemma bind_raise {A B} (c : M A) (k : A -> M B) w e w' :
  bind c k w = (Raise e, w') ->
  c w = (Raise e, w')
  \/ exists a w1, c w = (Ok a, w1) /\ k a w1 = (Raise e, w').
Proof.
  unfold bind. destruct (c w) as [[a|e0] w1]; [eauto|].
  intros H. injection H as <- <-. auto.
Qed.

Lemma lift_raise {A} (r : result A) w e w' : lift r w = (Raise e, w') -> w' = w.
Proof. unfold lift. intros H. now injection H as _ <-. Qed.

(** A refresh that fails has written nothing. *)
Lemma refresh_raise_frame (L : pylib) (c : Codexbar.credentials) (w : world) e w' :
  Codexbar.refresh L c w = (Raise e, w') ->
  files w' = files w /\ fs_log w' = fs_log w.
Proof.
  intros H. unfold Codexbar.refresh in H.
  apply bind_raise in H as [H|(refreshed & w1 & H1 & H)].
  { pose proof (keeps_refresh_tokens (fun w => w) L (Codexbar.cr_refresh_token c) w) as K.
    rewrite H in K. simpl in K. now subst. }
  pose proof (keeps_refresh_tokens (fun w => w) L (Codexbar.cr_refresh_token c) w) as K.
  rewrite H1 in K. simpl in K. subst w1.
  apply bind_raise in H as [H|(a0 & ? & Ha & H)];
    [apply lift_raise in H; now subst|apply lift_ok in Ha as [Ha ->]].
  apply bind_raise in H as [H|(t1 & ? & Ht1 & H)];
    [apply lift_raise in H; now subst|apply lift_ok in Ht1 as [Ht1 ->]].
  apply setitem_dict in Ht1 as (tokens0 & Htok & ->).
  apply bind_raise in H as [H|(r0 & ? & Hr0 & H)];
    [apply lift_raise in H; now subst|apply lift_ok in Hr0 as [Hr0 ->]].
  apply bind_raise in H as [H|(t2 & ? & Ht2 & H)];
    [apply lift_raise in H; now subst|apply lift_ok in Ht2 as [Ht2 ->]].
  simpl in Ht2. injection Ht2 as <-.
  apply bind_raise in H as [H|(i & ? & Hi & H)];
    [apply lift_raise in H; now subst|apply lift_ok in Hi as [Hi ->]].
  apply bind_raise in H as [H|(t3 & w2 & Ht3 & H)].
  { destruct (truthy i); [apply lift_raise in H; now subst|discriminate H]. }
  assert (w2 = w /\ exists d, t3 = VDict d) as [-> [d ->]].
  { destruct (truthy i); injection Ht3 as <- <-; eauto. }
  apply bind_raise in H as [H|(au1 & ? & Hau1 & H)];
    [apply lift_raise in H; now subst|apply lift_ok in Hau1 as [Hau1 ->]].
  apply bind_raise in H as [H|(now & w3 & Hnow & H)]; [discriminate H|].
  injection Hnow as <- <-.
  apply bind_raise in H as [H|(au2 & ? & Hau2 & H)];
    [apply lift_raise in H; now subst|apply lift_ok in Hau2 as [Hau2 ->]].
  apply bind_raise in H as [H|([] & w4 & Hw & H)];
    [rewrite write_auth_run in H; discriminate H|].
  discriminate H.
Qed.

(** The two scripts load the same credentials. *)
Lemma load_credentials_limitsbar (L : pylib) (w : world) (c : Codexbar.credentials)
    (w' : world) :
  Codexbar.load_credentials L w = (Ok c, w') ->
  Limitsbar.load_credentials L w = (Ok (Some (limitsbar_credentials c)), w').
Proof.
  unfold Codexbar.load_credentials, Limitsbar.load_credentials.
  change Limitsbar._read_auth with Codexbar._read_auth.
  change Limitsbar._parse_iso8601 with Codexbar._parse_iso8601.
  unfold bind. destruct (Codexbar._read_auth L w) as [[[auth path]|e] w1]; [|discriminate].
  unfold lift, ret, raise.
  destruct (py_get auth "tokens") as [t|]; [|discriminate].
  destruct (py_get (py_or t (VDict [])) "access_token") as [a|]; [|discriminate].
  destruct (py_get (py_or t (VDict [])) "refresh_token") as [r|]; [|discriminate].
  destruct (py_get (py_or t (VDict [])) "account_id") as [i|]; [|discriminate].
  destruct (negb (truthy a)); [discriminate|].
  destruct (py_get auth "last_refresh") as [lr|]; [|discriminate].
  intros H. injection H as <- <-. reflexivity.
Qed.

Lemma load_credentials_codexbar (L : pylib) (w : world) (lc : Limitsbar.credentials)
    (w' : world) :
  Limitsbar.load_credentials L w = (Ok (Some lc), w') ->
  exists c, Codexbar.load_credentials L w = (Ok c, w') /\ lc = limitsbar_credentials c.
Proof.
  unfold Codexbar.load_credentials, Limitsbar.load_credentials.
  change Limitsbar._read_auth with Codexbar._read_auth.
  change Limitsbar._parse_iso8601 with Codexbar._parse_iso8601.
  unfold bind. destruct (Codexbar._read_auth L w) as [[[auth path]|e] w1]; [|discriminate].
  unfold lift, ret, raise.
  destruct (py_get auth "tokens") as [t|]; [|discriminate].
  destruct (py_get (py_or t (VDict [])) "access_token") as [a|]; [|discriminate].
  destruct (py_get (py_or t (VDict [])) "refresh_token") as [r|]; [|discriminate].
  destruct (py_get (py_or t (VDict [])) "account_id") as [i|]; [|discriminate].
  destruct (negb (truthy a)); [discriminate|].
  destruct (py_get auth "last_refresh") as [lr|]; [|discriminate].
  intros H. injection H as <- <-. eexists. split; reflexivity.
Qed.

Lemma refresh_if_stale_limitsbar (L : pylib) (c : Codexbar.credentials) :
  Limitsbar.refresh_if_stale L (limitsbar_credentials c) = Codexbar.refresh_if_stale L c.
Proof. destruct c; reflexivity. Qed.

Lemma refresh_tokens_urlopen (L : pylib) (rt : value) (w w' : world) :
  urlopen w' = urlopen w ->
  fst (Codexbar._refresh_tokens L rt w') = fst (Codexbar._refresh_tokens L rt w).
Proof.
  intros H. unfold Codexbar._refresh_tokens, bind, gets, lift. rewrite H.
  destruct (urlopen w _); reflexivity.
Qed.

Lemma needs_refresh_urlopen (lr : option datetime) (w : world) :
  urlopen (snd (Codexbar._needs_refresh lr w)) = urlopen w.
Proof.
  destruct lr as [dt|]; [|reflexivity].
  unfold Codexbar._needs_refresh, Codexbar._now_utc, bind, lift, ret. simpl.
  destruct (datetime_sub _ dt); reflexivity.
Qed.

(** The refresh branch, seen from the file system: nothing, or the one
    write of [_write_auth]. *)
Lemma refresh_if_stale_writes (L : pylib) (c : Codexbar.credentials) (w : world) :
  let w' := snd (Codexbar.refresh_if_stale L c w) in
  (files w' = files w /\ fs_log w' = fs_log w)
  \/ (truthy (Codexbar.cr_refresh_token c) = true
      /\ fst (Codexbar._needs_refresh (Codexbar.cr_last_refresh c) w) = Ok true
      /\ exists response auth1,
           fst (Codexbar._refresh_tokens L (Codexbar.cr_refresh_token c) w)
           = Ok (VDict response)
           /\ fst (Codexbar.refresh_if_stale L c w)
              = Ok (default (Codexbar.cr_access_token c)
                      (dict_lookup response "access_token"))
           /\ files w'
              = <[Codexbar.cr_path c
                  := String.concat "" (json_dump_chunks L (VDict auth1))]>
                  (delete (Codexbar.cr_path c ++ ".tmp") (files w))
           /\ fs_log w'
              = (fs_log w
                 ++ Codexbar._write_auth_ops L (Codexbar.cr_path c) (VDict auth1))%list).
Proof.
  intros w'. subst w'. unfold Codexbar.refresh_if_stale, bind.
  destruct (truthy (Codexbar.cr_refresh_token c)) eqn:T; [|left; auto].
  pose proof (keeps_needs_refresh files (Codexbar.cr_last_refresh c) w) as Kf.
  pose proof (keeps_needs_refresh fs_log (Codexbar.cr_last_refresh c) w) as Kl.
  pose proof (needs_refresh_urlopen (Codexbar.cr_last_refresh c) w) as Ku.
  destruct (Codexbar._needs_refresh (Codexbar.cr_last_refresh c) w) as [[[|]|e] w1] eqn:N;
    simpl in Kf, Kl, Ku; [|left; auto|left; auto].
  destruct (Codexbar.refresh L c w1) as [[a|e] w2] eqn:R.
  - right. split; [reflexivity|]. split; [reflexivity|].
    apply refresh_run in R
      as (response & tokens0 & auth0 & tokens1 & auth1 & Hr & _ & _ & -> & _ & _ & ->).
    exists response, auth1. simpl. rewrite Kf, Kl.
    rewrite <- (refresh_tokens_urlopen L _ w w1 Ku), Hr. auto.
  - left. apply refresh_raise_frame in R as [Hf Hl]. simpl. split; congruence.
Qed.

(** X7: when the refresh branch is taken and the token request fails,
    [codexbar.py] prints the error payload for that failure and
    [_get_codex_status] of [limitsbar.py] reports it as the error of the
    Codex account; the credential file is left as it was and no file-system
    call is made. *)
Theorem failed_refresh_is_reported (L : pylib) (w : world) (c : Codexbar.credentials)
    (e : exn) :
  fst (Codexbar.load_credentials L w) = Ok c ->
  truthy (Codexbar.cr_refresh_token c) = true ->
  fst (Codexbar._needs_refresh (Codexbar.cr_last_refresh c) w) = Ok true ->
  fst (Codexbar._refresh_tokens L (Codexbar.cr_refresh_token c) w) = Raise e ->
  (fst (Codexbar.main L w) = Ok tt
   /\ stdout (snd (Codexbar.main L w))
      = (stdout w
         ++ [json_dumps_compact L
               (Codexbar.error_payload
                  match e with
                  | HTTPError code _ => "HTTP error: " ++ string_of_Z code
                  | _ => "Error: " ++ exn_str e
                  end)])%list
   /\ files (snd (Codexbar.main L w)) = files w
   /\ fs_log (snd (Codexbar.main L w)) = fs_log w)
  /\ (fst (Limitsbar._get_codex_status L w)
      = Ok (None,
            Some match e with
                 | FileNotFoundError _ => "Codex auth.json not found (run `codex login`)"
                 | HTTPError code _ => "Codex HTTP error: " ++ string_of_Z code
                 | _ => "Codex error: " ++ exn_str e
                 end)
      /\ files (snd (Limitsbar._get_codex_status L w)) = files w
      /\ fs_log (snd (Limitsbar._get_codex_status L w)) = fs_log w).
Proof.
  intros Hl Ht Hn Hr.
  assert (Codexbar.load_credentials L w = (Ok c, w)) as El.
  { pose proof (keeps_load_codexbar (fun w => w) L w) as K.
    destruct (Codexbar.load_credentials L w) as [r w1]. simpl in *. now subst. }
  pose proof (keeps_needs_refresh files (Codexbar.cr_last_refresh c) w) as Kf.
  pose proof (keeps_needs_refresh fs_log (Codexbar.cr_last_refresh c) w) as Kl.
  pose proof (keeps_needs_refresh stdout (Codexbar.cr_last_refresh c) w) as Ko.
  pose proof (needs_refresh_urlopen (Codexbar.cr_last_refresh c) w) as Ku.
  destruct (Codexbar._needs_refresh (Codexbar.cr_last_refresh c) w) as [r w1] eqn:N.
  simpl in Hn, Kf, Kl, Ko, Ku. subst r.
  assert (Codexbar._refresh_tokens L (Codexbar.cr_refresh_token c) w1 = (Raise e, w1))
    as Er.
  { destruct (refresh_tokens_run L (Codexbar.cr_refresh_token c) w1) as (r & E).
    pose proof (refresh_tokens_urlopen L (Codexbar.cr_refresh_token c) w w1 Ku) as F.
    rewrite E, Hr in F. simpl in F. now subst r. }
  assert (Codexbar.refresh_if_stale L c w = (Raise e, w1)) as Es.
  { unfold Codexbar.refresh_if_stale, bind. rewrite Ht, N.
    unfold Codexbar.refresh, bind. rewrite Er. reflexivity. }
  split.
  - assert (Codexbar.main_try L w = (Raise e, w1)) as Em.
    { unfold Codexbar.main_try, bind. rewrite El, Es. reflexivity. }
    unfold Codexbar.main, try_except. rewrite Em.
    unfold Codexbar._emit, stdout_write.
    destruct e; simpl; rewrite Ko; auto.
  - pose proof (load_credentials_limitsbar L w c w El) as Ell.
    assert (Limitsbar.codex_try L w = (Raise e, w1)) as Em.
    { unfold Limitsbar.codex_try, bind. rewrite Ell, refresh_if_stale_limitsbar, Es.
      reflexivity. }
    unfold Limitsbar._get_codex_status, try_except. rewrite Em.
    destruct e; simpl; auto.
Qed.

Lemma failed_refresh_is_reported_witness :
  let w := {| environ := ∅; home := "/home/u";
              files := {[ Demo.CODEX_AUTH := Demo.compact Demo.auth_stale ]};
              urlopen := fun _ => Raise (HTTPError 401 "Unauthorized");
              clock := fun n => Demo.NOW + Z.of_nat n; ticks := 0;
              stdout := []; fs_log := [] |} in
  stdout (snd (Codexbar.main Demo.lib w))
  = [json_dumps_compact Demo.lib (Codexbar.error_payload "HTTP error: 401")]
  /\ files (snd (Codexbar.main Demo.lib w)) = files w.
Proof.
  intros w.
  destruct (failed_refresh_is_reported Demo.lib w
              {| Codexbar.cr_auth := Demo.auth_stale;
                 Codexbar.cr_path := Demo.CODEX_AUTH;
                 Codexbar.cr_tokens := Demo.tokens_doc;
                 Codexbar.cr_access_token := VStr "tok";
                 Codexbar.cr_refresh_token := VStr "ref";
                 Codexbar.cr_account_id := VStr "acct";
                 Codexbar.cr_last_refresh :=
                   Some (utc_datetime (1792497600 * 1000000)) |}
              (HTTPError 401 "Unauthorized"))
    as [(_ & Ho & Hf & _) _].
  - vm_compute. reflexivity.
  - reflexivity.
  - vm_compute. reflexivity.
  - vm_compute. reflexivity.
  - split; [exact Ho|exact Hf].
Defined.

Lemma try_frame {X A} (f : world -> X) (c : M A) (h : exn -> M A) (w : world) :
  (forall e, keeps f (h e)) -> f (snd (try_except c h w)) = f (snd (c w)).
Proof.
  intros Hh. unfold try_except. destruct (c w) as [[a|e] w1]; simpl; [reflexivity|].
  apply Hh.
Qed.

Lemma bind_frame {X A B} (f : world -> X) (c : M A) (k : A -> M B) (w : world) :
  (forall a, keeps f (k a)) -> f (snd (bind c k w)) = f (snd (c w)).
Proof.
  intros Hk. unfold bind. destruct (c w) as [[a|e] w1]; simpl; [|reflexivity].
  apply Hk.
Qed.

(** What a run of either script leaves of the files and of the log is what
    the refresh branch left. *)
Lemma main_frame_codexbar {X} (f : world -> X) `{!TickFree f} `{!OutFree f}
    (L : pylib) (w : world) :
  f (snd (Codexbar.main L w))
  = match Codexbar.load_credentials L w with
    | (Ok c, w1) => f (snd (Codexbar.refresh_if_stale L c w1))
    | (Raise _, w1) => f w1
    end.
Proof.
  unfold Codexbar.main. rewrite try_frame by (intros e; destruct e; keeps_tac).
  unfold Codexbar.main_try. unfold bind at 1.
  destruct (Codexbar.load_credentials L w) as [[c|e] w1]; [|reflexivity].
  apply bind_frame. intros a. keeps_tac.
Qed.

Lemma main_frame_limitsbar {X} (f : world -> X) `{!TickFree f} `{!OutFree f}
    (L : pylib) (w : world) :
  f (snd (Limitsbar.main L w))
  = match Limitsbar.load_credentials L w with
    | (Ok (Some c), w1) => f (snd (Limitsbar.refresh_if_stale L c w1))
    | (Ok None, w1) | (Raise _, w1) => f w1
    end.
Proof.
  unfold Limitsbar.main. rewrite bind_frame by (intros [codex cerr]; keeps_tac).
  unfold Limitsbar._get_codex_status.
  rewrite try_frame by (intros e; destruct e; keeps_tac).
  unfold Limitsbar.codex_try. unfold bind at 1.
  destruct (Limitsbar.load_credentials L w) as [[[c|]|e] w1]; [|reflexivity|reflexivity].
  apply bind_frame. intros a. keeps_tac.
Qed.

(** X8: a run makes no file-system call and changes no file, unless the
    refresh branch is taken and the token request is answered with an
    object; then its calls are exactly those of one [_write_auth] on the
    credential file, whatever happens afterwards.  Both scripts. *)
Theorem run_writes_at_most_once (L : pylib) (w : world) :
  (forall w',
     w' = snd (Codexbar.main L w) \/ w' = snd (Limitsbar.main L w) ->
     (files w' = files w /\ fs_log w' = fs_log w)
     \/ exists c response auth1,
          fst (Codexbar.load_credentials L w) = Ok c
          /\ truthy (Codexbar.cr_refresh_token c) = true
          /\ fst (Codexbar._needs_refresh (Codexbar.cr_last_refresh c) w) = Ok true
          /\ fst (Codexbar._refresh_tokens L (Codexbar.cr_refresh_token c) w)
             = Ok (VDict response)
          /\ files w'
             = <[Codexbar.cr_path c
                 := String.concat "" (json_dump_chunks L (VDict auth1))]>
                 (delete (Codexbar.cr_path c ++ ".tmp") (files w))
          /\ fs_log w'
             = (fs_log w
                ++ Codexbar._write_auth_ops L (Codexbar.cr_path c) (VDict auth1))%list).
Proof.
  intros w' Hw'.
  assert (match Codexbar.load_credentials L w with
          | (Ok c, w1) =>
              w1 = w
              /\ files w' = files (snd (Codexbar.refresh_if_stale L c w))
              /\ fs_log w' = fs_log (snd (Codexbar.refresh_if_stale L c w))
          | (Raise _, _) => files w' = files w /\ fs_log w' = fs_log w
          end) as H.
  { pose proof (keeps_load_codexbar (fun w => w) L w) as Kw.
    destruct Hw' as [->| ->].
    - rewrite (main_frame_codexbar files), (main_frame_codexbar fs_log).
      destruct (Codexbar.load_credentials L w) as [[c|e] w1]; simpl in Kw; subst w1; auto.
    - rewrite (main_frame_limitsbar files), (main_frame_limitsbar fs_log).
      pose proof (keeps_load_limitsbar (fun w => w) L w) as Kl.
      destruct (Codexbar.load_credentials L w) as [[c|e] w1] eqn:El; simpl in Kw; subst w1.
      + rewrite (load_credentials_limitsbar L w c w El).
        rewrite refresh_if_stale_limitsbar. auto.
      + destruct (Limitsbar.load_credentials L w) as [[[lc|]|e'] w1] eqn:Ell;
          simpl in Kl; subst w1; auto.
        apply load_credentials_codexbar in Ell as (c & Ec & _). congruence. }
  destruct (Codexbar.load_credentials L w) as [[c|e] w1] eqn:El; [|left; exact H].
  destruct H as (-> & Hf & Hg).
  destruct (refresh_if_stale_writes L c w)
    as [[Hf' Hg']|(T & N & r & a1 & Hr & _ & Hf' & Hg')].
  - left. split; congruence.
  - right. exists c, r, a1. repeat split; try assumption; congruence.
Qed.

Lemma run_writes_at_most_once_witness :
  let w := Demo.world_of {[ Demo.CODEX_AUTH := Demo.compact Demo.auth_fresh ]}
             Demo.codex_45_10 Demo.claude_88_5 in
  let w' := snd (Codexbar.main Demo.lib w) in
  (files w' = files w /\ fs_log w' = fs_log w)
  \/ exists c response auth1,
       fst (Codexbar.load_credentials Demo.lib w) = Ok c
       /\ truthy (Codexbar.cr_refresh_token c) = true
       /\ fst (Codexbar._needs_refresh (Codexbar.cr_last_refresh c) w) = Ok true
       /\ fst (Codexbar._refresh_tokens Demo.lib (Codexbar.cr_refresh_token c) w)
          = Ok (VDict response)
       /\ files w'
          = <[Codexbar.cr_path c
              := String.concat "" (json_dump_chunks Demo.lib (VDict auth1))]>
              (delete (Codexbar.cr_path c ++ ".tmp") (files w))
       /\ fs_log w'
          = (fs_log w
             ++ Codexbar._write_auth_ops Demo.lib (Codexbar.cr_path c)
                  (VDict auth1))%list.
Proof.
  intros w w'.
  exact (run_writes_at_most_once Demo.lib w w' (or_introl eq_refl)).
Defined.

(** ** The checks made before the Claude request *)

(** X9: [_get_claude_status] answers from the credential file alone in
    three cases, leaving the world as it was: no file, reported as not
    found; no truthy [accessToken], reported as a missing token whatever
    the scopes are; and a token without ["user:profile"] among the scopes,
    a missing or null [scopes] counting as none. *)
Theorem claude_local_checks (L : pylib) (w : world) :
  (files w !! claude_path w = None ->
   Limitsbar._get_claude_status L w
   = (Ok (None, Some "Claude credentials not found (run `claude login`)"), w))
  /\ (forall text doc d,
        files w !! claude_path w = Some text ->
        json_loads L text = Ok (VDict doc) ->
        py_or (default VNone (dict_lookup doc "claudeAiOauth")) (VDict []) = VDict d ->
        let access := default VNone (dict_lookup d "accessToken") in
        let scopes := py_or (default VNone (dict_lookup d "scopes")) (VList []) in
        (truthy access = false ->
         Limitsbar._get_claude_status L w
         = (Ok (None, Some "Claude access token missing"), w))
        /\ (truthy access = true ->
            Limitsbar.py_contains scopes "user:profile" = Ok false ->
            Limitsbar._get_claude_status L w
            = (Ok (None, Some "Claude token missing user:profile scope"), w))).
Proof.
  split.
  - intros Hf. unfold Limitsbar._get_claude_status, Limitsbar._read_claude_credentials,
      Limitsbar._claude_credentials_path, bind, gets.
    fold (claude_path w). rewrite Hf. reflexivity.
  - intros text doc d Hf Hj Hc access scopes.
    assert (Limitsbar._read_claude_credentials L w = (Ok (VDict d, claude_path w), w))
      as Hr.
    { unfold Limitsbar._read_claude_credentials, Limitsbar._claude_credentials_path,
        bind, gets. fold (claude_path w). rewrite Hf. unfold lift. rewrite Hj.
      simpl. unfold ret. now rewrite Hc. }
    unfold Limitsbar._get_claude_status. rewrite Hr.
    unfold Limitsbar.claude_after_read, bind, lift. simpl.
    fold access. fold scopes. split.
    + intros Ha. rewrite Ha. reflexivity.
    + intros Ha Hs. rewrite Ha, Hs. reflexivity.
Qed.

Lemma claude_local_checks_witness :
  let w := Demo.world_of
             {[ Demo.CLAUDE_CREDENTIALS := Demo.compact Demo.auth_fresh ]}
             Demo.codex_45_10 Demo.claude_88_5 in
  Limitsbar._get_claude_status Demo.lib w
  = (Ok (None, Some "Claude access token missing"), w).
Proof.
  intros w.
  refine (proj1 (proj2 (claude_local_checks Demo.lib w)
                   (Demo.compact Demo.auth_fresh)
                   [("tokens", Demo.tokens_doc);
                    ("last_refresh", VStr "2026-11-01T12:00:00Z")] [] _ _ eq_refl)
            eq_refl).
  - vm_compute. reflexivity.
  - vm_compute. reflexivity.
Defined.

(** ** Usage answers *)

(** X10: a usage answer without rate-limit data (the key missing, null or
    an empty object) is no error: every field of both windows is read as
    absent; [codexbar.py] then shows [--] for both windows, with class
    ["unknown"], percentage 0 and both resets unknown, and the Codex segment
    of [limitsbar.py] shows [--] twice and adds no percentage. *)
Theorem usage_without_rate_limit (L : pylib) (d : list (string * value)) (w : world)
    (updated : string) :
  truthy (default VNone (dict_lookup d "rate_limit")) = false ->
  strftime_local L (utc_datetime (clock w (ticks w))) = Ok updated ->
  let win := {| Codexbar.daily_percent := VNone; Codexbar.weekly_percent := VNone;
                Codexbar.daily_reset := VNone; Codexbar.weekly_reset := VNone |} in
  let status := {| Limitsbar.daily_percent := VNone; Limitsbar.weekly_percent := VNone;
                   Limitsbar.daily_reset := VNone; Limitsbar.weekly_reset := VNone |} in
  Codexbar.read_windows (VDict d) = Ok win
  /\ Limitsbar.read_status (VDict d) = Ok status
  /\ fst (Codexbar.render L win w)
     = Ok (VDict [("text", VStr "D -- · W --");
                  ("tooltip",
                   VStr (str_join CR ["Daily used: --";
                                      "Daily reset: unknown (unknown)";
                                      "Weekly used: --";
                                      "Weekly reset: unknown (unknown)";
                                      "Updated: " ++ updated]));
                  ("class", VStr "unknown");
                  ("percentage", VInt 0);
                  ("alt", VStr "codex")])
  /\ Limitsbar.codex_segment L (Some status) None w
     = (Ok ([], "Codex " ++ Limitsbar.ICON_FIVE_HOUR ++ " -- "
                ++ Limitsbar.ICON_WEEKLY ++ " --",
            ["Codex — 5h: -- (resets unknown, unknown)";
             "Codex — Weekly: -- (resets unknown, unknown)"]), w).
Proof.
  intros Hr Hs win status.
  assert (py_or (default VNone (dict_lookup d "rate_limit")) (VDict []) = VDict []) as Ho.
  { unfold py_or. now rewrite Hr. }
  repeat split.
  - unfold Codexbar.read_windows, py_get, py_get_default. simpl. now rewrite Ho.
  - unfold Limitsbar.read_status, py_get, py_get_default. simpl. now rewrite Ho.
  - unfold Codexbar.render, bind, lift, ret, Codexbar._now_utc. simpl.
    rewrite Hs. reflexivity.
Qed.

Lemma usage_without_rate_limit_witness :
  Codexbar.read_windows (VDict [])
  = Ok {| Codexbar.daily_percent := VNone; Codexbar.weekly_percent := VNone;
          Codexbar.daily_reset := VNone; Codexbar.weekly_reset := VNone |}.
Proof.
  refine (proj1 (usage_without_rate_limit Demo.lib []
                   (Demo.world_of Demo.logged_in Demo.codex_45_10 Demo.claude_88_5)
                   "2026-11-04 12:00" eq_refl _)).
  vm_compute. reflexivity.
Defined.

Lemma py_int_of_fin (L : pylib) (p : value) (q : Q) :
  xnum_of_value p = Some (Fin q) -> py_int L p = Ok (Qtrunc q).
Proof.
  intros Hq. destruct p as [|b|z|f|s|l|d]; simpl in Hq; try discriminate.
  - injection Hq as <-. destruct b; reflexivity.
  - injection Hq as <-. unfold Qtrunc. simpl. now rewrite Z.quot_1_r.
  - injection Hq as Hq. simpl. unfold float_trunc. now rewrite Hq.
Qed.

(** X11: the text of a window percentage is the number cut to its whole
    part and followed by [%], never rounded up: for a non-negative number
    [q] it shows the integer [n] with [n <= q < n + 1].  A percentage that is
    NaN or infinite has no text: [int] raises.  Both scripts. *)
Theorem percent_text_truncates (L : pylib) (p : value) :
  Limitsbar.percent_text L p = Codexbar.percent_text L p
  /\ (forall q,
        xnum_of_value p = Some (Fin q) -> (0 <= q)%Q ->
        exists n, Codexbar.percent_text L p = Ok (string_of_Z n ++ "%")
                  /\ (inject_Z n <= q)%Q /\ (q < inject_Z (n + 1))%Q)
  /\ (forall f,
        p = VFloat f -> F64.is_finite f = false ->
        exists e, Codexbar.percent_text L p = Raise e).
Proof.
  split; [reflexivity|]. split.
  - intros q Hq H0. exists (Qtrunc q). split.
    + unfold Codexbar.percent_text. rewrite (py_int_of_fin L p q Hq).
      destruct p; try discriminate Hq; reflexivity.
    + clear Hq. destruct q as [a dd]. unfold Qle, Qlt, Qtrunc in *. simpl in *.
      rewrite Z.mul_1_r in *.
      rewrite Z.quot_div_nonneg by lia.
      pose proof (Z.div_mod a (Z.pos dd) ltac:(lia)) as Hd.
      pose proof (Z.mod_pos_bound a (Z.pos dd) ltac:(lia)) as Hm.
      split; nia.
  - intros f -> Hf. unfold Codexbar.percent_text. simpl. unfold float_trunc.
    destruct f as [s|s| |s m e]; try discriminate Hf; [destruct s|]; simpl; eauto.
Qed.

Lemma percent_text_truncates_witness :
  exists n, Codexbar.percent_text Demo.lib (VFloat (F64.mul f042 F64.hundred))
            = Ok (string_of_Z n ++ "%")
            /\ (inject_Z n <= F64.to_Q (F64.mul f042 F64.hundred))%Q
            /\ (F64.to_Q (F64.mul f042 F64.hundred) < inject_Z (n + 1))%Q.
Proof.
  refine (proj1 (proj2 (percent_text_truncates Demo.lib
                          (VFloat (F64.mul f042 F64.hundred))))
            (F64.to_Q (F64.mul f042 F64.hundred)) eq_refl _).
  vm_compute. discriminate.
Defined.

(** ** The greatest percentage and its severity *)

(** X12: the loop of [codexbar.py] and [max(percents)] of [limitsbar.py]
    pick the same greatest percentage out of the two Codex windows, and
    fail on the same windows. *)
Theorem top_of_agrees_with_max (d w dr wr : value) :
  Codexbar.top_of {| Codexbar.daily_percent := d; Codexbar.weekly_percent := w;
                     Codexbar.daily_reset := dr; Codexbar.weekly_reset := wr |}
  = match List.filter (fun p => negb (is_none p)) [d; w] with
    | [] => Ok VNone
    | percents => py_max percents
    end.
Proof.
  unfold Codexbar.top_of, Codexbar.top_step. simpl.
  destruct (is_none d) eqn:Ed; destruct (is_none w) eqn:Ew; simpl;
    rewrite ?Ed, ?Ew; reflexivity.
Qed.

Lemma Qtrunc_ge (q : Q) (k : Z) : (inject_Z k <= q)%Q -> 0 <= k -> k <= Qtrunc q.
Proof.
  destruct q as [a d]. unfold Qle, Qtrunc. simpl. intros H Hk.
  rewrite Z.mul_1_r in H. rewrite Z.quot_div_nonneg by nia.
  apply Z.div_le_lower_bound; lia.
Qed.

Lemma Qtrunc_lt (q : Q) (k : Z) : (q < inject_Z k)%Q -> 0 < k -> Qtrunc q < k.
Proof.
  destruct q as [a d]. unfold Qlt, Qtrunc. simpl. intros H Hk.
  rewrite Z.mul_1_r in H.
  destruct (Z.le_gt_cases 0 a) as [Ha|Ha].
  - rewrite Z.quot_div_nonneg by lia. apply Z.div_lt_upper_bound; lia.
  - pose proof (Z.quot_le_mono a 0 (Z.pos d) ltac:(lia) ltac:(lia)) as Hq.
    rewrite Z.quot_0_l in Hq by lia. lia.
Qed.

Lemma py_int_fin L (p : value) (q : Q) (n : Z) :
  xnum_of_value p = Some (Fin q) -> py_int L p = Ok n -> n = Qtrunc q.
Proof.
  intros Hq Hi.
  destruct p as [|b|z|f|s|l|d]; simpl in Hq; try discriminate.
  - injection Hq as <-. injection Hi as <-. destruct b; reflexivity.
  - injection Hq as <-. injection Hi as <-. unfold Qtrunc. simpl.
    now rewrite Z.quot_1_r.
  - injection Hq as Hq. simpl in Hi. unfold float_trunc in Hi. rewrite Hq in Hi.
    now injection Hi.
Qed.

(** X13: truncating a percentage never moves it across a severity
    threshold: the class of a finite percentage is the class of the integer
    shown for it.  Both scripts. *)
Theorem class_of_truncated_percentage (L : pylib) (p : value) (q : Q) (n : Z) :
  xnum_of_value p = Some (Fin q) ->
  py_int L p = Ok n ->
  Codexbar._class_for p = Codexbar._class_for (VInt n)
  /\ Limitsbar._class_for p = Limitsbar._class_for (VInt n).
Proof.
  intros Hq Hi. apply (py_int_fin L p q n Hq) in Hi. subst n.
  change Limitsbar._class_for with Codexbar._class_for.
  rewrite (class_for_fin p q Hq).
  rewrite (class_for_fin (VInt (Qtrunc q)) (inject_Z (Qtrunc q)) eq_refl).
  assert (H90 : (q < 90)%Q -> (inject_Z (Qtrunc q) < 90)%Q).
  { intros H. pose proof (Qtrunc_lt q 90 H ltac:(lia)) as Ht.
    unfold Qlt. simpl. lia. }
  assert (H70 : (q < 70)%Q -> (inject_Z (Qtrunc q) < 70)%Q).
  { intros H. pose proof (Qtrunc_lt q 70 H ltac:(lia)) as Ht.
    unfold Qlt. simpl. lia. }
  assert (G90 : (90 <= q)%Q -> (90 <= inject_Z (Qtrunc q))%Q).
  { intros H. pose proof (Qtrunc_ge q 90 H ltac:(lia)) as Ht.
    unfold Qle. simpl. lia. }
  assert (G70 : (70 <= q)%Q -> (70 <= inject_Z (Qtrunc q))%Q).
  { intros H. pose proof (Qtrunc_ge q 70 H ltac:(lia)) as Ht.
    unfold Qle. simpl. lia. }
  split;
    destruct (Qcompare_spec q 90); destruct (Qcompare_spec q 70);
    destruct (Qcompare_spec (inject_Z (Qtrunc q)) 90);
    destruct (Qcompare_spec (inject_Z (Qtrunc q)) 70);
    first [reflexivity | exfalso; lra].
Qed.

Lemma class_of_truncated_percentage_witness :
  Codexbar._class_for (VFloat (S754_finite false 179 (-1)))
  = Codexbar._class_for (VInt 89)
  /\ Limitsbar._class_for (VFloat (S754_finite false 179 (-1)))
     = Limitsbar._class_for (VInt 89).
Proof.
  apply (class_of_truncated_percentage Demo.lib
           (VFloat (S754_finite false 179 (-1))) (179 # 2) 89);
    reflexivity.
Defined.

(** X14: the severity class never decreases when the percentage grows:
    below a percentage classed ["ok"] everything is ["ok"], above one
    classed ["critical"] everything is ["critical"].  Both scripts. *)
Theorem class_for_monotone (p1 p2 : value) (q1 q2 : Q) :
  xnum_of_value p1 = Some (Fin q1) ->
  xnum_of_value p2 = Some (Fin q2) ->
  (q1 <= q2)%Q ->
  (Codexbar._class_for p2 = Ok "ok" -> Codexbar._class_for p1 = Ok "ok")
  /\ (Codexbar._class_for p1 = Ok "critical" -> Codexbar._class_for p2 = Ok "critical")
  /\ (Limitsbar._class_for p2 = Ok "ok" -> Limitsbar._class_for p1 = Ok "ok")
  /\ (Limitsbar._class_for p1 = Ok "critical" -> Limitsbar._class_for p2 = Ok "critical").
Proof.
  intros H1 H2 Hle.
  change Limitsbar._class_for with Codexbar._class_for.
  rewrite (class_for_fin p1 q1 H1), (class_for_fin p2 q2 H2).
  repeat split;
    destruct (Qcompare_spec q1 90); destruct (Qcompare_spec q1 70);
    destruct (Qcompare_spec q2 90); destruct (Qcompare_spec q2 70);
    intros E; first [reflexivity | discriminate E | exfalso; lra].
Qed.

Lemma class_for_monotone_witness :
  Codexbar._class_for (VFloat (S754_finite false 391 (-2))) = Ok "critical".
Proof.
  refine (proj1 (proj2 (class_for_monotone (VInt 95)
                          (VFloat (S754_finite false 391 (-2)))
                          95 (391 # 4) eq_refl eq_refl _)) _).
  - unfold Qle; simpl; lia.
  - reflexivity.
Defined.

(** ** Reset times *)

(** X15: for a reset from one second to less than [2^34] seconds (544
    years) ahead, the hours and minutes [_format_eta] shows are the whole
    minutes of the time left: minutes stay below 60, hours are not capped,
    and the seconds dropped are fewer than 60.  Both scripts. *)
Theorem format_eta_hours_minutes (L : pylib) (w : world) (t : Z) :
  t <> 0 -> MIN_TIMESTAMP <= t <= MAX_TIMESTAMP ->
  1000000 <= t * 1000000 - clock w (ticks w) < 2 ^ 34 * 1000000 ->
  exists h m,
    fst (Codexbar._format_eta L (VInt t) w)
    = Ok (string_of_Z h ++ "h " ++ string_of_Z m ++ "m")
    /\ fst (Limitsbar._format_eta L (VInt t) w)
       = Ok (string_of_Z h ++ "h " ++ string_of_Z m ++ "m")
    /\ 0 <= h /\ 0 <= m <= 59
    /\ 3600 * h + 60 * m <= (t * 1000000 - clock w (ticks w)) / 1000000
       < 3600 * h + 60 * m + 60.
Proof.
  intros Hz Hr Hd.
  change (Limitsbar._format_eta L (VInt t) w) with (Codexbar._format_eta L (VInt t) w).
  assert (truthy (VInt t) = true) as Ht.
  { simpl. apply negb_true_iff. apply Z.eqb_neq. exact Hz. }
  rewrite (format_eta_run L (VInt t) w t Ht eq_refl Hr).
  set (d := t * 1000000 - clock w (ticks w)) in *.
  rewrite total_seconds_trunc by lia. unfold rbind.
  rewrite Z.quot_div_nonneg by lia.
  set (total := d / 1000000).
  assert (1 <= total) as H1t.
  { subst total. apply Z.div_le_lower_bound; lia. }
  unfold eta_text.
  assert (Z.leb total 0 = false) as -> by (apply Z.leb_gt; lia).
  exists (total / 3600), ((total mod 3600) / 60).
  pose proof (Z.div_mod total 3600 ltac:(lia)) as H1.
  pose proof (Z.mod_pos_bound total 3600 ltac:(lia)) as H2.
  pose proof (Z.div_mod (total mod 3600) 60 ltac:(lia)) as H3.
  pose proof (Z.mod_pos_bound (total mod 3600) 60 ltac:(lia)) as H4.
  assert (0 <= total / 3600) by (apply Z.div_pos; lia).
  assert (0 <= (total mod 3600) / 60) by (apply Z.div_pos; lia).
  assert ((total mod 3600) / 60 <= 59).
  { apply Z.lt_succ_r. apply Z.div_lt_upper_bound; lia. }
  repeat split; try reflexivity; lia.
Qed.

Lemma format_eta_hours_minutes_witness :
  exists h m,
    fst (Codexbar._format_eta Demo.lib (VInt 1794096000)
           (Demo.world_of ∅ Demo.codex_45_10 Demo.claude_88_5))
    = Ok (string_of_Z h ++ "h " ++ string_of_Z m ++ "m")
    /\ fst (Limitsbar._format_eta Demo.lib (VInt 1794096000)
              (Demo.world_of ∅ Demo.codex_45_10 Demo.claude_88_5))
       = Ok (string_of_Z h ++ "h " ++ string_of_Z m ++ "m")
    /\ 0 <= h /\ 0 <= m <= 59
    /\ 3600 * h + 60 * m <= (1794096000 * 1000000 - Demo.NOW) / 1000000
       < 3600 * h + 60 * m + 60.
Proof.
  apply (format_eta_hours_minutes Demo.lib
           (Demo.world_of ∅ Demo.codex_45_10 Demo.claude_88_5) 1794096000).
  - lia.
  - unfold MIN_TIMESTAMP, MAX_TIMESTAMP. lia.
  - vm_compute. split; [discriminate|reflexivity].
Defined.

Lemma rendered_not_unknown (h m : Z) :
  string_of_Z h ++ "h " ++ string_of_Z m ++ "m" <> "unknown".
Proof.
  intros E. rewrite <- !append_assoc in E.
  change "unknown" with ("unknow" ++ "n") in E.
  apply append_suffix_inj in E; [discriminate|reflexivity].
Qed.

(** X16: [_format_eta] and [_format_reset] reject the same timestamps: when
    the time left is ["unknown"] the reset time is ["unknown"] as well, and
    otherwise the reset time is the local rendering of the timestamp.  Both
    scripts. *)
Theorem format_eta_unknown_with_reset (L : pylib) (ts : value) (w : world) :
  (fst (Codexbar._format_eta L ts w) = Ok "unknown"
   -> Codexbar._format_reset L ts = Ok "unknown")
  /\ (fst (Codexbar._format_eta L ts w) <> Ok "unknown"
      -> exists t dt, py_int L ts = Ok t /\ fromtimestamp_int t = Ok dt
                      /\ Codexbar._format_reset L ts = strftime_local L dt)
  /\ fst (Limitsbar._format_eta L ts w) = fst (Codexbar._format_eta L ts w)
  /\ Limitsbar._format_reset L ts = Codexbar._format_reset L ts.
Proof.
  assert (fst (Codexbar._format_eta L ts w) = Ok "unknown"
          <-> (truthy ts = false
               \/ exists e, rbind (py_int L ts) fromtimestamp_int = Raise e)) as Hiff.
  { unfold Codexbar._format_eta.
    destruct (truthy ts); simpl; [|split; auto].
    destruct (rbind (py_int L ts) fromtimestamp_int) as [dt|e] eqn:E; simpl.
    - split; [|intros [H|[e H]]; discriminate].
      unfold bind, Codexbar._now_utc, lift, ret. simpl.
      destruct (datetime_sub dt _) as [delta|e]; simpl; [|discriminate].
      destruct (float_trunc (total_seconds delta)) as [total|e]; simpl; [|discriminate].
      destruct (Z.leb total 0); simpl; intros H; injection H as H; [discriminate|].
      exfalso. exact (rendered_not_unknown _ _ H).
    - split; eauto. }
  split; [|split; [|split; reflexivity]].
  - intros H. apply Hiff in H. unfold Codexbar._format_reset.
    destruct H as [-> | [e ->]]; [reflexivity|].
    destruct (truthy ts); reflexivity.
  - intros H.
    assert (truthy ts = true) as Et.
    { destruct (truthy ts) eqn:Et; [reflexivity|]. exfalso. apply H, Hiff. auto. }
    destruct (rbind (py_int L ts) fromtimestamp_int) as [dt|e] eqn:E;
      [|exfalso; apply H, Hiff; eauto].
    unfold Codexbar._format_reset. rewrite Et, E. simpl.
    unfold rbind in E. destruct (py_int L ts) as [t|e] eqn:Ei; [|discriminate].
    exists t, dt. auto.
Qed.

Lemma format_eta_unknown_with_reset_witness :
  Codexbar._format_reset Demo.lib (VInt 253402300800) = Ok "unknown".
Proof.
  apply (proj1 (format_eta_unknown_with_reset Demo.lib (VInt 253402300800)
                  (Demo.world_of ∅ Demo.codex_45_10 Demo.claude_88_5))).
  reflexivity.
Defined.

(** ** Refresh timestamps *)

Lemma substring_all (s : string) : substring 0 (String.length s) s = s.
Proof. induction s as [|c s IH]; simpl; [reflexivity|now rewrite IH]. Qed.

Lemma substring_append_tail (s t : string) :
  substring (String.length s) (String.length t) (s ++ t) = t.
Proof.
  induction s as [|c s IH]; simpl; [apply substring_all|exact IH].
Qed.

Lemma endswith_append (s t : string) : endswith (s ++ t) t = true.
Proof.
  unfold endswith. rewrite length_append.
  replace (String.length s + String.length t - String.length t)%nat
    with (String.length s) by lia.
  rewrite substring_append_tail, String.eqb_refl.
  apply andb_true_intro. split; [apply Nat.leb_le; lia|reflexivity].
Qed.

Lemma endswith_other_char (s : string) (c d : Ascii.ascii) :
  c <> d -> endswith (s ++ String c "") (String d "") = false.
Proof.
  intros Hcd. unfold endswith. rewrite length_append. simpl String.length.
  replace (String.length s + 1 - 1)%nat with (String.length s) by lia.
  pose proof (substring_append_tail s (String c "")) as Ht.
  simpl String.length in Ht. rewrite Ht.
  apply andb_false_intro2. apply String.eqb_neq. congruence.
Qed.

Lemma drop_last_append (s : string) (c : Ascii.ascii) :
  drop_last (s ++ String c "") = s.
Proof.
  unfold drop_last. rewrite length_append. simpl String.length.
  replace (String.length s + 1 - 1)%nat with (String.length s) by lia.
  rewrite substring_append_head by lia. apply substring_all.
Qed.

Lemma append_not_empty (s t : string) : t <> "" -> String.eqb (s ++ t) "" = false.
Proof.
  intros Ht. apply String.eqb_neq. intros E.
  apply (f_equal String.length) in E. rewrite length_append in E.
  destruct t; [contradiction|]. simpl in E. lia.
Qed.

(** X17: [_parse_iso8601] reads a trailing ["Z"] as the offset ["+00:00"];
    [None], the empty string and values that are not strings give [None].
    Both scripts. *)
Theorem parse_iso8601_z_suffix (L : pylib) :
  (forall s : string,
     Codexbar._parse_iso8601 L (VStr (s ++ "Z"))
     = Codexbar._parse_iso8601 L (VStr (s ++ "+00:00"))
     /\ Limitsbar._parse_iso8601 L (VStr (s ++ "Z"))
        = Limitsbar._parse_iso8601 L (VStr (s ++ "+00:00"))
     /\ Codexbar._parse_iso8601 L (VStr (s ++ "Z"))
        = match fromisoformat L (s ++ "+00:00") with
          | Ok dt => Some dt
          | Raise _ => None
          end)
  /\ (forall v : value,
        (forall s, v = VStr s -> s = "") ->
        Codexbar._parse_iso8601 L v = None /\ Limitsbar._parse_iso8601 L v = None).
Proof.
  split.
  - intros s. change Limitsbar._parse_iso8601 with Codexbar._parse_iso8601.
    assert (Codexbar._parse_iso8601 L (VStr (s ++ "Z"))
            = match fromisoformat L (s ++ "+00:00") with
              | Ok dt => Some dt
              | Raise _ => None
              end) as HZ.
    { unfold Codexbar._parse_iso8601, truthy.
      rewrite append_not_empty by discriminate. simpl negb. cbv iota.
      rewrite (endswith_append s "Z"), (drop_last_append s "Z"). reflexivity. }
    assert (Codexbar._parse_iso8601 L (VStr (s ++ "+00:00"))
            = match fromisoformat L (s ++ "+00:00") with
              | Ok dt => Some dt
              | Raise _ => None
              end) as HO.
    { unfold Codexbar._parse_iso8601, truthy.
      rewrite append_not_empty by discriminate. simpl negb. cbv iota.
      change (s ++ "+00:00") with (s ++ ("+00:0" ++ "0")) at 1.
      rewrite <- append_assoc, endswith_other_char by discriminate.
      reflexivity. }
    rewrite HZ, HO. auto.
  - intros v Hv. change Limitsbar._parse_iso8601 with Codexbar._parse_iso8601.
    assert (Codexbar._parse_iso8601 L v = None); [|auto].
    unfold Codexbar._parse_iso8601.
    destruct v as [|b|z|f|s|l|d]; try (destruct (negb _); reflexivity).
    rewrite (Hv s eq_refl). reflexivity.
Qed.

Lemma parse_iso8601_z_suffix_witness :
  Codexbar._parse_iso8601 Demo.lib (VList [VStr "2026-11-01T12:00:00Z"]) = None
  /\ Limitsbar._parse_iso8601 Demo.lib (VList [VStr "2026-11-01T12:00:00Z"]) = None.
Proof.
  apply (proj2 (parse_iso8601_z_suffix Demo.lib)). intros s H. discriminate H.
Defined.

Lemma prefix_cons (a b : Ascii.ascii) (s t : string) :
  String.prefix (String a s) (String b t)
  = if Ascii.ascii_dec a b then String.prefix s t else false.
Proof. reflexivity. Qed.

Lemma replace_without_plus (body t : string) :
  contains body "+" = false ->
  replace_from 0 "+00:00" "Z" (body ++ t) = body ++ replace_from 0 "+00:00" "Z" t.
Proof.
  induction body as [|c body IH]; intros H; [reflexivity|].
  rewrite append_cons.
  change (contains (String c body) "+")
    with (String.prefix "+" (String c body) || contains body "+") in H.
  apply orb_false_elim in H as [Hp Hc].
  rewrite prefix_cons in Hp.
  change (replace_from 0 "+00:00" "Z" (String c (body ++ t)))
    with (if String.prefix "+00:00" (String c (body ++ t))
          then "Z" ++ replace_from (String.length "+00:00" - 1) "+00:00" "Z" (body ++ t)
          else String c (replace_from 0 "+00:00" "Z" (body ++ t))).
  rewrite prefix_cons.
  destruct (Ascii.ascii_dec "+" c) as [E|E]; [destruct body; discriminate Hp|].
  rewrite (IH Hc). reflexivity.
Qed.

(** X18: the [last_refresh] a refresh writes is read back by
    [_parse_iso8601] as the instant of the refresh, and [_needs_refresh] on
    it is true exactly when more than 8 days have passed since then.  A run
    that holds this stamp takes the refresh branch exactly when its refresh
    token is truthy and more than 8 days have passed; otherwise it keeps the
    stored access token.  Both scripts. *)
Theorem refresh_stamp_read_back (L : pylib) (t : Z) (body : string) (w : world) :
  let now := utc_datetime t in
  let stamp := VStr (replace (isoformat L now) "+00:00" "Z") in
  isoformat L now = body ++ "+00:00" ->
  contains body "+" = false ->
  fromisoformat L (isoformat L now) = Ok now ->
  stamp = VStr (body ++ "Z")
  /\ Codexbar._parse_iso8601 L stamp = Some now
  /\ Limitsbar._parse_iso8601 L stamp = Some now
  /\ fst (Codexbar._needs_refresh (Codexbar._parse_iso8601 L stamp) w)
     = Ok (Z.ltb (8 * 24 * 60 * 60 * 1000000) (clock w (ticks w) - t))
  /\ fst (Limitsbar._needs_refresh (Limitsbar._parse_iso8601 L stamp) w)
     = Ok (Z.ltb (8 * 24 * 60 * 60 * 1000000) (clock w (ticks w) - t))
  /\ forall c : Codexbar.credentials,
       Codexbar.cr_last_refresh c = Codexbar._parse_iso8601 L stamp ->
       Codexbar.refresh_if_stale L c w
       = (if truthy (Codexbar.cr_refresh_token c)
          then
            if Z.ltb (8 * 24 * 60 * 60 * 1000000) (clock w (ticks w) - t)
            then Codexbar.refresh L c (set_ticks (S (ticks w)) w)
            else (Ok (Codexbar.cr_access_token c), set_ticks (S (ticks w)) w)
          else (Ok (Codexbar.cr_access_token c), w))
       /\ Limitsbar.refresh_if_stale L (limitsbar_credentials c) w
          = Codexbar.refresh_if_stale L c w.
Proof.
  intros now stamp Hiso Hplus Hback.
  assert (stamp = VStr (body ++ "Z")) as Hs.
  { unfold stamp, replace. rewrite Hiso, (replace_without_plus body _ Hplus).
    reflexivity. }
  change Limitsbar._parse_iso8601 with Codexbar._parse_iso8601.
  change Limitsbar._needs_refresh with Codexbar._needs_refresh.
  assert (Codexbar._parse_iso8601 L stamp = Some now) as Hp.
  { rewrite Hs.
    unfold Codexbar._parse_iso8601, truthy.
    rewrite append_not_empty by discriminate. simpl negb. cbv iota.
    rewrite (endswith_append body "Z"), (drop_last_append body "Z").
    rewrite <- Hiso, Hback. reflexivity. }
  assert (Codexbar._needs_refresh (Some now) w
          = (Ok (Z.ltb (8 * 24 * 60 * 60 * 1000000) (clock w (ticks w) - t)),
             set_ticks (S (ticks w)) w)) as Hn.
  { unfold Codexbar._needs_refresh, Codexbar._now_utc, bind, lift, datetime_sub,
      now, utc_datetime.
    cbn [fst snd utcoffset wall]. unfold py_gt. cbn [xnum_of_value].
    change Codexbar.AUTH_REFRESH_INTERVAL_SECONDS with 691200.
    rewrite total_seconds_gt by (change (2 ^ 34) with 17179869184; lia).
    do 3 f_equal; lia. }
  rewrite Hp, Hn. cbn [fst].
  do 5 (split; [first [assumption | reflexivity]|]).
  intros c Hc. split; [|now rewrite refresh_if_stale_limitsbar].
  unfold Codexbar.refresh_if_stale, bind. rewrite Hc.
  destruct (truthy (Codexbar.cr_refresh_token c)); [|reflexivity].
  rewrite Hn. destruct (Z.ltb _ _); reflexivity.
Qed.

Lemma refresh_stamp_read_back_witness :
  Codexbar._parse_iso8601 Demo.lib
    (VStr (replace (isoformat Demo.lib (utc_datetime 1793534400000000)) "+00:00" "Z"))
  = Some (utc_datetime 1793534400000000).
Proof.
  refine (proj1 (proj2 (refresh_stamp_read_back Demo.lib 1793534400000000
                          "2026-11-01T12:00:00"
                          (Demo.world_of ∅ Demo.codex_45_10 Demo.claude_88_5)
                          _ _ _)));
    vm_compute; reflexivity.
Defined.
